(** * FitnessTrainerAI: the agent orchestration engine of [app/agent.py]

    A shallow embedding of [FitnessCoachAgent]: the conversation excerpt,
    the coordinator and its brace scan, the keyword mining done by the
    tool handlers, the handlers themselves, and [chat], which sequences
    coordination, tool execution and synthesis.

    Conventions.  Python [str] is modelled by [string]; [lower()] acts on
    the letters A-Z.  A [dict] that is only read by key is a [gmap]; the
    decoded coordination decision is a JSON value whose objects keep
    their key order, because [chat] may iterate over it.  Calls to the
    completion service and exceptions are made explicit by a small
    state-and-exception monad. *)

From Stdlib Require Import ZArith String Ascii List Lia Bool DecimalString.
From stdpp Require Import base option gmap strings.
Import ListNotations.
Open Scope string_scope.

(* ------------------------------------------------------------------ *)
(** ** Text primitives *)

Module Text.

(** The double quote and the line feed, which the templates contain. *)
Definition dq : string := String (ascii_of_nat 34) EmptyString.
Definition nl : string := String (ascii_of_nat 10) EmptyString.

Definition lower_ascii (c : ascii) : ascii :=
  let n := nat_of_ascii c in
  if (65 <=? n)%nat && (n <=? 90)%nat then ascii_of_nat (n + 32) else c.

(** [s.lower()] *)
Fixpoint lower (s : string) : string :=
  match s with
  | EmptyString => EmptyString
  | String c s' => String (lower_ascii c) (lower s')
  end.

(** [needle in hay] *)
Fixpoint contains (needle hay : string) : bool :=
  if String.prefix needle hay then true
  else match hay with
       | EmptyString => false
       | String _ hay' => contains needle hay'
       end.

(** [any(w in hay for w in words)] *)
Definition contains_any (words : list string) (hay : string) : bool :=
  existsb (fun w => contains w hay) words.

(** [s.find(c)] for a one-character needle: the least index, or -1. *)
Fixpoint find (c : ascii) (s : string) : Z :=
  match s with
  | EmptyString => (-1)%Z
  | String d s' =>
      if Ascii.eqb c d then 0%Z
      else let r := find c s' in
           if (r =? -1)%Z then (-1)%Z else (r + 1)%Z
  end.

(** [s.rfind(c)] for a one-character needle: the greatest index, or -1. *)
Fixpoint rfind (c : ascii) (s : string) : Z :=
  match s with
  | EmptyString => (-1)%Z
  | String d s' =>
      let r := rfind c s' in
      if (r =? -1)%Z then (if Ascii.eqb c d then 0%Z else (-1)%Z)
      else (r + 1)%Z
  end.

(** [s[a:b]] for [0 <= a <= b]. *)
Definition slice (a b : Z) (s : string) : string :=
  String.substring (Z.to_nat a) (Z.to_nat (b - a)) s.

(** [s[:n]] *)
Definition take (n : nat) (s : string) : string := String.substring 0 n s.

(** [sep.join(parts)] *)
Definition join (sep : string) (parts : list string) : string :=
  String.concat sep parts.

(** [xs[-n:]] for a positive [n]. *)
Definition last_n {A} (n : nat) (xs : list A) : list A :=
  skipn (List.length xs - n) xs.

(** [str(n)] for an [int]. *)
Definition str_of_Z (n : Z) : string := NilZero.string_of_int (Z.to_int n).

(** [str(n)] for a length. *)
Definition str_of_nat (n : nat) : string := str_of_Z (Z.of_nat n).

End Text.
Import Text.

(* ------------------------------------------------------------------ *)
(** ** Python values, exceptions and the services of the run time *)

(** An exception: its class and the text [str(e)]. *)
Inductive exn : Type := PyExn (cls msg : string).

Definition exn_str (e : exn) : string :=
  match e with PyExn _ msg => msg end.

Inductive result (A : Type) : Type :=
| Ok (a : A)
| Raise (e : exn).
Arguments Ok {A} a.
Arguments Raise {A} e.

(** A decoded JSON document.  Objects keep the order of their keys. *)
#[warnings="-register-all"]
Inductive json : Type :=
| JNull
| JBool (b : bool)
| JInt (n : Z)
| JFloat (literal : string)
| JStr (s : string)
| JArr (items : list json)
| JObj (members : list (string * json)).

(** What the interpreter and its libraries provide and the agent only
    uses: binary floating point, [json.loads] ([None] when it raises)
    and the order in which a [set] of strings is iterated. *)
Class PyRuntime : Type := {
  pyfloat : Type;
  float_str : pyfloat -> string;
  float_bool : pyfloat -> bool;
  float_mul_int : pyfloat -> Z -> pyfloat;
  float_format_1f : pyfloat -> string;
  json_loads : string -> option json;
  set_iter : list string -> list string
}.

Section Values.
Context {R : PyRuntime}.

(** The values a profile field can hold. *)
Inductive pyval : Type :=
| PNone
| PInt (n : Z)
| PFloat (x : pyfloat)
| PStr (s : string).

(** [str(v)], which is what an f-string slot [{v}] renders. *)
Definition py_str (v : pyval) : string :=
  match v with
  | PNone => "None"
  | PInt n => str_of_Z n
  | PFloat x => float_str x
  | PStr s => s
  end.

(** The truth value of [v], as in [v if v else ...]. *)
Definition py_bool (v : pyval) : bool :=
  match v with
  | PNone => false
  | PInt n => negb (n =? 0)%Z
  | PFloat x => float_bool x
  | PStr s => negb (s =? "")%string
  end.

Fixpoint str_repeat (s : string) (n : nat) : string :=
  match n with
  | O => EmptyString
  | S n' => s ++ str_repeat s n'
  end.

(** [v * n] for an int [n]. *)
Definition py_mul (v : pyval) (n : Z) : result pyval :=
  match v with
  | PNone =>
      Raise (PyExn "TypeError"
               "unsupported operand type(s) for *: 'NoneType' and 'int'")
  | PInt m => Ok (PInt (m * n))
  | PFloat x => Ok (PFloat (float_mul_int x n))
  | PStr s => Ok (PStr (str_repeat s (Z.to_nat n)))
  end.

(** The integer that [float(n)] denotes: [n] rounded to 53 significant
    bits, ties to even; [None] when the result leaves the binary64
    range and the conversion raises [OverflowError]. *)
Definition float_of_int_value (n : Z) : option Z :=
  let a := Z.abs n in
  if (a <? 2 ^ 53)%Z then Some n
  else
    let k := (Z.log2 a - 52)%Z in
    let q := Z.shiftr a k in
    let r := (a - Z.shiftl q k)%Z in
    let half := Z.shiftl 1 (k - 1) in
    let q' := if (half <? r)%Z || ((r =? half)%Z && Z.odd q)
              then (q + 1)%Z else q in
    let v := Z.shiftl q' k in
    if (2 ^ 1024 <=? v)%Z then None else Some (Z.sgn n * v)%Z.

(** [format(v, '.1f')] *)
Definition py_format_1f (v : pyval) : result string :=
  match v with
  | PNone =>
      Raise (PyExn "TypeError"
               "unsupported format string passed to NoneType.__format__")
  | PInt n =>
      match float_of_int_value n with
      | Some m => Ok (str_of_Z m ++ ".0")
      | None => Raise (PyExn "OverflowError"
                         "int too large to convert to float")
      end
  | PFloat x => Ok (float_format_1f x)
  | PStr _ =>
      Raise (PyExn "ValueError"
               "Unknown format code 'f' for object of type 'str'")
  end.

End Values.

(* ------------------------------------------------------------------ *)
(** ** Completion calls and exceptions *)

(** One entry of the [messages] list sent to the completion service:
    its role and its content. *)
Definition chat_message : Type := (string * string)%type.

(** The completion service.  Its answer may depend on the request and on
    how many requests were made before; it returns the text of the first
    choice or fails.  The temperature is counted in tenths. *)
Definition completion : Type :=
  nat -> list chat_message -> Z -> result string.

(** A computation that may call the service and may raise: it maps the
    number of calls made so far to an outcome and the new number. *)
Definition M (A : Type) : Type := nat -> result A * nat.

Definition ret {A} (a : A) : M A := fun w => (Ok a, w).

Definition raise {A} (e : exn) : M A := fun w => (Raise e, w).

Definition bind {A B} (c : M A) (k : A -> M B) : M B :=
  fun w => match c w with
           | (Ok a, w') => k a w'
           | (Raise e, w') => (Raise e, w')
           end.

(** [try: c except Exception as e: h(e)] *)
Definition try_except {A} (c : M A) (h : exn -> M A) : M A :=
  fun w => match c w with
           | (Ok a, w') => (Ok a, w')
           | (Raise e, w') => h e w'
           end.

Definition lift {A} (r : result A) : M A := fun w => (r, w).

Notation "'do' x <- c ; k" := (bind c (fun x => k))
  (at level 10, x name, c at level 100, k at level 200).

(* ------------------------------------------------------------------ *)
(** ** The agent *)

(** One entry of the conversation history: a dict with the keys [role],
    [content] and [timestamp]; the agent reads the first two. *)
Definition message : Type := gmap string string.

(** The state set up by [__init__]. *)
Record FitnessCoachAgent {R : PyRuntime} : Type := {
  user_data : gmap string pyval;
  conversation_history : list message
}.

(** One entry of [tool_results]. *)
Record tool_result : Type := {
  tool : string;
  result_text : string
}.

Module Prompts.
Section Templates.
Context {R : PyRuntime}.

(** The slot [{self.user_data.get(key, dflt)}]. *)
Definition fmt_get (ud : gmap string pyval) (key dflt : string) : string :=
  py_str (default (PStr dflt) (ud !! key)).

(** The f-string bound to [system_prompt] in [_coordinator_llm]. *)
Definition coordinator_system_prompt (ud : gmap string pyval) (conversation_context : string) : string :=
  String.concat EmptyString
    [ "You are a coordination system for a fitness coach.
            Look at what the user is asking and decide which tools to use.

            USER PROFILE:
            - Name: "; fmt_get ud "username" "User";
      "
            - Age: "; fmt_get ud "age" "unknown";
      "
            - Weight: "; fmt_get ud "weight" "unknown";
      " lb
            - Height: "; fmt_get ud "height" "unknown";
      " ft
            - Goal: "; fmt_get ud "fitness_goal" "not set";
      "
            - Activity Level: "; fmt_get ud "activity_level" "not set";
      "
            - Preferences: "; fmt_get ud "preferences" "none";
      "
            - Dietary Restrictions: ";
      fmt_get ud "dietary_restrictions" "none";
      "

            RECENT CONVERSATION:
            "; conversation_context;
      "

            AVAILABLE TOOLS:
            1. create_workout_plan - Creates personalized workout routines based on goals
            2. create_meal_plan - Creates personalized meal/nutrition plans
            3. analyze_progress - Analyzes fitness journey, identifies patterns and improvements
            4. give_motivation - Provides encouragement and motivational support
            5. calculate_calories - Calculates daily calorie needs and macros based on goals
            6. injury_prevention - Provides injury prevention advice and safe exercise guidance

            COORDINATION RULES:
            - Use context! If they asked about workouts before, consider that.
            - Can use MULTIPLE tools if needed (e.g., workout + motivation)
            - Use analyze_progress if they mention "; dq; "progress";
      dq; ", "; dq; "doing"; dq; ", "; dq; "results"; dq; ", "; dq;
      "how am I"; dq;
      "
            - Use motivation if they seem discouraged or ask for encouragement
            - For general questions, use NO tools (tools: [])

            Respond with ONLY valid JSON:
            {
                "; dq; "tools"; dq; ": ["; dq; "tool_name1"; dq; ", ";
      dq; "tool_name2"; dq;
      "],
                "; dq; "reasoning"; dq; ": "; dq;
      "Brief explanation of why these tools"; dq;
      ",
                "; dq; "context_aware"; dq; ": "; dq;
      "How conversation history influenced this decision"; dq;
      "
            }
            " ].

(** The f-string bound to [system_prompt] in [create_workout_plan]. *)
Definition workout_system_prompt (ud : gmap string pyval) (likes_str dislikes_str : string) : string :=
  String.concat EmptyString
    [ "You are an expert fitness trainer creating personalized workout plans.
            USER PROFILE:
            - Age: "; fmt_get ud "age" "unknown";
      "
            - Weight: "; fmt_get ud "weight" "unknown";
      " lb
            - Height: "; fmt_get ud "height" "unknown";
      " ft
            - Goal: "; fmt_get ud "fitness_goal" "general fitness";
      "
            - Activity Level: ";
      fmt_get ud "activity_level" "moderate";
      "
            - Stated Preferences: "; fmt_get ud "preferences" "none";
      "

            CONVERSATION MEMORY:
            - User LIKES: "; likes_str;
      "
            - User DISLIKES: "; dislikes_str;
      "

            CRITICAL RULES:
            1. NEVER include exercises the user dislikes
            2. If they dislike weightlifting, use bodyweight exercises instead
            3. If they dislike running, use other cardio like cycling, rowing, or walking
            4. Prioritize activities they like
            5. Respect their preferences completely

            Create a detailed, personalized workout plan including:
            1. Workout name that reflects their goal
            2. Specific exercises with sets, reps, rest periods
            3. Duration (in minutes)
            4. Safety tips and modifications
            5. Why this plan matches their goal and preferences

            Format as a clear, structured plan." ].

(** The f-string bound to [system_prompt] in [create_meal_plan]. *)
Definition meal_system_prompt (ud : gmap string pyval) : string :=
  String.concat EmptyString
    [ "You are a nutritionist creating meal plans.
            USER PROFILE:
            - Age: "; fmt_get ud "age" "unknown";
      "
            - Weight: "; fmt_get ud "weight" "unknown";
      " lb
            - Goal: "; fmt_get ud "fitness_goal" "general fitness";
      "
            - Activity Level: ";
      fmt_get ud "activity_level" "moderate";
      "
            - Dietary Restrictions: ";
      fmt_get ud "dietary_restrictions" "none";
      "

            CRITICAL: Respect ALL dietary restrictions! If vegetarian, NO meat. If allergies, AVOID those foods.

            Create a detailed meal plan including:
            1. All meals: breakfast, lunch, dinner, snacks
            2. Calorie estimates per meal and total
            3. Macro breakdown (protein/carbs/fats in grams)
            4. Quick preparation tips
            5. Why this supports their fitness goal

            Be specific with portions and ingredients." ].

(** The f-string bound to [system_prompt] in [analyze_progress]. *)
Definition progress_system_prompt (ud : gmap string pyval) (progress_summary history_len : string) : string :=
  String.concat EmptyString
    [ "You are a fitness analyst providing insightful progress analysis.
            USER PROFILE:
            - Goal: "; fmt_get ud "fitness_goal" "general fitness";
      "
            - Activity Level: ";
      fmt_get ud "activity_level" "moderate";
      "
            - Started: "; fmt_get ud "created_at" "recently";
      "

            CONVERSATION ANALYSIS:
            "; progress_summary;
      "

            Total conversation messages: "; history_len;
      "

            Provide a thoughtful analysis including:
            1. What progress indicators you see
            2. Positive patterns in their engagement
            3. Specific areas for improvement
            4. Actionable next steps
            5. Encouragement based on their actual activity

            Be honest but motivating. Use data from the conversation to be specific." ].

(** The f-string bound to [system_prompt] in [give_motivation]. *)
Definition motivation_system_prompt (ud : gmap string pyval) (emotional_context : string) : string :=
  String.concat EmptyString
    [ "You are a supportive fitness coach providing motivation.
            USER PROFILE:
            - Goal: "; fmt_get ud "fitness_goal" "general fitness";
      "
            - Activity Level: ";
      fmt_get ud "activity_level" "moderate";
      "

            EMOTIONAL CONTEXT: "; emotional_context;
      "

            Give them real motivation that:
            1. Acknowledges their specific goal
            2. Responds to how they're feeling
            3. Offers practical encouragement
            4. Gives them a specific next step

            Don't be generic! Make it personal." ].

(** The f-string bound to [system_prompt] in [calculate_calories]. *)
Definition calories_system_prompt (ud : gmap string pyval) (age_text weight_text height_text inches_text : string) : string :=
  String.concat EmptyString
    [ "You are a nutritionist calculating calorie needs.
            USER PROFILE:
            - Age: "; age_text;
      "
            - Weight: "; weight_text;
      " lb
            - Height: "; height_text; " ft ("; inches_text;
      " inches)
            - Gender: assumed male (adjust if needed)
            - Fitness Goal: ";
      fmt_get ud "fitness_goal" "not specified";
      "
            - Activity Level: ";
      fmt_get ud "activity_level" "moderate";
      "

            TASK: Calculate personalized daily calorie and macronutrient needs.

            CALCULATION STEPS:
            1. Calculate BMR using Mifflin-St Jeor:
                - Men: (10 * weight_kg) + (6.25 * height_cm) - (5 * age) + 5
                - Women: (10 * weight_kg) + (6.25 * height_cm) - (5 * age) - 161

            2. Calculate TDEE (BMR * activity multiplier):
                - Sedentary: 1.2
                - Light: 1.375
                - Moderate: 1.55
                - Active: 1.725
                - Very Active: 1.9

            3. Adjust for goal:
                - Lose weight: -500 cal (1 lb/week) or -250 cal (0.5 lb/week)
                - Gain muscle: +250-500 cal
                - Maintain: TDEE

            4. Calculate macros:
                - Protein: 0.8-1.2g per lb bodyweight (higher for muscle gain/fat loss)
                - Fats: 25-30% of total calories
                - Carbs: Remaining calories

            PROVIDE:
            1. BMR calculation with formula shown
            2. TDEE with activity multiplier
            3. Target daily calories for their goal
            4. Macro breakdown (grams and percentages)
            5. Meal timing suggestions
            6. Weekly expected progress (weight change)
            7. Tips for tracking and adjusting

            Show your work! Include the actual calculations so they understand." ].

(** The f-string bound to [system_prompt] in [injury_prevention]. *)
Definition injury_system_prompt (ud : gmap string pyval) (exercise_context pain_context : string) : string :=
  String.concat EmptyString
    [ "You are a certified sports medicine specialist and injury prevention expert.

        USER PROFILE:
        - Age: "; fmt_get ud "age" "unknown";
      "
        - Weight: "; fmt_get ud "weight" "unknown";
      " lb
        - Fitness Goal: "; fmt_get ud "fitness_goal" "general fitness";
      "
        - Activity Level: "; fmt_get ud "activity_level" "moderate";
      "

        CONVERSATION CONTEXT:
        - Exercises mentioned: "; exercise_context;
      "
        - Pain indicators: "; pain_context;
      "

        CRITICAL: Provide practical, science-based injury prevention advice.

        PROVIDE:
        1. Specific risks for their goal/activity level
            - Age-related considerations
            - Common injuries for their activities

        2. Prevention strategies:
            - Warm-up protocols (specific exercises, duration)
            - Proper form tips for mentioned exercises
            - Progression guidelines (don't increase too fast)

        3. Recovery essentials:
            - Rest day recommendations
            - Sleep importance
            - Active recovery ideas

        4. Warning signs:
            - When to stop exercising
            - Difference between muscle soreness and injury
            - When to see a doctor

        5. Specific form cues:
            - If they mentioned exercises, give detailed form tips
            - Common mistakes to avoid

        Be specific and actionable. This could prevent a real injury!

        IMPORTANT DISCLAIMERS:
        - If they report pain, advise consulting a healthcare professional
        - Don't diagnose injuries - recommend professional evaluation
        - Emphasize proper progression over quick results" ].

(** The f-string bound to [synthesis_prompt] in [chat]. *)
Definition synthesis_prompt (ud : gmap string pyval) (user_message tool_outputs : string) : string :=
  String.concat EmptyString
    [ "You are a friendly fitness coach. Combine the info below into a natural response.
                USER: "; fmt_get ud "username" "User";
      "
                THEIR GOAL: ";
      fmt_get ud "fitness_goal" "general fitness";
      "

                They asked: "; dq; user_message; dq;
      "

                Tool outputs:
                "; tool_outputs;
      "

                Write a natural response that:
                1. Directly answers their question
                2. Uses the tool outputs but sounds human
                3. Feels personal, not robotic
                4. Ends with a question or next step

                Be warm and encouraging!" ].

(** The f-string bound to [system_prompt] in [chat]. *)
Definition conversation_system_prompt (ud : gmap string pyval) (conversation_context : string) : string :=
  String.concat EmptyString
    [ "You are a friendly fitness coach having a conversation.
                USER PROFILE:
                - Name: "; fmt_get ud "username" "User";
      "
                - Age: "; fmt_get ud "age" "unknown";
      "
                - Weight: "; fmt_get ud "weight" "unknown";
      " lb
                - Height: "; fmt_get ud "height" "unknown";
      " ft
                - Goal: "; fmt_get ud "fitness_goal" "not set yet";
      "
                - Activity Level: ";
      fmt_get ud "activity_level" "not set yet";
      "
                - Preferences: ";
      fmt_get ud "preferences" "none specified";
      "
                - Dietary Restrictions: ";
      fmt_get ud "dietary_restrictions" "none";
      "

                RECENT CONVERSATION:
                "; conversation_context;
      "

                Chat naturally! Remember what you've talked about before. If they ask for BMI or calories and you have their data, do the math for them." ].

End Templates.
End Prompts.
Import Prompts.

Section Agent.
Context {R : PyRuntime}.

(** The module-level [client] and the agent [self]. *)
Variable client : completion.
Variable self : FitnessCoachAgent.

Let ud : gmap string pyval := user_data self.
Let history : list message := conversation_history self.

(** [client.chat.completions.create(...)] followed by the selection of
    the first choice's content: one request to the service. *)
Definition create_completion (messages : list chat_message)
    (temperature : Z) : M string :=
  fun w => (client w messages temperature, S w).

(** [_call_llm]: the request, whose exception is reported and raised
    again. *)
Definition _call_llm (messages : list chat_message) (temperature : Z)
    : M string :=
  try_except (create_completion messages temperature)
             (fun e => raise e).

(** [msg.get('role') == 'user'] *)
Definition is_user (msg : message) : bool :=
  bool_decide (msg !! "role" = Some "user").

(** [msg.get('content', '')] *)
Definition content_of (msg : message) : string :=
  default "" (msg !! "content").

(** [_get_conversation_context] *)
Definition _get_conversation_context (last : nat) : string :=
  match history with
  | [] => "No previous conversation."
  | _ :: _ =>
      let recent := last_n last history in
      let context_lines :=
        map (fun msg =>
               let role := default "unknown" (msg !! "role") in
               let content := take 100 (content_of msg) in
               role ++ ": " ++ content)
            recent in
      join nl context_lines
  end.

(** The value returned when no decision can be decoded. *)
Definition empty_decision : json :=
  JObj [ ("tools", JArr []);
         ("reasoning", JStr "parsing error");
         ("context_aware", JStr "none") ].

(** The span handed to [json.loads]: [response[start:end]] when the
    guard of [_coordinator_llm] holds. *)
Definition json_span (response : string) : option string :=
  let start := find "{" response in
  let end_ := (rfind "}" response + 1)%Z in
  if negb (start =? -1)%Z && (start <? end_)%Z
  then Some (slice start end_ response)
  else None.

(** The [try] block of [_coordinator_llm] and the fallback after it. *)
Definition decode_decision (response : string) : json :=
  match json_span response with
  | Some json_str =>
      match json_loads json_str with
      | Some decision => decision
      | None => empty_decision
      end
  | None => empty_decision
  end.

(** [_coordinator_llm] *)
Definition _coordinator_llm (user_message : string) : M json :=
  let conversation_context := _get_conversation_context 3 in
  let system_prompt := coordinator_system_prompt ud conversation_context in
  let messages := [ ("system", system_prompt); ("user", user_message) ] in
  do response <- _call_llm messages 2;
  ret (decode_decision response).

(** [xs.append(x)] under [if b]. *)
Definition append_if (b : bool) (x : string) (xs : list string)
    : list string :=
  if b then xs ++ [x] else xs.

(** One iteration of the preference loop of [create_workout_plan]. *)
Definition preference_step (acc : list string * list string)
    (msg : message) : list string * list string :=
  let '(likes, dislikes) := acc in
  if is_user msg then
    let content := lower (content_of msg) in
    if contains "don't want" content || contains "don't like" content then
      let dislikes :=
        append_if (contains "lift" content || contains "weight" content)
                  "weightlifting" dislikes in
      let dislikes := append_if (contains "run" content) "running" dislikes in
      let dislikes := append_if (contains "cardio" content) "cardio" dislikes in
      let dislikes :=
        append_if (contains "gym" content) "gym workouts" dislikes in
      (likes, dislikes)
    else if contains "like" content || contains "prefer" content
            || contains "want to" content then
      let likes :=
        append_if (contains "run" content || contains "running" content)
                  "running" likes in
      let likes :=
        append_if (contains "lift" content || contains "weight" content)
                  "weightlifting" likes in
      let likes := append_if (contains "cardio" content) "cardio" likes in
      let likes := append_if (contains "yoga" content) "yoga" likes in
      let likes := append_if (contains "swim" content) "swimming" likes in
      (likes, dislikes)
    else (likes, dislikes)
  else (likes, dislikes).

(** The lists [likes] and [dislikes] when the loop of
    [create_workout_plan] ends. *)
Definition mined_preferences : list string * list string :=
  fold_left preference_step (last_n 10 history) ([], []).

(** [sep.join(set(xs)) if xs else empty] *)
Definition join_set (sep : string) (xs : list string) (empty : string)
    : string :=
  match xs with
  | [] => empty
  | _ :: _ => join sep (set_iter xs)
  end.

(** [create_workout_plan] *)
Definition create_workout_plan (user_message : string) : M string :=
  let '(likes, dislikes) := mined_preferences in
  let likes_str := join_set ", " likes "none detected" in
  let dislikes_str := join_set ", " dislikes "none detected" in
  let system_prompt := workout_system_prompt ud likes_str dislikes_str in
  let messages := [ ("system", system_prompt); ("user", user_message) ] in
  _call_llm messages 7.

(** [create_meal_plan] *)
Definition create_meal_plan (user_message : string) : M string :=
  let system_prompt := meal_system_prompt ud in
  let messages := [ ("system", system_prompt); ("user", user_message) ] in
  _call_llm messages 7.

(** One iteration of the loop of [analyze_progress]. *)
Definition progress_step (acc : list string * nat) (msg : message)
    : list string * nat :=
  let '(progress_clues, workout_mentions) := acc in
  if is_user msg then
    let content := lower (content_of msg) in
    let workout_mentions :=
      if contains_any ["workout"; "exercise"; "ran"; "lifted"; "trained"]
                      content
      then (workout_mentions + 1)%nat else workout_mentions in
    let progress_clues :=
      append_if (contains "tired" content || contains "sore" content)
        "User mentioned physical fatigue (good sign of activity)"
        progress_clues in
    let progress_clues :=
      append_if (contains "easier" content || contains "better" content)
        "User noted improvement" progress_clues in
    (progress_clues, workout_mentions)
  else (progress_clues, workout_mentions).

(** [progress_clues] and [workout_mentions] when the loop of
    [analyze_progress] ends. *)
Definition mined_progress : list string * nat :=
  fold_left progress_step history ([], O).

(** [analyze_progress] *)
Definition analyze_progress (user_message : string) : M string :=
  let '(progress_clues, workout_mentions) := mined_progress in
  let progress_summary :=
    str_of_nat workout_mentions ++ " workout mentions; "
    ++ join "; " (firstn 3 progress_clues) in
  let history_len := str_of_nat (List.length history) in
  let system_prompt :=
    progress_system_prompt ud progress_summary history_len in
  let messages := [ ("system", system_prompt); ("user", user_message) ] in
  _call_llm messages 7.

(** [recent_user_messages] of [give_motivation]. *)
Definition recent_user_messages : list string :=
  map content_of (List.filter is_user (last_n 5 history)).

(** [emotional_context] of [give_motivation]. *)
Definition emotional_context : string :=
  let recent_text := lower (join " " recent_user_messages) in
  if contains_any ["tired"; "hard"; "difficult"; "struggle"; "cant"]
                  recent_text
  then "struggling, needs encouragement"
  else if contains_any ["good"; "great"; "better"; "progress"] recent_text
  then "positive, reinforce success"
  else "neutral".

(** [give_motivation] *)
Definition give_motivation (user_message : string) : M string :=
  let system_prompt := motivation_system_prompt ud emotional_context in
  let messages := [ ("system", system_prompt); ("user", user_message) ] in
  _call_llm messages 8.

(** The slot [{height_ft * 12:.1f}] of [calculate_calories]. *)
Definition inches_slot (height_ft : pyval) : result string :=
  match py_mul height_ft 12 with
  | Ok inches => py_format_1f inches
  | Raise e => Raise e
  end.

(** [calculate_calories] *)
Definition calculate_calories (user_message : string) : M string :=
  let weight_lb := default (PInt 0) (ud !! "weight") in
  let height_ft := default (PInt 0) (ud !! "height") in
  let age := default (PInt 0) (ud !! "age") in
  do inches_text <- lift (inches_slot height_ft);
  let system_prompt :=
    calories_system_prompt ud
      (if py_bool age then py_str age else "unknown")
      (py_str weight_lb) (py_str height_ft) inches_text in
  let messages := [ ("system", system_prompt); ("user", user_message) ] in
  _call_llm messages 3.

(** [for w in words: if w in content: xs.append(f w)] *)
Definition append_hits (words : list string) (f : string -> string)
    (content : string) (xs : list string) : list string :=
  fold_left (fun xs w => append_if (contains w content) (f w) xs) words xs.

(** One iteration of the loop of [injury_prevention]. *)
Definition injury_step (acc : list string * list string) (msg : message)
    : list string * list string :=
  let '(mentioned_exercises, pain_indicators) := acc in
  if is_user msg then
    let content := lower (content_of msg) in
    let exercises :=
      ["squat"; "deadlift"; "bench"; "run"; "lunge"; "press"; "curl"; "row"] in
    let mentioned_exercises :=
      append_hits exercises (fun exercise => exercise) content
                  mentioned_exercises in
    let pain_words := ["pain"; "hurt"; "sore"; "injury"; "strain"; "ache"] in
    let pain_indicators :=
      append_hits pain_words (fun word => "mentioned '" ++ word ++ "'")
                  content pain_indicators in
    (mentioned_exercises, pain_indicators)
  else (mentioned_exercises, pain_indicators).

(** [mentioned_exercises] and [pain_indicators] when the loop of
    [injury_prevention] ends. *)
Definition mined_injury_context : list string * list string :=
  fold_left injury_step (last_n 10 history) ([], []).

(** [injury_prevention] *)
Definition injury_prevention (user_message : string) : M string :=
  let '(mentioned_exercises, pain_indicators) := mined_injury_context in
  let exercise_context :=
    join_set ", " mentioned_exercises "none mentioned yet" in
  let pain_context := join_set "; " pain_indicators "none reported" in
  let system_prompt :=
    injury_system_prompt ud exercise_context pain_context in
  let messages := [ ("system", system_prompt); ("user", user_message) ] in
  _call_llm messages 5.

(** [self.tools], the registry filled by [__init__]. *)
Definition tools : gmap string (string -> M string) :=
  list_to_map
    [ ("create_workout_plan", create_workout_plan);
      ("create_meal_plan", create_meal_plan);
      ("analyze_progress", analyze_progress);
      ("give_motivation", give_motivation);
      ("calculate_calories", calculate_calories);
      ("injury_prevention", injury_prevention) ].

(** [d.get(key, dflt)] on a decoded object. *)
Fixpoint dict_get (key : string) (members : list (string * json))
    (dflt : json) : json :=
  match members with
  | [] => dflt
  | (k, v) :: rest =>
      if (k =? key)%string then v else dict_get key rest dflt
  end.

(** [type(v).__name__] *)
Definition type_name (v : json) : string :=
  match v with
  | JNull => "NoneType"
  | JBool _ => "bool"
  | JInt _ => "int"
  | JFloat _ => "float"
  | JStr _ => "str"
  | JArr _ => "list"
  | JObj _ => "dict"
  end.

Definition type_error (msg : string) : exn := PyExn "TypeError" msg.

(** The items that [for x in v] visits, or the [TypeError] it raises. *)
Definition py_iter (v : json) : result (list json) :=
  match v with
  | JArr items => Ok items
  | JObj members => Ok (map (fun kv => JStr (fst kv)) members)
  | JStr s =>
      Ok (map (fun c => JStr (String c EmptyString)) (list_ascii_of_string s))
  | JNull | JBool _ | JInt _ | JFloat _ =>
      Raise (type_error ("'" ++ type_name v ++ "' object is not iterable"))
  end.

(** [tool_name in self.tools], which hashes [tool_name]: the handler
    when the name is registered, [None] when it is not. *)
Definition lookup_tool (tool_name : json)
    : result (option (string * (string -> M string))) :=
  match tool_name with
  | JStr name =>
      Ok (match tools !! name with
          | Some handler => Some (name, handler)
          | None => None
          end)
  | JArr _ | JObj _ =>
      Raise (type_error ("unhashable type: '" ++ type_name tool_name ++ "'"))
  | JNull | JBool _ | JInt _ | JFloat _ => Ok None
  end.

(** Step 2 of [chat]: the loop over [tools_to_use], started with the
    results collected so far. *)
Fixpoint run_tools (tools_to_use : list json) (user_message : string)
    (tool_results : list tool_result) : M (list tool_result) :=
  match tools_to_use with
  | [] => ret tool_results
  | tool_name :: rest =>
      do found <- lift (lookup_tool tool_name);
      match found with
      | Some (name, handler) =>
          do entry <-
            try_except
              (do result <- handler user_message;
               ret {| tool := name; result_text := result |})
              (fun e =>
                 ret {| tool := name;
                        result_text := "Error: " ++ exn_str e |});
          run_tools rest user_message (tool_results ++ [entry])
      | None => run_tools rest user_message tool_results
      end
  end.

(** [f"=== {tr['tool']} ===\n{tr['result']}"] *)
Definition tool_output (tr : tool_result) : string :=
  "=== " ++ tool tr ++ " ===" ++ nl ++ result_text tr.

(** Step 3 of [chat]. *)
Definition synthesize (tool_results : list tool_result)
    (user_message : string) : M string :=
  match tool_results with
  | _ :: _ =>
      let tool_outputs := join (nl ++ nl) (map tool_output tool_results) in
      let synthesis := synthesis_prompt ud user_message tool_outputs in
      let messages := [ ("user", synthesis) ] in
      _call_llm messages 7
  | [] =>
      let conversation_context := _get_conversation_context 5 in
      let system_prompt :=
        conversation_system_prompt ud conversation_context in
      let messages := [ ("system", system_prompt); ("user", user_message) ] in
      _call_llm messages 7
  end.

(** Steps 2 and 3 of [chat], from the coordinator's value on. *)
Definition chat_with (coordination : json) (user_message : string)
    : M string :=
  match coordination with
  | JObj members =>
      let tools_to_use := dict_get "tools" members (JArr []) in
      do items <- lift (py_iter tools_to_use);
      do tool_results <- run_tools items user_message [];
      synthesize tool_results user_message
  | _ =>
      raise (PyExn "AttributeError"
               ("'" ++ type_name coordination
                ++ "' object has no attribute 'get'"))
  end.

(** [chat] *)
Definition chat (user_message : string) : M string :=
  do coordination <- _coordinator_llm user_message;
  chat_with coordination user_message.

End Agent.

(* ------------------------------------------------------------------ *)
(** ** Notions used to state the properties *)

Section Notions.
Context {R : PyRuntime}.

(** The six names under which [__init__] registers a handler. *)
Definition registered_names : list string :=
  [ "create_workout_plan"; "create_meal_plan"; "analyze_progress";
    "give_motivation"; "calculate_calories"; "injury_prevention" ].

Definition is_registered (name : string) : bool :=
  bool_decide (name ∈ registered_names).

(** The names of the tools that were invoked, in the order of their
    invocation: each invocation leaves one entry in [tool_results]. *)
Definition invoked (tool_results : list tool_result) : list string :=
  map tool tool_results.

(** Two lists that hold the same elements, as the sets built from them. *)
Definition same_elements (xs ys : list string) : Prop :=
  forall x, x ∈ xs <-> x ∈ ys.

Definition raises {A} (r : result A) : bool :=
  match r with
  | Ok _ => false
  | Raise _ => true
  end.

(** What an entry of [tool_results] carries for a handler outcome: the
    generated text, or a text that starts with the error marker. *)
Definition carries (r : result string) (text : string) : Prop :=
  match r with
  | Ok generated => text = generated
  | Raise e => text = "Error: " ++ exn_str e /\ String.prefix "Error:" text = true
  end.

(** The text an entry of [tool_results] gets for a handler outcome. *)
Definition outcome_text (r : result string) : string :=
  match r with
  | Ok generated => generated
  | Raise e => "Error: " ++ exn_str e
  end.

(** The handlers that a list of identifiers selects, in the words of
    the design: the identifiers that the registry knows, in the order of
    the list and once for each of their occurrences, each with the
    handler that [__init__] registers under it. *)
Fixpoint selected_handlers (client : completion) (self : FitnessCoachAgent)
    (names : list string) : list (string * (string -> M string)) :=
  match names with
  | [] => []
  | name :: rest =>
      match tools client self !! name with
      | Some handler => (name, handler) :: selected_handlers client self rest
      | None => selected_handlers client self rest
      end
  end.

(** The invocation of a list of handlers, one after the other: each
    handler is applied once to the message of the user, in the state
    that the handler before it has left, and its outcome is recorded
    under its name.  The result is the list of the entries and the state
    after the last invocation. *)
Fixpoint invoke_in_order (handlers : list (string * (string -> M string)))
    (user_message : string) (w : nat) : list tool_result * nat :=
  match handlers with
  | [] => ([], w)
  | (name, handler) :: rest =>
      let (r, w1) := handler user_message w in
      let (entries, w') := invoke_in_order rest user_message w1 in
      ({| tool := name; result_text := outcome_text r |} :: entries, w')
  end.

(** The request that [_coordinator_llm] sends. *)
Definition coordination_request (self : FitnessCoachAgent)
    (user_message : string) : list chat_message :=
  [ ("system",
     coordinator_system_prompt (user_data self)
       (_get_conversation_context self 3));
    ("user", user_message) ].

(** The request that [chat] sends when no tool has produced a result. *)
Definition direct_request (self : FitnessCoachAgent)
    (user_message : string) : list chat_message :=
  [ ("system",
     conversation_system_prompt (user_data self)
       (_get_conversation_context self 5));
    ("user", user_message) ].

(** The request that [chat] sends to fuse the results of the tools. *)
Definition synthesis_request (self : FitnessCoachAgent)
    (user_message : string) (tool_results : list tool_result)
    : list chat_message :=
  [ ("user",
     synthesis_prompt (user_data self) user_message
       (join (nl ++ nl) (map tool_output tool_results))) ].

(** An answer that [_coordinator_llm] cannot decode: it has no span from
    a first opening brace to a last closing brace, or [json.loads]
    rejects that span. *)
Definition undecodable (response : string) : Prop :=
  match json_span response with
  | Some json_str => json_loads json_str = None
  | None => True
  end.

(** The four texts that [calculate_calories] derives from the profile
    and puts into its instruction, in the order of their slots: the age,
    the weight, the height and the height in inches. *)
Definition calories_profile_texts (self : FitnessCoachAgent)
    : result (list string) :=
  let weight_lb := default (PInt 0) (user_data self !! "weight") in
  let height_ft := default (PInt 0) (user_data self !! "height") in
  let age := default (PInt 0) (user_data self !! "age") in
  match inches_slot height_ft with
  | Ok inches_text =>
      Ok [ if py_bool age then py_str age else "unknown";
           py_str weight_lb; py_str height_ft; inches_text ]
  | Raise e => Raise e
  end.

(** A text that renders a profile entry as it is stored: the text of a
    stored value, of the default [0] that [calculate_calories] reads for
    an absent key, or the placeholder for an age that is not set. *)
Definition rendered_as_is (self : FitnessCoachAgent) (text : string)
    : Prop :=
  text = "unknown"
  \/ exists key, text = py_str (default (PInt 0) (user_data self !! key)).

(** The text from index [n] on, [s[n:]]. *)
Fixpoint str_drop (n : nat) (s : string) : string :=
  match n, s with
  | O, _ => s
  | S n', EmptyString => EmptyString
  | S n', String _ s' => str_drop n' s'
  end.

(** The length of the shortest prefix of [s] that closes [depth] open
    braces more than it opens, if there is one. *)
Fixpoint closing_length (depth : nat) (s : string) : option nat :=
  match s with
  | EmptyString => None
  | String c s' =>
      if Ascii.eqb c "{" then option_map S (closing_length (S depth) s')
      else if Ascii.eqb c "}" then
        match depth with
        | O => None
        | S O => Some 1%nat
        | S d => option_map S (closing_length d s')
        end
      else option_map S (closing_length depth s')
  end.

(** The first balanced span of a text, in the words of the design: the
    span from the first opening brace to the closing brace that matches
    it. *)
Definition first_balanced_span (text : string) : option string :=
  let start := find "{" text in
  if (start =? -1)%Z then None
  else
    let rest := str_drop (Z.to_nat start) text in
    match closing_length 0 rest with
    | Some n => Some (take n rest)
    | None => None
    end.

(** The window of a mining step in the words of the design: the last
    [window] messages written by the user. *)
Definition last_user_messages (window : nat) (history : list message)
    : list message :=
  last_n window (List.filter is_user history).

(** One line of the conversation excerpt. *)
Definition excerpt_line (msg : message) : string :=
  default "unknown" (msg !! "role") ++ ": " ++ take 100 (content_of msg).


(** No character of [s] is [c]. *)
Definition lacks (c : ascii) (s : string) : Prop :=
  find c s = (-1)%Z.

End Notions.

(* ------------------------------------------------------------------ *)
(** ** Concrete inputs *)

Module Samples.

(** The decision text that the sample decoder understands:
    [{"tools": ["create_meal_plan", "give_motivation"]}]. *)
Definition decision_text : string :=
  String.concat EmptyString
    [ "{"; dq; "tools"; dq; ": ["; dq; "create_meal_plan"; dq; ", "; dq;
      "give_motivation"; dq; "]}" ].

Definition decision_value : json :=
  JObj [ ("tools", JArr [ JStr "create_meal_plan"; JStr "give_motivation" ]) ].

(** A run time for closed examples: profiles hold no floats, sets are
    iterated in the order of first occurrence, and the decoder knows
    [decision_text]; every other text on which the examples consult it
    is not JSON. *)
Definition sample_runtime : PyRuntime := {|
  pyfloat := Empty_set;
  float_str := fun x => match x with end;
  float_bool := fun x => match x with end;
  float_mul_int := fun x _ => x;
  float_format_1f := fun x => match x with end;
  json_loads := fun s =>
    if (s =? decision_text)%string then Some decision_value else None;
  set_iter := remove_dups
|}.

Definition user_says (text : string) : message :=
  {[ "role" := "user"; "content" := text ]}.

Definition assistant_says (text : string) : message :=
  {[ "role" := "assistant"; "content" := text ]}.

(** The profile that [get_user_data] builds for a user who has just
    registered: every column of the fresh profile row is NULL. *)
Definition fresh_profile : gmap string (@pyval sample_runtime) :=
  {[ "username" := PStr "sam"; "age" := PNone; "weight" := PNone;
     "height" := PNone; "fitness_goal" := PNone;
     "activity_level" := PNone; "dietary_restrictions" := PNone;
     "preferences" := PNone ]}.

(** A filled profile: 30 years, 180 lb, 6 ft. *)
Definition filled_profile : gmap string (@pyval sample_runtime) :=
  {[ "username" := PStr "sam"; "age" := PInt 30; "weight" := PInt 180;
     "height" := PInt 6; "fitness_goal" := PStr "lose_weight";
     "activity_level" := PStr "moderate";
     "dietary_restrictions" := PStr ""; "preferences" := PStr "" ]}.

Definition agent_with (ud : gmap string (@pyval sample_runtime))
    (history : list message) : @FitnessCoachAgent sample_runtime :=
  {| user_data := ud; conversation_history := history |}.

(** A service that answers every request with the same text. *)
Definition constant_client (text : string) : completion :=
  fun _ _ _ => Ok text.

Definition connection_error : exn :=
  PyExn "APIConnectionError" "Connection error.".

(** A service that cannot be reached. *)
Definition failing_client : completion :=
  fun _ _ _ => Raise connection_error.

(** A service that answers its n-th request with the n-th entry of a
    script. *)
Definition scripted_client (script : list (result string)) : completion :=
  fun n _ _ => nth n script (Raise connection_error).

(** A service that decodes to the sample decision, fails on the
    request of the first tool and answers the two requests after it. *)
Definition meal_failure_client : completion :=
  scripted_client
    [ Ok decision_text; Raise connection_error; Ok "Keep going!";
      Ok "Here is where you stand." ].

Definition running_message : string :=
  "I don't like running but I love lifting weights".

(** One user message followed by ten answers of the assistant. *)
Definition yoga_then_answers : list message :=
  user_says "I like yoga" :: repeat (assistant_says "Noted.") 10.

(** One user message followed by five answers of the assistant. *)
Definition tired_then_answers : list message :=
  user_says "I am so tired" :: repeat (assistant_says "Noted.") 5.

(** One user message with a sore squat followed by ten answers. *)
Definition squat_then_answers : list message :=
  user_says "My knee hurts after every squat"
  :: repeat (assistant_says "Noted.") 10.


End Samples.

From Stdlib Require Import Sorted Permutation.

(* ------------------------------------------------------------------ *)
(** ** The vocabularies of the mining steps *)

Section Vocabulary.

(** The tags that the like branch of [create_workout_plan] appends. *)
Definition like_tags : list string :=
  [ "running"; "weightlifting"; "cardio"; "yoga"; "swimming" ].

(** The tags that the dislike branch of [create_workout_plan] appends. *)
Definition dislike_tags : list string :=
  [ "weightlifting"; "running"; "cardio"; "gym workouts" ].

(** [exercises] and [pain_words] of [injury_prevention]. *)
Definition exercise_words : list string :=
  [ "squat"; "deadlift"; "bench"; "run"; "lunge"; "press"; "curl"; "row" ].

Definition pain_words : list string :=
  [ "pain"; "hurt"; "sore"; "injury"; "strain"; "ache" ].

(** The word list of the counter of [analyze_progress]. *)
Definition workout_words : list string :=
  [ "workout"; "exercise"; "ran"; "lifted"; "trained" ].

(** The two word lists of [give_motivation]. *)
Definition distress_words : list string :=
  [ "tired"; "hard"; "difficult"; "struggle"; "cant" ].

Definition success_words : list string :=
  [ "good"; "great"; "better"; "progress" ].

(** A message of the user whose lower-cased content holds one of the
    words. *)
Definition mentions (words : list string) (msg : message) : bool :=
  is_user msg && contains_any words (lower (content_of msg)).

(** A message of the user with one of the two negation phrases. *)
Definition negated (msg : message) : bool :=
  is_user msg
  && (contains "don't want" (lower (content_of msg))
      || contains "don't like" (lower (content_of msg))).

End Vocabulary.

(* ------------------------------------------------------------------ *)
(** ** The application around the agent: [streamlit_app.py]

    The tables of [app/database.py] are lists of rows in the order of
    their insertion.  A column holds the Python value that the session
    reads from it, [PNone] for NULL.  Columns that no modelled function
    reads (the creation and update dates) and the tables of workouts and
    meals are left out.  A query [filter(...).first()] yields the first
    matching row.  The clock is read by the caller and passed in. *)

Module Store.
Section Tables.
Context {R : PyRuntime}.

Record User : Type := {
  user_id : Z;
  username : string;
  password : string
}.

Record UserProfile : Type := {
  profile_id : Z;
  profile_user_id : Z;
  age : pyval;
  weight : pyval;
  height : pyval;
  fitness_goal : pyval;
  activity_level : pyval;
  dietary_restrictions : pyval;
  preferences : pyval
}.

Record Conversation : Type := {
  conversation_id : Z;
  conversation_user_id : Z;
  role : string;
  content : string;
  timestamp : Z
}.

Record database : Type := {
  users : list User;
  profiles : list UserProfile;
  conversations : list Conversation
}.

Definition empty_database : database :=
  {| users := []; profiles := []; conversations := [] |}.

(** The key that the table assigns to a new row: one more than the
    largest key in use. *)
Definition next_id (ids : list Z) : Z :=
  (fold_right Z.max 0 ids + 1)%Z.

(** [db.query(User).filter(User.username == name).first()] *)
Definition user_by_name (db : database) (name : string) : option User :=
  List.find (fun user => (username user =? name)%string) (users db).

(** [db.query(User).filter(User.id == id).first()] *)
Definition user_by_id (db : database) (id : Z) : option User :=
  List.find (fun user => (user_id user =? id)%Z) (users db).

(** [db.query(UserProfile).filter(UserProfile.user_id == id).first()] *)
Definition profile_of (db : database) (id : Z) : option UserProfile :=
  List.find (fun profile => (profile_user_id profile =? id)%Z) (profiles db).

(** [UserProfile(user_id=id)] once it is stored. *)
Definition blank_profile (key id : Z) : UserProfile :=
  {| profile_id := key; profile_user_id := id;
     age := PNone; weight := PNone; height := PNone;
     fitness_goal := PNone; activity_level := PNone;
     dietary_restrictions := PNone; preferences := PNone |}.

(** [register_user] *)
Definition register_user (name pass : string) (db : database)
    : (bool * string) * database :=
  match user_by_name db name with
  | Some existing => ((false, "Username already exists"), db)
  | None =>
      let new_user :=
        {| user_id := next_id (map user_id (users db));
           username := name; password := pass |} in
      let profile :=
        blank_profile (next_id (map profile_id (profiles db)))
                      (user_id new_user) in
      ((true, "Account created successfully!"),
       {| users := users db ++ [new_user];
          profiles := profiles db ++ [profile];
          conversations := conversations db |})
  end.

(** [login_user] *)
Definition login_user (name pass : string) (db : database)
    : option User * string :=
  match user_by_name db name with
  | None => (None, "Invalid credentials")
  | Some user =>
      if negb (password user =? pass)%string
      then (None, "Invalid credentials")
      else (Some user, "Login successful")
  end.

(** One entry of the list built by [load_conversation_history] and kept
    in the session. *)
Record chat_entry : Type := {
  entry_role : string;
  entry_content : string;
  entry_timestamp : Z
}.

(** The rows in the order of [order_by(Conversation.timestamp)], whose
    order among equal timestamps the database is free to choose. *)
Variable order_by_timestamp : list Conversation -> list Conversation.

(** [load_conversation_history] *)
Definition load_conversation_history (id : Z) (db : database)
    : list chat_entry :=
  let rows :=
    order_by_timestamp
      (List.filter (fun conv => (conversation_user_id conv =? id)%Z)
         (conversations db)) in
  map (fun conv =>
         {| entry_role := role conv; entry_content := content conv;
            entry_timestamp := timestamp conv |})
      rows.

(** [save_message], at the time [now]. *)
Definition save_message (id : Z) (msg_role msg_content : string) (now : Z)
    (db : database) : database :=
  let msg :=
    {| conversation_id := next_id (map conversation_id (conversations db));
       conversation_user_id := id; role := msg_role;
       content := msg_content; timestamp := now |} in
  {| users := users db; profiles := profiles db;
     conversations := conversations db ++ [msg] |}.

(** [get_user_data] *)
Definition get_user_data (id : Z) (db : database)
    : result (gmap string pyval) :=
  let profile := profile_of db id in
  match user_by_id db id with
  | None =>
      Raise (PyExn "AttributeError"
               "'NoneType' object has no attribute 'username'")
  | Some user =>
      let column (read : UserProfile -> pyval) (dflt : pyval) : pyval :=
        match profile with
        | Some row => read row
        | None => dflt
        end in
      Ok (<["username" := PStr (username user)]>
          (<["age" := column age PNone]>
          (<["weight" := column weight PNone]>
          (<["height" := column height PNone]>
          (<["fitness_goal" := column fitness_goal (PStr "general fitness")]>
          (<["activity_level" := column activity_level (PStr "moderate")]>
          (<["dietary_restrictions" :=
               column dietary_restrictions (PStr "none")]>
          (<["preferences" := column preferences (PStr "none")]> ∅))))))))
  end.

(** The fields that [update_profile] visits, in its order. *)
Definition profile_fields : list string :=
  [ "age"; "weight"; "height"; "fitness_goal"; "activity_level";
    "dietary_restrictions"; "preferences" ].

(** [getattr(profile, field)] for one of those fields. *)
Definition get_field (field : string) (profile : UserProfile) : pyval :=
  if (field =? "age")%string then age profile
  else if (field =? "weight")%string then weight profile
  else if (field =? "height")%string then height profile
  else if (field =? "fitness_goal")%string then fitness_goal profile
  else if (field =? "activity_level")%string then activity_level profile
  else if (field =? "dietary_restrictions")%string
  then dietary_restrictions profile
  else preferences profile.

(** [setattr(profile, field, value)] for one of those fields. *)
Definition set_field (field : string) (value : pyval)
    (profile : UserProfile) : UserProfile :=
  let with_fields a w h g l d p :=
    {| profile_id := profile_id profile;
       profile_user_id := profile_user_id profile;
       age := a; weight := w; height := h; fitness_goal := g;
       activity_level := l; dietary_restrictions := d;
       preferences := p |} in
  let '(a, w, h, g, l, d, p) :=
    (age profile, weight profile, height profile, fitness_goal profile,
     activity_level profile, dietary_restrictions profile,
     preferences profile) in
  if (field =? "age")%string then with_fields value w h g l d p
  else if (field =? "weight")%string then with_fields a value h g l d p
  else if (field =? "height")%string then with_fields a w value g l d p
  else if (field =? "fitness_goal")%string
  then with_fields a w h value l d p
  else if (field =? "activity_level")%string
  then with_fields a w h g value d p
  else if (field =? "dietary_restrictions")%string
  then with_fields a w h g l value p
  else with_fields a w h g l d value.

(** The loop of [update_profile] over the fields. *)
Definition apply_profile_data (profile_data : gmap string pyval)
    (profile : UserProfile) : UserProfile :=
  fold_left
    (fun row field =>
       match profile_data !! field with
       | Some PNone | None => row
       | Some value => set_field field value row
       end)
    profile_fields profile.

(** The table after the first row that satisfies [found] is replaced by
    its image under [change]. *)
Fixpoint update_first {A} (found : A -> bool) (change : A -> A)
    (rows : list A) : list A :=
  match rows with
  | [] => []
  | row :: rest =>
      if found row then change row :: rest
      else row :: update_first found change rest
  end.

(** [update_profile] *)
Definition update_profile (id : Z) (profile_data : gmap string pyval)
    (db : database) : database :=
  match profile_of db id with
  | None => db
  | Some _ =>
      {| users := users db;
         profiles :=
           update_first (fun profile => (profile_user_id profile =? id)%Z)
             (apply_profile_data profile_data) (profiles db);
         conversations := conversations db |}
  end.

(** The entry as the agent reads it: the agent looks up "role" and
    "content" and never the timestamp. *)
Definition as_message (entry : chat_entry) : message :=
  {[ "role" := entry_role entry; "content" := entry_content entry ]}.

(** [FitnessCoachAgent(user_data, st.session_state.messages)] *)
Definition agent_for (ud : gmap string pyval) (session : list chat_entry)
    : FitnessCoachAgent :=
  {| user_data := ud; conversation_history := map as_message session |}.

(** The handling of a submitted prompt in [chat_page], for the user
    [id]: the prompt is stored and shown, the agent answers it, the
    answer is stored and shown.  [clock] gives the readings of the time
    in the order in which they are taken.  An empty prompt does nothing;
    an exception leaves what was done before it. *)
Definition submit_prompt (client : completion) (id : Z) (prompt : string)
    (clock : nat -> Z) (db : database) (session : list chat_entry)
    (w : nat) : result (option string) * (database * list chat_entry) * nat :=
  if (prompt =? "")%string then (Ok None, (db, session), w)
  else
    let db1 := save_message id "user" prompt (clock 0%nat) db in
    let session1 :=
      (session ++ [ {| entry_role := "user"; entry_content := prompt;
                       entry_timestamp := clock 1%nat |} ])%list in
    match get_user_data id db1 with
    | Raise e => (Raise e, (db1, session1), w)
    | Ok ud =>
        match chat client (agent_for ud session1) prompt w with
        | (Raise e, w') => (Raise e, (db1, session1), w')
        | (Ok response, w') =>
            let db2 :=
              save_message id "assistant" response (clock 2%nat) db1 in
            let session2 :=
              (session1
               ++ [ {| entry_role := "assistant";
                       entry_content := response;
                       entry_timestamp := clock 3%nat |} ])%list in
            (Ok (Some response), (db2, session2), w')
        end
    end.

End Tables.
End Store.

(* ------------------------------------------------------------------ *)
(** ** Notions about the store *)

Section StoreNotions.
Context {R : PyRuntime}.

(** A store as the application builds it: no two users share a name or
    a key, and the profiles line up with the users, one profile for each
    user in the order of registration. *)
Definition consistent (db : Store.database) : Prop :=
  NoDup (map Store.username (Store.users db))
  /\ NoDup (map Store.user_id (Store.users db))
  /\ map Store.profile_user_id (Store.profiles db)
     = map Store.user_id (Store.users db).

(** The keys of the dict that [get_user_data] returns. *)
Definition user_data_keys : list string :=
  [ "username"; "age"; "weight"; "height"; "fitness_goal";
    "activity_level"; "dietary_restrictions"; "preferences" ].

(** The value that [update_profile] leaves in a field: the submitted
    one unless it is absent or null. *)
Definition submitted_or (profile_data : gmap string pyval)
    (field : string) (stored : pyval) : pyval :=
  match profile_data !! field with
  | Some PNone | None => stored
  | Some value => value
  end.

(** The entry that [load_conversation_history] makes of a row. *)
Definition entry_of (row : Store.Conversation) : Store.chat_entry :=
  {| Store.entry_role := Store.role row;
     Store.entry_content := Store.content row;
     Store.entry_timestamp := Store.timestamp row |}.

(** A row and a session entry that record the same message of the user
    [id]. *)
Definition same_record (id : Z) (row : Store.Conversation)
    (entry : Store.chat_entry) : Prop :=
  Store.conversation_user_id row = id
  /\ Store.role row = Store.entry_role entry
  /\ Store.content row = Store.entry_content entry.

(** An ordering by timestamp: a rearrangement of the rows in which no
    row comes before a row with a smaller timestamp. *)
Definition orders_by_timestamp
    (order : list Store.Conversation -> list Store.Conversation) : Prop :=
  forall rows,
    Permutation (order rows) rows
    /\ Sorted (fun a b => (Store.timestamp a <= Store.timestamp b)%Z)
         (order rows).

(** Insertion of a row before the first row with a larger timestamp. *)
Fixpoint insert_row (row : Store.Conversation)
    (rows : list Store.Conversation) : list Store.Conversation :=
  match rows with
  | [] => [row]
  | first :: rest =>
      if (Store.timestamp row <? Store.timestamp first)%Z
      then row :: first :: rest
      else first :: insert_row row rest
  end.

(** One ordering by timestamp: insertion sort, which keeps rows with
    equal timestamps in the order of their insertion. *)
Definition insertion_order (rows : list Store.Conversation)
    : list Store.Conversation :=
  fold_left (fun sorted row => insert_row row sorted) rows [].

End StoreNotions.

(* ------------------------------------------------------------------ *)
(** ** More concrete inputs *)

Module MoreSamples.
Import Samples.

(** A history that holds one answer of the assistant. *)
Definition welcome_history : list message :=
  [ assistant_says "Welcome back!" ].

(** The sample decision without its braces, and an answer that wraps
    the decision in prose. *)
Definition decision_body : string :=
  String.concat EmptyString
    [ dq; "tools"; dq; ": ["; dq; "create_meal_plan"; dq; ", "; dq;
      "give_motivation"; dq; "]" ].

Definition prose_client : completion :=
  constant_client
    ("Sure, here it is: " ++ "{" ++ decision_body ++ "}" ++ " Let me know.").

(** The store after the user sam has registered, and after sam has sent
    a first message at time 10. *)
Definition sam_store : @Store.database sample_runtime :=
  snd (Store.register_user "sam" "secret" Store.empty_database).

Definition sam_store_with_message : @Store.database sample_runtime :=
  Store.save_message 1 "user" "hello" 10 sam_store.

(** A profile form that submits an age and a null weight. *)
Definition sam_profile_data : gmap string (@pyval sample_runtime) :=
  {[ "age" := PInt 30; "weight" := PNone ]}.

(** A clock that starts at 100. *)
Definition sample_clock (n : nat) : Z := (100 + Z.of_nat n)%Z.

(** A message of the user that negates and prefers at once. *)
Definition mixed_message : message :=
  user_says "I don't want cardio, I prefer yoga".

End MoreSamples.


(* ------------------------------------------------------------------ *)
(** ** Facts about texts *)

Section TextFacts.

Lemma append_assoc (a b c : string) : (a ++ b) ++ c = a ++ b ++ c.
Proof.
  induction a as [|ch a IH]; [reflexivity|].
  change (String ch ((a ++ b) ++ c) = String ch (a ++ b ++ c)).
  f_equal. exact IH.
Qed.

Lemma append_length (a b : string) :
  String.length (a ++ b) = (String.length a + String.length b)%nat.
Proof.
  induction a as [|ch a IH]; [reflexivity|].
  change (S (String.length (a ++ b))
          = S (String.length a + String.length b)).
  f_equal. exact IH.
Qed.

Lemma find_lower_bound (c : ascii) (s : string) : (-1 <= find c s)%Z.
Proof.
  induction s as [|d s IH]; simpl; [lia|].
  destruct (Ascii.eqb c d); [lia|].
  destruct (Z.eqb_spec (find c s) (-1)); lia.
Qed.

Lemma rfind_lower_bound (c : ascii) (s : string) : (-1 <= rfind c s)%Z.
Proof.
  induction s as [|d s IH]; simpl; [lia|].
  destruct (Z.eqb_spec (rfind c s) (-1)); [|lia].
  destruct (Ascii.eqb c d); lia.
Qed.

Lemma lacks_cons (c d : ascii) (s : string) :
  lacks c (String d s) <-> Ascii.eqb c d = false /\ lacks c s.
Proof.
  unfold lacks. simpl.
  destruct (Ascii.eqb c d).
  - split; [discriminate|intros [? _]; discriminate].
  - pose proof (find_lower_bound c s).
    destruct (Z.eqb_spec (find c s) (-1)); split; intros; try tauto; lia.
Qed.

Lemma lacks_rfind (c : ascii) (s : string) :
  lacks c s <-> rfind c s = (-1)%Z.
Proof.
  induction s as [|d s IH].
  - unfold lacks. simpl. tauto.
  - rewrite lacks_cons, IH. simpl.
    pose proof (rfind_lower_bound c s).
    destruct (Z.eqb_spec (rfind c s) (-1)) as [Hnone|Hsome].
    + destruct (Ascii.eqb c d).
      * split; [intros [Hf _]; discriminate Hf|intros Hf; discriminate Hf].
      * split; [reflexivity|intros _; split; [reflexivity|exact Hnone]].
    + split; [intros [_ Hf]; contradiction|intros Hf; lia].
Qed.

Lemma find_app_found (c : ascii) (pre rest : string) :
  lacks c pre ->
  find c (pre ++ String c rest) = Z.of_nat (String.length pre).
Proof.
  induction pre as [|d pre IH]; intros Hlacks.
  - simpl. rewrite Ascii.eqb_refl. reflexivity.
  - apply lacks_cons in Hlacks. destruct Hlacks as [Hne Hlacks].
    simpl String.append. simpl find. rewrite Hne, (IH Hlacks).
    destruct (Z.eqb_spec (Z.of_nat (String.length pre)) (-1)); [lia|].
    simpl String.length. lia.
Qed.

Lemma rfind_app_found (c : ascii) (s post : string) :
  lacks c post ->
  rfind c (s ++ String c post) = Z.of_nat (String.length s).
Proof.
  intros Hlacks. induction s as [|d s IH].
  - simpl. apply lacks_rfind in Hlacks. rewrite Hlacks.
    simpl. rewrite Ascii.eqb_refl. reflexivity.
  - simpl String.append. simpl rfind. rewrite IH.
    destruct (Z.eqb_spec (Z.of_nat (String.length s)) (-1)); [lia|].
    simpl String.length. lia.
Qed.

Lemma find_split (c : ascii) (s : string) (n : nat) :
  find c s = Z.of_nat n ->
  exists pre rest,
    s = pre ++ String c rest /\ String.length pre = n /\ lacks c pre.
Proof.
  revert n. induction s as [|d s IH]; intros n Hfind.
  - simpl in Hfind. lia.
  - simpl in Hfind. destruct (Ascii.eqb_spec c d) as [->|Hne].
    + exists EmptyString, s. assert (n = O) by lia. subst n.
      repeat split.
    + destruct (Z.eqb_spec (find c s) (-1)); [lia|].
      pose proof (find_lower_bound c s).
      destruct (IH (Z.to_nat (find c s))) as (pre & rest & -> & Hlen & Hl).
      { lia. }
      exists (String d pre), rest. repeat split.
      * simpl. lia.
      * apply lacks_cons. split; [|exact Hl].
        apply Ascii.eqb_neq. exact Hne.
Qed.

Lemma rfind_split (c : ascii) (s : string) (n : nat) :
  rfind c s = Z.of_nat n ->
  exists body post,
    s = body ++ String c post /\ String.length body = n /\ lacks c post.
Proof.
  revert n. induction s as [|d s IH]; intros n Hfind.
  - simpl in Hfind. lia.
  - simpl in Hfind.
    destruct (Z.eqb_spec (rfind c s) (-1)) as [Hnone|Hsome].
    + destruct (Ascii.eqb_spec c d) as [->|Hne]; [|lia].
      exists EmptyString, s. assert (n = O) by lia. subst n.
      repeat split. apply lacks_rfind. exact Hnone.
    + pose proof (rfind_lower_bound c s).
      destruct (IH (Z.to_nat (rfind c s))) as (body & post & -> & Hlen & Hl).
      { lia. }
      exists (String d body), post. repeat split; [|exact Hl].
      simpl. lia.
Qed.

Lemma substring_prefix (s post : string) :
  String.substring 0 (String.length s) (s ++ post) = s.
Proof.
  induction s as [|ch s IH].
  - destruct post; reflexivity.
  - simpl. f_equal. exact IH.
Qed.

Lemma substring_middle (pre s post : string) :
  String.substring (String.length pre) (String.length s) (pre ++ s ++ post)
  = s.
Proof.
  induction pre as [|d pre IH].
  - exact (substring_prefix s post).
  - exact IH.
Qed.

Lemma append_split (pre x body y : string) :
  pre ++ x = body ++ y ->
  (String.length pre <= String.length body)%nat ->
  exists mid, body = pre ++ mid /\ x = mid ++ y.
Proof.
  revert body. induction pre as [|d pre IH]; intros body Heq Hlen.
  - exists body. split; [reflexivity|exact Heq].
  - destruct body as [|d' body]; [simpl in Hlen; lia|].
    simpl in Heq. injection Heq as -> Heq.
    destruct (IH body Heq) as (mid & -> & ->); [simpl in Hlen; lia|].
    exists mid. split; reflexivity.
Qed.

Lemma append_empty_r (s : string) : s ++ EmptyString = s.
Proof.
  induction s as [|ch s IH]; [reflexivity|].
  change (String ch (s ++ EmptyString) = String ch s). f_equal. exact IH.
Qed.

Lemma concat_empty_cons (x : string) (xs : list string) :
  String.concat EmptyString (x :: xs) = x ++ String.concat EmptyString xs.
Proof.
  destruct xs as [|y xs]; [|reflexivity].
  symmetry. apply append_empty_r.
Qed.

(** A text that is built from parts holds each part between what the
    parts before it and the parts after it make. *)
Lemma concat_empty_split (n : nat) (parts : list string) (part : string) :
  nth_error parts n = Some part ->
  String.concat EmptyString parts
  = String.concat EmptyString (firstn n parts)
    ++ part ++ String.concat EmptyString (skipn (S n) parts).
Proof.
  revert parts.
  induction n as [|n IH]; intros [|x parts] Hnth; try discriminate Hnth.
  - injection Hnth as <-. rewrite concat_empty_cons. reflexivity.
  - cbn [nth_error] in Hnth. cbn [firstn skipn].
    rewrite !concat_empty_cons, (IH parts Hnth), append_assoc.
    reflexivity.
Qed.

End TextFacts.

(* ------------------------------------------------------------------ *)
(** ** Equations of the monadic code *)

Section Equations.
Context {R : PyRuntime}.
Variable client : completion.
Variable self : FitnessCoachAgent.

Lemma call_llm_eq (messages : list chat_message) (temperature : Z) (w : nat) :
  _call_llm client messages temperature w
  = (client w messages temperature, S w).
Proof.
  unfold _call_llm, try_except, create_completion, raise.
  destruct (client w messages temperature); reflexivity.
Qed.

Lemma coordinator_eq (user_message : string) (w : nat) :
  _coordinator_llm client self user_message w
  = (match client w (coordination_request self user_message) 2%Z with
     | Ok response => Ok (decode_decision response)
     | Raise e => Raise e
     end, S w).
Proof.
  unfold _coordinator_llm, bind. cbv zeta.
  rewrite call_llm_eq. unfold coordination_request.
  destruct (client w _ 2%Z); reflexivity.
Qed.

Lemma synthesize_nil (user_message : string) (w : nat) :
  synthesize client self [] user_message w
  = (client w (direct_request self user_message) 7%Z, S w).
Proof.
  unfold synthesize. cbv zeta. rewrite call_llm_eq. reflexivity.
Qed.

Lemma synthesize_cons (tr : tool_result) (trs : list tool_result)
    (user_message : string) (w : nat) :
  synthesize client self (tr :: trs) user_message w
  = (client w (synthesis_request self user_message (tr :: trs)) 7%Z, S w).
Proof.
  unfold synthesize. cbv zeta. rewrite call_llm_eq. reflexivity.
Qed.

Lemma chat_with_empty_decision (user_message : string) (w : nat) :
  chat_with client self empty_decision user_message w
  = (client w (direct_request self user_message) 7%Z, S w).
Proof.
  unfold chat_with, empty_decision, bind, lift. simpl.
  unfold ret. apply synthesize_nil.
Qed.

Lemma chat_eq (user_message : string) (w : nat) :
  chat client self user_message w
  = match client w (coordination_request self user_message) 2%Z with
    | Ok response =>
        chat_with client self (decode_decision response) user_message (S w)
    | Raise e => (Raise e, S w)
    end.
Proof.
  unfold chat, bind. rewrite coordinator_eq.
  destruct (client w _ 2%Z); reflexivity.
Qed.

End Equations.

(* ------------------------------------------------------------------ *)
(** ** Coordination: failures of the service and undecodable answers *)

Section Coordination.
Context {R : PyRuntime}.
Variable client : completion.
Variable self : FitnessCoachAgent.

(** C1, as the code has it.  The request of the coordinator is sent
    outside the [try] block of [_coordinator_llm], so when it fails the
    exception leaves [_coordinator_llm] and [chat] unchanged, after that
    single request: no empty decision is substituted, no tool runs and
    no reply is attempted. *)
Theorem coordination_failure_propagates (user_message : string) (w : nat)
    (e : exn) :
  client w (coordination_request self user_message) 2%Z = Raise e ->
  _coordinator_llm client self user_message w = (Raise e, S w)
  /\ chat client self user_message w = (Raise e, S w).
Proof.
  intros Hfail. split.
  - rewrite coordinator_eq, Hfail. reflexivity.
  - rewrite chat_eq, Hfail. reflexivity.
Qed.

Lemma decode_undecodable (response : string) :
  undecodable response -> decode_decision response = empty_decision.
Proof.
  unfold undecodable, decode_decision.
  destruct (json_span response) as [json_str|]; [|reflexivity].
  intros ->. reflexivity.
Qed.

(** C4, as the code has it.  When the answer to the coordination request
    cannot be decoded, the coordinator returns exactly the empty
    decision, whose fields are an empty tool list, "parsing error" and
    "none"; [chat] then makes exactly one more request, the direct
    conversational one, and its outcome is the outcome of that request:
    the reply is the text the service returns, so it is non-empty
    whenever that text is. *)
Theorem undecodable_answer_degrades (user_message response : string)
    (w : nat) :
  client w (coordination_request self user_message) 2%Z = Ok response ->
  undecodable response ->
  _coordinator_llm client self user_message w = (Ok empty_decision, S w)
  /\ empty_decision
     = JObj [ ("tools", JArr []); ("reasoning", JStr "parsing error");
              ("context_aware", JStr "none") ]
  /\ chat client self user_message w
     = (client (S w) (direct_request self user_message) 7%Z, S (S w))
  /\ (forall reply,
        client (S w) (direct_request self user_message) 7%Z = Ok reply ->
        reply <> "" ->
        exists final,
          chat client self user_message w = (Ok final, S (S w))
          /\ final = reply /\ final <> "").
Proof.
  intros Hanswer Hbad.
  assert (Hchat : chat client self user_message w
                  = (client (S w) (direct_request self user_message) 7%Z,
                     S (S w))).
  { rewrite chat_eq, Hanswer, (decode_undecodable _ Hbad).
    apply chat_with_empty_decision. }
  split; [|split; [reflexivity|split; [exact Hchat|]]].
  - rewrite coordinator_eq, Hanswer, (decode_undecodable _ Hbad).
    reflexivity.
  - intros reply Hreply Hne. exists reply.
    rewrite Hchat, Hreply. auto.
Qed.

End Coordination.

(** A witness of [coordination_failure_propagates]: a service that
    cannot be reached. *)
Lemma coordination_failure_propagates_witness :
  Samples.failing_client 0
    (coordination_request (Samples.agent_with Samples.fresh_profile [])
       "hello") 2%Z
  = Raise Samples.connection_error
  /\ (_coordinator_llm Samples.failing_client
        (Samples.agent_with Samples.fresh_profile []) "hello" 0
      = (Raise Samples.connection_error, 1)
      /\ chat Samples.failing_client
           (Samples.agent_with Samples.fresh_profile []) "hello" 0
         = (Raise Samples.connection_error, 1)).
Proof.
  split; [reflexivity|].
  apply (coordination_failure_propagates Samples.failing_client
           (Samples.agent_with Samples.fresh_profile []) "hello" 0
           Samples.connection_error).
  reflexivity.
Defined.

(** C1 fails as stated: with a service that cannot be reached, the
    coordination request raises and [chat] raises the same exception to
    its caller. *)
Lemma coordination_failure_reaches_caller :
  Samples.failing_client 0
    (coordination_request (Samples.agent_with Samples.fresh_profile [])
       "hello") 2%Z
  = Raise Samples.connection_error
  /\ chat Samples.failing_client
       (Samples.agent_with Samples.fresh_profile []) "hello" 0
     = (Raise Samples.connection_error, 1).
Proof.
  split; vm_compute; reflexivity.
Qed.

(** A witness of [undecodable_answer_degrades]: a service that answers
    in plain words. *)
Lemma undecodable_answer_degrades_witness :
  Samples.constant_client "Happy to help!" 0
    (coordination_request (Samples.agent_with Samples.fresh_profile [])
       "hello") 2%Z
  = Ok "Happy to help!"
  /\ undecodable (R := Samples.sample_runtime) "Happy to help!"
  /\ chat (Samples.constant_client "Happy to help!")
       (Samples.agent_with Samples.fresh_profile []) "hello" 0
     = (Ok "Happy to help!", 2).
Proof.
  split; [reflexivity|]. split; [exact I|].
  destruct (undecodable_answer_degrades
              (Samples.constant_client "Happy to help!")
              (Samples.agent_with Samples.fresh_profile [])
              "hello" "Happy to help!" 0 eq_refl I)
    as (_ & _ & Hchat & _).
  exact Hchat.
Defined.

(** C4 fails as stated: when the service answers every request with the
    empty text, the coordinator returns the empty decision and the reply
    of [chat] is the empty text. *)
Lemma undecodable_answer_empty_reply :
  undecodable (R := Samples.sample_runtime) ""
  /\ _coordinator_llm (Samples.constant_client "")
       (Samples.agent_with Samples.fresh_profile []) "hello" 0
     = (Ok empty_decision, 1)
  /\ chat (Samples.constant_client "")
       (Samples.agent_with Samples.fresh_profile []) "hello" 0
     = (Ok "", 2).
Proof.
  split; [exact I|]. split; vm_compute; reflexivity.
Qed.

(* ------------------------------------------------------------------ *)
(** ** Mining the history *)

Section Mining.
Context {R : PyRuntime}.

Lemma last_n_snoc {A} (n : nat) (xs : list A) (x : A) :
  last_n (S n) (xs ++ [x]) = (last_n n xs ++ [x])%list.
Proof.
  unfold last_n. rewrite length_app. simpl.
  replace (List.length xs + 1 - S n)%nat with (List.length xs - n)%nat by lia.
  rewrite skipn_app.
  replace (List.length xs - n - List.length xs)%nat with 0%nat by lia.
  reflexivity.
Qed.

Lemma preference_step_running_message (likes dislikes : list string) :
  preference_step (likes, dislikes) (Samples.user_says Samples.running_message)
  = (likes, (dislikes ++ ["weightlifting"; "running"])%list).
Proof.
  unfold preference_step.
  replace (is_user (Samples.user_says Samples.running_message)) with true
    by (vm_compute; reflexivity).
  replace (lower (content_of (Samples.user_says Samples.running_message)))
    with "i don't like running but i love lifting weights"
    by (vm_compute; reflexivity).
  cbn. rewrite <- app_assoc. reflexivity.
Qed.

Lemma append_if_app (b : bool) (x : string) (xs : list string) :
  append_if b x xs = (xs ++ (if b then [x] else []))%list.
Proof.
  destruct b; simpl; [reflexivity|]. rewrite app_nil_r. reflexivity.
Qed.

Lemma preference_step_negated (likes dislikes : list string)
    (msg : message) :
  negated msg = true ->
  preference_step (likes, dislikes) msg
  = (likes,
     (dislikes
      ++ (if contains "lift" (lower (content_of msg))
             || contains "weight" (lower (content_of msg))
          then ["weightlifting"] else [])
      ++ (if contains "run" (lower (content_of msg))
          then ["running"] else [])
      ++ (if contains "cardio" (lower (content_of msg))
          then ["cardio"] else [])
      ++ (if contains "gym" (lower (content_of msg))
          then ["gym workouts"] else []))%list).
Proof.
  unfold negated. intros Hneg.
  apply andb_true_iff in Hneg. destruct Hneg as [Huser Hphrase].
  unfold preference_step. rewrite Huser. cbv zeta. rewrite Hphrase.
  rewrite !append_if_app, <- !app_assoc. reflexivity.
Qed.

(** C2, as the code has it.  A message of the user that contains a
    negation phrase ("don't want", "don't like") is scanned for
    dislikes only, over the whole message: it leaves the likes as they
    are and appends to the dislikes exactly the tags whose keyword
    occurs in the lower-cased message, in this order: weightlifting for
    "lift" or "weight", running for "run", cardio for "cardio" and gym
    workouts for "gym"; no other word of the message adds a tag.  A
    history that ends with such a message yields what the nine messages
    before it yield, with those tags appended to the dislikes.  The
    message "I don't like running but I love lifting weights" is such a
    message: at the end of a history it adds the dislikes weightlifting
    and running, in this order, and no like; on its own it gives no like
    and the dislikes weightlifting and running. *)
Theorem negated_message_yields_dislikes_only
    (ud : gmap string pyval) (before : list message)
    (likes dislikes : list string) (msg : message) :
  negated msg = true ->
  let content := lower (content_of msg) in
  let added :=
    ((if contains "lift" content || contains "weight" content
      then ["weightlifting"] else [])
     ++ (if contains "run" content then ["running"] else [])
     ++ (if contains "cardio" content then ["cardio"] else [])
     ++ (if contains "gym" content then ["gym workouts"] else []))%list in
  let earlier :=
    fold_left preference_step (last_n 9 before) ([], []) in
  preference_step (likes, dislikes) msg
  = (likes, (dislikes ++ added)%list)
  /\ mined_preferences
       {| user_data := ud; conversation_history := before ++ [msg] |}
     = (fst earlier, (snd earlier ++ added)%list)
  /\ negated (Samples.user_says Samples.running_message) = true
  /\ mined_preferences
       {| user_data := ud;
          conversation_history :=
            before ++ [Samples.user_says Samples.running_message] |}
     = (fst earlier, (snd earlier ++ ["weightlifting"; "running"])%list)
  /\ mined_preferences
       {| user_data := ud;
          conversation_history :=
            [Samples.user_says Samples.running_message] |}
     = ([], ["weightlifting"; "running"]).
Proof.
  intros Hneg. cbv zeta.
  split; [apply preference_step_negated; exact Hneg|].
  unfold mined_preferences. simpl conversation_history.
  split; [|split; [vm_compute; reflexivity|split]].
  - rewrite (last_n_snoc 9), fold_left_app. cbn [fold_left].
    destruct (fold_left preference_step (last_n 9 before) ([], []))
      as [likes0 dislikes0].
    cbn [fst snd]. apply preference_step_negated. exact Hneg.
  - rewrite (last_n_snoc 9), fold_left_app. cbn [fold_left].
    destruct (fold_left preference_step (last_n 9 before) ([], []))
      as [likes0 dislikes0].
    apply preference_step_running_message.
  - change (last_n 10 [Samples.user_says Samples.running_message])
      with [Samples.user_says Samples.running_message].
    cbn [fold_left]. apply (preference_step_running_message [] []).
Qed.

(** C2 fails as stated: for the history that consists of that message,
    the mined likes are not the set that holds weightlifting, and the
    mined dislikes are not the set that holds only running. *)
Lemma negated_message_not_split :
  mined_preferences
    (Samples.agent_with Samples.fresh_profile
       [Samples.user_says Samples.running_message])
  = ([], ["weightlifting"; "running"])
  /\ ~ (same_elements
          (fst (mined_preferences
                  (Samples.agent_with Samples.fresh_profile
                     [Samples.user_says Samples.running_message])))
          ["weightlifting"]
        /\ same_elements
             (snd (mined_preferences
                     (Samples.agent_with Samples.fresh_profile
                        [Samples.user_says Samples.running_message])))
             ["running"]).
Proof.
  assert (Hmined :
    mined_preferences
      (Samples.agent_with Samples.fresh_profile
         [Samples.user_says Samples.running_message])
    = ([], ["weightlifting"; "running"])) by (vm_compute; reflexivity).
  split; [exact Hmined|].
  rewrite Hmined. simpl. intros [Hlikes _].
  assert (Hin : "weightlifting" ∈ @nil string).
  { apply Hlikes. apply list_elem_of_here. }
  inversion Hin.
Qed.

Lemma fold_left_skips_others {A} (step : A -> message -> A)
    (msgs : list message) (acc : A) :
  (forall acc msg, is_user msg = false -> step acc msg = acc) ->
  fold_left step msgs acc = fold_left step (List.filter is_user msgs) acc.
Proof.
  intros Hskip. revert acc.
  induction msgs as [|msg msgs IH]; intros acc; simpl; [reflexivity|].
  destruct (is_user msg) eqn:Huser; simpl.
  - apply IH.
  - rewrite (Hskip _ _ Huser). apply IH.
Qed.

Lemma preference_step_skips (acc : list string * list string)
    (msg : message) :
  is_user msg = false -> preference_step acc msg = acc.
Proof.
  intros Huser. unfold preference_step. destruct acc as [likes dislikes].
  rewrite Huser. reflexivity.
Qed.

Lemma injury_step_skips (acc : list string * list string) (msg : message) :
  is_user msg = false -> injury_step acc msg = acc.
Proof.
  intros Huser. unfold injury_step. destruct acc as [exercises pains].
  rewrite Huser. reflexivity.
Qed.

Lemma progress_step_skips (acc : list string * nat) (msg : message) :
  is_user msg = false -> progress_step acc msg = acc.
Proof.
  intros Huser. unfold progress_step. destruct acc as [clues mentions].
  rewrite Huser. reflexivity.
Qed.

Lemma last_n_length {A} (n : nat) (xs : list A) :
  (List.length (last_n n xs) <= n)%nat.
Proof.
  unfold last_n. rewrite length_skipn. lia.
Qed.

Lemma filter_length_le {A} (f : A -> bool) (xs : list A) :
  (List.length (List.filter f xs) <= List.length xs)%nat.
Proof.
  induction xs as [|x xs IH]; simpl; [lia|].
  destruct (f x); simpl; lia.
Qed.

(** C7, as the code has it.  Each window is cut from the history before
    the messages of the user are selected: preference mining and the
    exercise and pain scan read the user messages among the last ten
    messages of any role, sentiment detection reads the user messages
    among the last five messages of any role, so each reads at most ten,
    respectively five, user messages and every other message in the
    window takes the place of one; progress analysis reads the user
    messages of the whole history. *)
Theorem mining_windows_count_all_messages (self : FitnessCoachAgent) :
  let history := conversation_history self in
  mined_preferences self
  = fold_left preference_step (List.filter is_user (last_n 10 history))
      ([], [])
  /\ mined_injury_context self
     = fold_left injury_step (List.filter is_user (last_n 10 history))
         ([], [])
  /\ recent_user_messages self
     = map content_of (List.filter is_user (last_n 5 history))
  /\ mined_progress self
     = fold_left progress_step (List.filter is_user history) ([], O)
  /\ (List.length (List.filter is_user (last_n 10 history)) <= 10)%nat
  /\ (List.length (List.filter is_user (last_n 5 history)) <= 5)%nat.
Proof.
  cbv zeta.
  unfold mined_preferences, mined_injury_context, recent_user_messages,
    mined_progress.
  repeat split.
  - apply fold_left_skips_others, preference_step_skips.
  - apply fold_left_skips_others, injury_step_skips.
  - apply fold_left_skips_others, progress_step_skips.
  - etransitivity; [apply filter_length_le|apply last_n_length].
  - etransitivity; [apply filter_length_le|apply last_n_length].
Qed.

(** C7 fails as stated: when answers of the assistant follow a message
    of the user, that message leaves the window although fewer than ten,
    respectively five, user messages follow it, so none of the three
    windowed scans reads the last ten, respectively five, messages of
    the user. *)
Lemma mining_windows_shrink :
  mined_preferences
    (Samples.agent_with Samples.fresh_profile Samples.yoga_then_answers)
  <> fold_left preference_step
       (last_user_messages 10 Samples.yoga_then_answers) ([], [])
  /\ mined_injury_context
       (Samples.agent_with Samples.fresh_profile Samples.squat_then_answers)
     <> fold_left injury_step
          (last_user_messages 10 Samples.squat_then_answers) ([], [])
  /\ recent_user_messages
       (Samples.agent_with Samples.fresh_profile Samples.tired_then_answers)
     <> map content_of (last_user_messages 5 Samples.tired_then_answers).
Proof.
  repeat split; intros Heq; vm_compute in Heq; discriminate Heq.
Qed.

End Mining.

(** A witness of [negated_message_yields_dislikes_only]: a message that
    negates, names the gym and cardio, and has a word of the like
    branch; it comes after a message that prefers yoga. *)
Lemma negated_message_yields_dislikes_only_witness :
  negated (Samples.user_says "I don't want the gym or cardio, I like yoga")
  = true
  /\ preference_step (["yoga"], ["running"])
       (Samples.user_says "I don't want the gym or cardio, I like yoga")
     = (["yoga"], ["running"; "cardio"; "gym workouts"])
  /\ mined_preferences
       (Samples.agent_with Samples.fresh_profile
          [ Samples.user_says "I like yoga";
            Samples.user_says "I don't want the gym or cardio, I like yoga" ])
     = (["yoga"], ["cardio"; "gym workouts"]).
Proof.
  assert (Hneg :
    negated (Samples.user_says "I don't want the gym or cardio, I like yoga")
    = true) by (vm_compute; reflexivity).
  split; [exact Hneg|].
  destruct (negated_message_yields_dislikes_only Samples.fresh_profile
              [Samples.user_says "I like yoga"] ["yoga"] ["running"]
              (Samples.user_says
                 "I don't want the gym or cardio, I like yoga") Hneg)
    as (Hstep & Hmined & _).
  split.
  - etransitivity; [exact Hstep|]. vm_compute. reflexivity.
  - etransitivity; [exact Hmined|]. vm_compute. reflexivity.
Defined.

(* ------------------------------------------------------------------ *)
(** ** The handlers and the profile *)

Section Handlers.
Context {R : PyRuntime}.
Variable client : completion.
Variable self : FitnessCoachAgent.

Lemma float_of_small_int (n : Z) :
  (Z.abs n < 2 ^ 53)%Z -> float_of_int_value n = Some n.
Proof.
  intros Hsmall. unfold float_of_int_value.
  destruct (Z.ltb_spec (Z.abs n) (2 ^ 53)) as [_|Hge]; [reflexivity|lia].
Qed.

Lemma calculate_calories_eq (user_message : string) (w : nat) :
  calculate_calories client self user_message w
  = match calories_profile_texts self with
    | Ok texts =>
        (client w
           [ ("system",
              calories_system_prompt (user_data self) (nth 0 texts "")
                (nth 1 texts "") (nth 2 texts "") (nth 3 texts ""));
             ("user", user_message) ] 3%Z, S w)
    | Raise e => (Raise e, w)
    end.
Proof.
  unfold calculate_calories, calories_profile_texts, bind, lift. cbv zeta.
  destruct (inches_slot (default (PInt 0) (user_data self !! "height")))
    as [inches_text|e]; [|reflexivity].
  apply call_llm_eq.
Qed.

(** C8, as the code has it.  Whenever [calculate_calories] builds its
    instruction, the age, the weight and the height are embedded as they
    are stored (an age that is not set as "unknown"), and a fourth text
    is computed by the handler itself: the height times twelve, printed
    with one decimal.  For an integer height [h] of ordinary size this
    text is the decimal numeral of [12 * h] followed by ".0".  Those
    four texts fill the slots of the instruction that is sent. *)
Theorem calories_handler_converts_height (user_message : string)
    (texts : list string) (w : nat) :
  calories_profile_texts self = Ok texts ->
  let age := default (PInt 0) (user_data self !! "age") in
  let weight_lb := default (PInt 0) (user_data self !! "weight") in
  let height_ft := default (PInt 0) (user_data self !! "height") in
  exists inches inches_text,
    py_mul height_ft 12 = Ok inches
    /\ py_format_1f inches = Ok inches_text
    /\ texts = [ if py_bool age then py_str age else "unknown";
                 py_str weight_lb; py_str height_ft; inches_text ]
    /\ (forall h, height_ft = PInt h -> (Z.abs (h * 12) < 2 ^ 53)%Z ->
        inches_text = str_of_Z (h * 12) ++ ".0")
    /\ calculate_calories client self user_message w
       = (client w
            [ ("system",
               calories_system_prompt (user_data self)
                 (if py_bool age then py_str age else "unknown")
                 (py_str weight_lb) (py_str height_ft) inches_text);
              ("user", user_message) ] 3%Z, S w).
Proof.
  intros Htexts. cbv zeta.
  rewrite calculate_calories_eq, Htexts.
  unfold calories_profile_texts, inches_slot in Htexts.
  cbv zeta in Htexts.
  destruct (py_mul (default (PInt 0) (user_data self !! "height")) 12)
    as [inches|e] eqn:Hmul; [|discriminate].
  destruct (py_format_1f inches) as [inches_text|e] eqn:Hfmt; [|discriminate].
  injection Htexts as <-.
  exists inches, inches_text. repeat split; try reflexivity; try assumption.
  intros h Hh Hsmall. rewrite Hh in Hmul. simpl in Hmul.
  injection Hmul as <-. simpl in Hfmt.
  rewrite (float_of_small_int _ Hsmall) in Hfmt.
  injection Hfmt as <-. reflexivity.
Qed.

Lemma null_height_raises :
  user_data self !! "height" = Some PNone ->
  calories_profile_texts self
  = Raise (PyExn "TypeError"
             "unsupported operand type(s) for *: 'NoneType' and 'int'").
Proof.
  intros Hheight. unfold calories_profile_texts, inches_slot. cbv zeta.
  rewrite Hheight. reflexivity.
Qed.

(** The other five handlers raise only what the service raises. *)
Lemma plain_handlers_raise_with_the_service (handler : string -> M string)
    (user_message : string) (w w' : nat) (e : exn) :
  In handler [ create_workout_plan client self; create_meal_plan client self;
               analyze_progress client self; give_motivation client self;
               injury_prevention client self ] ->
  handler user_message w = (Raise e, w') ->
  exists messages temperature, client w messages temperature = Raise e.
Proof.
  intros Hin Hraise. simpl in Hin.
  destruct Hin as [<-|[<-|[<-|[<-|[<-|[]]]]]].
  - unfold create_workout_plan in Hraise.
    destruct (mined_preferences self) as [likes dislikes].
    cbv zeta in Hraise. rewrite call_llm_eq in Hraise.
    injection Hraise as Hraise _. eauto.
  - unfold create_meal_plan in Hraise.
    cbv zeta in Hraise. rewrite call_llm_eq in Hraise.
    injection Hraise as Hraise _. eauto.
  - unfold analyze_progress in Hraise.
    destruct (mined_progress self) as [clues mentions].
    cbv zeta in Hraise. rewrite call_llm_eq in Hraise.
    injection Hraise as Hraise _. eauto.
  - unfold give_motivation in Hraise.
    cbv zeta in Hraise. rewrite call_llm_eq in Hraise.
    injection Hraise as Hraise _. eauto.
  - unfold injury_prevention in Hraise.
    destruct (mined_injury_context self) as [exercises pains].
    cbv zeta in Hraise. rewrite call_llm_eq in Hraise.
    injection Hraise as Hraise _. eauto.
Qed.

End Handlers.

(** A witness of [calories_handler_converts_height]: the filled
    profile, whose height is 6 ft. *)
Lemma calories_handler_converts_height_witness :
  calories_profile_texts
    (Samples.agent_with Samples.filled_profile [])
  = Ok ["30"; "180"; "6"; "72.0"]
  /\ exists inches inches_text,
       py_mul (default (PInt 0) (Samples.filled_profile !! "height")) 12
       = Ok inches
       /\ py_format_1f inches = Ok inches_text
       /\ ["30"; "180"; "6"; "72.0"] = ["30"; "180"; "6"; inches_text].
Proof.
  assert (Htexts :
    calories_profile_texts (Samples.agent_with Samples.filled_profile [])
    = Ok ["30"; "180"; "6"; "72.0"]) by (vm_compute; reflexivity).
  split; [exact Htexts|].
  destruct (calories_handler_converts_height
              (Samples.constant_client "ok")
              (Samples.agent_with Samples.filled_profile [])
              "hello" _ 0 Htexts)
    as (inches & inches_text & Hmul & Hfmt & Heq & _).
  exists inches, inches_text. split; [exact Hmul|]. split; [exact Hfmt|].
  exact Heq.
Defined.

(** C8 fails as stated: for a user of 30 years, 180 lb and 6 ft the
    handler embeds the text 72.0, which renders no entry of the profile:
    it is the height multiplied by twelve. *)
Lemma calories_handler_embeds_computed_value :
  calories_profile_texts (Samples.agent_with Samples.filled_profile [])
  = Ok ["30"; "180"; "6"; "72.0"]
  /\ ~ rendered_as_is (Samples.agent_with Samples.filled_profile []) "72.0".
Proof.
  split; [vm_compute; reflexivity|].
  intros [Habs|[key Hkey]]; [discriminate Habs|].
  simpl in Hkey.
  destruct (Samples.filled_profile !! key) as [v|] eqn:Hlookup;
    [|discriminate Hkey].
  simpl in Hkey.
  assert (Hall : map_Forall (fun _ v => py_str v <> "72.0")
                   Samples.filled_profile).
  { unfold Samples.filled_profile.
    repeat (apply map_Forall_insert_2; [discriminate|]).
    apply map_Forall_empty. }
  apply (Hall key v Hlookup). symmetry. exact Hkey.
Qed.

(** C9 fails on the code.  For the profile of a user who has just
    registered, whose height is null, [calculate_calories] raises a
    [TypeError] by itself, whatever the service would answer and before
    any request is sent. *)
Theorem calories_handler_raises_on_null_height (client : completion)
    (history : list message) (user_message : string) (w : nat) :
  calculate_calories client
    (Samples.agent_with Samples.fresh_profile history) user_message w
  = (Raise (PyExn "TypeError"
              "unsupported operand type(s) for *: 'NoneType' and 'int'"),
     w).
Proof.
  rewrite calculate_calories_eq, null_height_raises; [reflexivity|].
  vm_compute. reflexivity.
Qed.

(* ------------------------------------------------------------------ *)
(** ** Running the selected tools *)

Section Dispatch.
Context {R : PyRuntime}.
Variable client : completion.
Variable self : FitnessCoachAgent.

Lemma tools_lookup_none (name : string) :
  tools client self !! name = None <-> is_registered name = false.
Proof.
  unfold tools, is_registered.
  rewrite <- not_elem_of_list_to_map, bool_decide_eq_false.
  reflexivity.
Qed.

Lemma tools_lookup_some (name : string) :
  is_registered name = true ->
  exists handler, tools client self !! name = Some handler.
Proof.
  intros Hreg.
  destruct (tools client self !! name) as [handler|] eqn:Hlookup;
    [eauto|].
  apply tools_lookup_none in Hlookup. congruence.
Qed.

Lemma run_tools_registered (name : string) (handler : string -> M string)
    (rest : list json) (user_message : string) (acc : list tool_result)
    (w w1 : nat) (r : result string) :
  tools client self !! name = Some handler ->
  handler user_message w = (r, w1) ->
  run_tools client self (JStr name :: rest) user_message acc w
  = run_tools client self rest user_message
      (acc ++ [ {| tool := name; result_text := outcome_text r |} ]) w1.
Proof.
  intros Hlookup Hrun. simpl.
  unfold bind at 1. unfold lift, lookup_tool. rewrite Hlookup.
  unfold bind at 1. unfold try_except, bind. rewrite Hrun.
  destruct r; reflexivity.
Qed.

Lemma run_tools_unregistered (name : string) (rest : list json)
    (user_message : string) (acc : list tool_result) (w : nat) :
  tools client self !! name = None ->
  run_tools client self (JStr name :: rest) user_message acc w
  = run_tools client self rest user_message acc w.
Proof.
  intros Hlookup. simpl.
  unfold bind at 1. unfold lift, lookup_tool. rewrite Hlookup.
  reflexivity.
Qed.

Lemma run_tools_names (names : list string) (user_message : string)
    (acc : list tool_result) (w : nat) :
  exists results w',
    run_tools client self (map JStr names) user_message acc w
    = (Ok results, w')
    /\ invoked results
       = (invoked acc ++ List.filter is_registered names)%list.
Proof.
  revert acc w.
  induction names as [|name names IH]; intros acc w.
  - exists acc, w. split; [reflexivity|].
    simpl. rewrite app_nil_r. reflexivity.
  - change (map JStr (name :: names)) with (JStr name :: map JStr names).
    destruct (tools client self !! name) as [handler|] eqn:Hlookup.
    + destruct (handler user_message w) as [r w1] eqn:Hrun.
      rewrite (run_tools_registered _ _ _ _ _ _ _ _ Hlookup Hrun).
      destruct (IH (acc ++ [ {| tool := name;
                                result_text := outcome_text r |} ])%list w1)
        as (results & w' & Hres & Hinv).
      exists results, w'. split; [exact Hres|].
      rewrite Hinv. unfold invoked. rewrite map_app. simpl.
      assert (Hreg : is_registered name = true).
      { destruct (is_registered name) eqn:Hreg; [reflexivity|].
        apply tools_lookup_none in Hreg. congruence. }
      rewrite Hreg, <- app_assoc. reflexivity.
    + rewrite (run_tools_unregistered _ _ _ _ _ Hlookup).
      destruct (IH acc w) as (results & w' & Hres & Hinv).
      exists results, w'. split; [exact Hres|].
      rewrite Hinv. simpl.
      apply tools_lookup_none in Hlookup. rewrite Hlookup. reflexivity.
Qed.

Lemma selected_handlers_names (names : list string) :
  map fst (selected_handlers client self names)
  = List.filter is_registered names.
Proof.
  induction names as [|name names IH]; [reflexivity|].
  cbn [selected_handlers List.filter].
  destruct (tools client self !! name) as [handler|] eqn:Hlookup.
  - assert (Hreg : is_registered name = true).
    { destruct (is_registered name) eqn:Hreg; [reflexivity|].
      apply tools_lookup_none in Hreg. congruence. }
    rewrite Hreg. cbn [map fst]. rewrite IH. reflexivity.
  - apply tools_lookup_none in Hlookup. rewrite Hlookup. exact IH.
Qed.

Lemma selected_handlers_registered (names : list string) :
  Forall (fun named => tools client self !! fst named = Some (snd named))
    (selected_handlers client self names).
Proof.
  induction names as [|name names IH]; [constructor|].
  cbn [selected_handlers].
  destruct (tools client self !! name) as [handler|] eqn:Hlookup;
    [|exact IH].
  constructor; [exact Hlookup|exact IH].
Qed.

Lemma invoke_in_order_names
    (handlers : list (string * (string -> M string)))
    (user_message : string) (w : nat) :
  invoked (fst (invoke_in_order handlers user_message w))
  = map fst handlers.
Proof.
  revert w.
  induction handlers as [|[name handler] handlers IH]; intros w;
    [reflexivity|].
  cbn [invoke_in_order].
  destruct (handler user_message w) as [r w1].
  specialize (IH w1).
  destruct (invoke_in_order handlers user_message w1) as [entries w'].
  cbn [fst] in *. unfold invoked in *. cbn [map tool fst].
  rewrite IH. reflexivity.
Qed.

Lemma run_tools_invokes (names : list string) (user_message : string)
    (acc : list tool_result) (w : nat) :
  run_tools client self (map JStr names) user_message acc w
  = (Ok (acc ++ fst (invoke_in_order (selected_handlers client self names)
                       user_message w))%list,
     snd (invoke_in_order (selected_handlers client self names)
            user_message w)).
Proof.
  revert acc w.
  induction names as [|name names IH]; intros acc w.
  - cbn [selected_handlers invoke_in_order fst snd map].
    rewrite app_nil_r. reflexivity.
  - change (map JStr (name :: names)) with (JStr name :: map JStr names).
    cbn [selected_handlers].
    destruct (tools client self !! name) as [handler|] eqn:Hlookup.
    + cbn [invoke_in_order].
      destruct (handler user_message w) as [r w1] eqn:Hrun.
      rewrite (run_tools_registered _ _ _ _ _ _ _ _ Hlookup Hrun), IH.
      destruct (invoke_in_order (selected_handlers client self names)
                  user_message w1) as [entries w'].
      cbn [fst snd]. rewrite <- app_assoc. reflexivity.
    + rewrite (run_tools_unregistered _ _ _ _ _ Hlookup). apply IH.
Qed.

(** C3, as the code has it.  For every decision whose tool list is a
    list of identifiers, the loop of [chat] never fails and invokes the
    handlers that the list selects: the handler of every identifier that
    is registered, in the order of the list and once for each occurrence
    of the identifier, each applied to the message of the user in the
    state that the invocation before it has left, and each leaving one
    entry that holds its name and its outcome.  Identifiers outside the
    registry are skipped without any invocation, repeated identifiers
    are invoked again.  The names of the entries are the identifiers of
    the list that are registered, and the entries and the state after
    the last invocation go to the last step of [chat]. *)
Theorem dispatcher_invokes_registered_in_order
    (members : list (string * json)) (names : list string)
    (user_message : string) (w : nat) :
  dict_get "tools" members (JArr []) = JArr (map JStr names) ->
  let handlers := selected_handlers client self names in
  let results := fst (invoke_in_order handlers user_message w) in
  let w' := snd (invoke_in_order handlers user_message w) in
  map fst handlers = List.filter is_registered names
  /\ Forall (fun named => tools client self !! fst named = Some (snd named))
       handlers
  /\ run_tools client self (map JStr names) user_message [] w
     = (Ok results, w')
  /\ invoked results = List.filter is_registered names
  /\ (forall name, name ∈ invoked results -> name ∈ registered_names)
  /\ chat_with client self (JObj members) user_message w
     = synthesize client self results user_message w'.
Proof.
  intros Htools. cbv zeta.
  assert (Hres := run_tools_invokes names user_message [] w).
  cbn [app] in Hres.
  assert (Hinv :
    invoked (fst (invoke_in_order (selected_handlers client self names)
                    user_message w))
    = List.filter is_registered names).
  { rewrite invoke_in_order_names. apply selected_handlers_names. }
  split; [apply selected_handlers_names|].
  split; [apply selected_handlers_registered|].
  split; [exact Hres|]. split; [exact Hinv|]. split.
  - intros name Hin. rewrite Hinv in Hin.
    apply list_elem_of_In, filter_In in Hin. destruct Hin as [_ Hreg].
    unfold is_registered in Hreg. apply bool_decide_eq_true in Hreg.
    exact Hreg.
  - unfold chat_with. cbv zeta. rewrite Htools.
    unfold bind at 1. unfold lift. simpl py_iter. cbv iota beta.
    unfold bind. rewrite Hres. reflexivity.
Qed.

Lemma synthesis_prompt_parts (ud : gmap string pyval)
    (user_message tool_outputs : string) :
  exists pre post,
    synthesis_prompt ud user_message tool_outputs
    = pre ++ tool_outputs ++ post.
Proof.
  unfold synthesis_prompt. eexists. eexists.
  apply (concat_empty_split 9). reflexivity.
Qed.

(** C5.  When the decision selects two registered tools and exactly one
    of the two handlers raises, the loop of [chat] still runs both: it
    returns two entries in the order of the selection, the entry of the
    handler that raised carries a text that starts with "Error:", the
    other entry carries the text that its handler generated, and [chat]
    goes on to send the synthesis request.  The instruction of that
    request holds, in one piece, the labelled entry of the first tool,
    an empty line and the labelled entry of the second tool, so both
    entries reach the synthesis in the order of the selection. *)
Theorem dispatcher_isolates_failure
    (members : list (string * json)) (t1 t2 : string)
    (h1 h2 : string -> M string) (user_message : string)
    (w0 w w1 w2 : nat) (r1 r2 : result string) :
  _coordinator_llm client self user_message w0 = (Ok (JObj members), w) ->
  dict_get "tools" members (JArr []) = JArr [JStr t1; JStr t2] ->
  tools client self !! t1 = Some h1 ->
  tools client self !! t2 = Some h2 ->
  h1 user_message w = (r1, w1) ->
  h2 user_message w1 = (r2, w2) ->
  xorb (raises r1) (raises r2) = true ->
  exists o1 o2,
    let entries := [ {| tool := t1; result_text := o1 |};
                     {| tool := t2; result_text := o2 |} ] in
    run_tools client self [JStr t1; JStr t2] user_message [] w
    = (Ok entries, w2)
    /\ List.length entries = 2%nat
    /\ carries r1 o1 /\ carries r2 o2
    /\ join (nl ++ nl) (map tool_output entries)
       = "=== " ++ t1 ++ " ===" ++ nl ++ o1 ++ nl ++ nl
         ++ "=== " ++ t2 ++ " ===" ++ nl ++ o2
    /\ (exists pre post,
          synthesis_request self user_message entries
          = [ ("user",
               pre
               ++ ("=== " ++ t1 ++ " ===" ++ nl ++ o1 ++ nl ++ nl
                   ++ "=== " ++ t2 ++ " ===" ++ nl ++ o2)
               ++ post) ])
    /\ chat client self user_message w0
       = (client w2 (synthesis_request self user_message entries) 7%Z,
          S w2).
Proof.
  intros Hcoord Htools Hl1 Hl2 Hrun1 Hrun2 Hone.
  exists (outcome_text r1), (outcome_text r2). cbv zeta.
  assert (Hloop :
    run_tools client self [JStr t1; JStr t2] user_message [] w
    = (Ok [ {| tool := t1; result_text := outcome_text r1 |};
            {| tool := t2; result_text := outcome_text r2 |} ], w2)).
  { rewrite (run_tools_registered _ _ _ _ _ _ _ _ Hl1 Hrun1).
    rewrite (run_tools_registered _ _ _ _ _ _ _ _ Hl2 Hrun2).
    reflexivity. }
  assert (Hjoin :
    join (nl ++ nl)
      (map tool_output
         [ {| tool := t1; result_text := outcome_text r1 |};
           {| tool := t2; result_text := outcome_text r2 |} ])
    = "=== " ++ t1 ++ " ===" ++ nl ++ outcome_text r1 ++ nl ++ nl
      ++ "=== " ++ t2 ++ " ===" ++ nl ++ outcome_text r2).
  { unfold join, tool_output. simpl.
    rewrite !append_assoc. reflexivity. }
  split; [exact Hloop|]. split; [reflexivity|].
  split; [destruct r1; simpl; auto|].
  split; [destruct r2; simpl; auto|].
  split; [exact Hjoin|]. split.
  - unfold synthesis_request. rewrite Hjoin.
    destruct (synthesis_prompt_parts (user_data self) user_message
                ("=== " ++ t1 ++ " ===" ++ nl ++ outcome_text r1 ++ nl ++ nl
                 ++ "=== " ++ t2 ++ " ===" ++ nl ++ outcome_text r2))
      as (pre & post & Hparts).
    exists pre, post. rewrite Hparts. reflexivity.
  - unfold chat, bind. rewrite Hcoord.
    unfold chat_with. cbv zeta. rewrite Htools.
    unfold bind at 1. unfold lift. simpl py_iter. cbv iota beta.
    unfold bind. rewrite Hloop. apply synthesize_cons.
Qed.

End Dispatch.

(* ------------------------------------------------------------------ *)
(** ** The span that the coordinator decodes *)

Section Span.

Lemma json_span_of_parts (pre mid post : string) :
  lacks "{" pre -> lacks "}" post ->
  json_span (pre ++ "{" ++ mid ++ "}" ++ post) = Some ("{" ++ mid ++ "}").
Proof.
  intros Hpre Hpost. unfold json_span.
  assert (Hstart : find "{" (pre ++ "{" ++ mid ++ "}" ++ post)
                   = Z.of_nat (String.length pre)).
  { apply (find_app_found "{" pre (mid ++ "}" ++ post) Hpre). }
  assert (Hend : rfind "}" (pre ++ "{" ++ mid ++ "}" ++ post)
                 = Z.of_nat (String.length (pre ++ "{" ++ mid))).
  { rewrite <- (rfind_app_found "}" (pre ++ "{" ++ mid) post Hpost).
    f_equal. rewrite !append_assoc. reflexivity. }
  assert (Hlen : String.length (pre ++ "{" ++ mid)
                 = (String.length pre + S (String.length mid))%nat).
  { rewrite append_length. reflexivity. }
  rewrite Hstart, Hend, Hlen. cbv zeta.
  destruct (Z.eqb_spec (Z.of_nat (String.length pre)) (-1)); [lia|].
  destruct (Z.ltb_spec (Z.of_nat (String.length pre))
              (Z.of_nat (String.length pre + S (String.length mid)) + 1));
    [|lia].
  cbn [negb andb]. unfold slice. f_equal. rewrite Nat2Z.id.
  replace (Z.to_nat (Z.of_nat (String.length pre + S (String.length mid)) + 1
                     - Z.of_nat (String.length pre)))
    with (String.length ("{" ++ mid ++ "}")).
  - replace (pre ++ "{" ++ mid ++ "}" ++ post)
      with (pre ++ ("{" ++ mid ++ "}") ++ post)
      by (rewrite !append_assoc; reflexivity).
    apply substring_middle.
  - change (String.length ("{" ++ mid ++ "}"))
      with (S (String.length (mid ++ "}"))).
    rewrite append_length. simpl. lia.
Qed.

(** C6, as the code has it.  The text that the coordinator decodes is
    the span from the first opening brace of the answer to its last
    closing brace: an answer yields the span [s] exactly when it reads
    [pre ++ s ++ post], where [s] starts with an opening and ends with a
    closing brace, [pre] has no opening brace and [post] has no closing
    brace.  Text with a closing brace after a balanced object is
    therefore part of what is decoded. *)
Theorem json_span_first_to_last (response s : string) :
  json_span response = Some s <->
  exists pre mid post,
    response = pre ++ "{" ++ mid ++ "}" ++ post
    /\ s = "{" ++ mid ++ "}"
    /\ lacks "{" pre /\ lacks "}" post.
Proof.
  split.
  - intros Hspan.
    assert (Hparts : exists pre mid post,
               response = pre ++ "{" ++ mid ++ "}" ++ post
               /\ lacks "{" pre /\ lacks "}" post).
    { unfold json_span in Hspan. cbv zeta in Hspan.
      pose proof (find_lower_bound "{" response) as Hlo.
      destruct (Z.eqb_spec (find "{" response) (-1)) as [|Hfound];
        [discriminate|].
      destruct (Z.ltb_spec (find "{" response) (rfind "}" response + 1))
        as [Hlt|]; [|discriminate].
      destruct (find_split "{" response (Z.to_nat (find "{" response)))
        as (pre & rest & Hresp & Hlen & Hpre); [lia|].
      destruct (rfind_split "}" response (Z.to_nat (rfind "}" response)))
        as (body & post & Hresp' & Hlen' & Hpost); [lia|].
      rewrite Hresp in Hresp' at 1.
      destruct (append_split pre (String "{" rest) body (String "}" post)
                  Hresp') as (mid' & Hbody & Hrest); [lia|].
      destruct mid' as [|ch mid]; simpl in Hrest.
      - injection Hrest as Hch _. discriminate Hch.
      - injection Hrest as <- ->.
        exists pre, mid, post. split; [|split; assumption].
        exact Hresp. }
    destruct Hparts as (pre & mid & post & -> & Hpre & Hpost).
    rewrite (json_span_of_parts pre mid post Hpre Hpost) in Hspan.
    injection Hspan as <-. exists pre, mid, post. auto.
  - intros (pre & mid & post & -> & -> & Hpre & Hpost).
    apply json_span_of_parts; assumption.
Qed.

(** C6 fails as stated: in the answer [{} }] the first balanced span is
    [{}], but the coordinator decodes [{} }], up to the closing brace of
    the trailing text. *)
Lemma json_span_not_first_balanced :
  first_balanced_span "{} }" = Some "{}"
  /\ json_span "{} }" = Some "{} }"
  /\ json_span "{} }" <> first_balanced_span "{} }".
Proof.
  split; [reflexivity|]. split; [reflexivity|].
  intros Heq. vm_compute in Heq. discriminate Heq.
Qed.

End Span.

(* ------------------------------------------------------------------ *)
(** ** Closed instances of the dispatch properties *)

(** A witness of [dispatcher_invokes_registered_in_order]: a decision
    that names a registered tool, an unknown tool and the first tool
    again.  The registered tool is invoked twice and sends a request
    each time; the unknown tool leaves no entry and sends no request. *)
Lemma dispatcher_invokes_registered_in_order_witness :
  dict_get "tools"
    [ ("tools",
       JArr (map JStr ["give_motivation"; "stretching"; "give_motivation"])) ]
    (JArr [])
  = JArr (map JStr ["give_motivation"; "stretching"; "give_motivation"])
  /\ map fst
       (selected_handlers (Samples.constant_client "ok")
          (Samples.agent_with Samples.filled_profile [])
          ["give_motivation"; "stretching"; "give_motivation"])
     = ["give_motivation"; "give_motivation"]
  /\ run_tools (Samples.constant_client "ok")
       (Samples.agent_with Samples.filled_profile [])
       (map JStr ["give_motivation"; "stretching"; "give_motivation"])
       "hello" [] 0
     = (Ok [ {| tool := "give_motivation"; result_text := "ok" |};
             {| tool := "give_motivation"; result_text := "ok" |} ], 2).
Proof.
  split; [reflexivity|].
  destruct (dispatcher_invokes_registered_in_order
              (Samples.constant_client "ok")
              (Samples.agent_with Samples.filled_profile [])
              [ ("tools",
                 JArr (map JStr
                         ["give_motivation"; "stretching";
                          "give_motivation"])) ]
              ["give_motivation"; "stretching"; "give_motivation"]
              "hello" 0 eq_refl)
    as (Hnames & _ & Hrun & _).
  split.
  - etransitivity; [exact Hnames|]. vm_compute. reflexivity.
  - etransitivity; [exact Hrun|]. vm_compute. reflexivity.
Defined.

(** C3 fails as stated: a decision that names the same registered tool
    twice makes the loop invoke it twice, so the invoked tools are not
    the selected ones with duplicates removed. *)
Lemma dispatcher_repeats_duplicates :
  run_tools (Samples.constant_client "ok")
    (Samples.agent_with Samples.filled_profile [])
    [JStr "give_motivation"; JStr "give_motivation"] "hello" [] 0
  = (Ok [ {| tool := "give_motivation"; result_text := "ok" |};
          {| tool := "give_motivation"; result_text := "ok" |} ], 2)
  /\ invoked [ {| tool := "give_motivation"; result_text := "ok" |};
              {| tool := "give_motivation"; result_text := "ok" |} ]
     <> remove_dups
          (List.filter is_registered ["give_motivation"; "give_motivation"])
  /\ ~ NoDup (invoked
                [ {| tool := "give_motivation"; result_text := "ok" |};
                  {| tool := "give_motivation"; result_text := "ok" |} ]).
Proof.
  split; [vm_compute; reflexivity|]. split.
  - intros Heq. vm_compute in Heq. discriminate Heq.
  - intros Hnodup. simpl in Hnodup.
    apply NoDup_cons in Hnodup. destruct Hnodup as [Hnotin _].
    apply Hnotin. apply list_elem_of_here.
Qed.

(** A witness of [dispatcher_isolates_failure]: the service fails on
    the request of the meal planner and answers the motivation tool. *)
Lemma dispatcher_isolates_failure_witness :
  _coordinator_llm Samples.meal_failure_client
    (Samples.agent_with Samples.filled_profile []) "hello" 0
  = (Ok Samples.decision_value, 1)
  /\ create_meal_plan Samples.meal_failure_client
       (Samples.agent_with Samples.filled_profile []) "hello" 1
     = (Raise Samples.connection_error, 2)
  /\ give_motivation Samples.meal_failure_client
       (Samples.agent_with Samples.filled_profile []) "hello" 2
     = (Ok "Keep going!", 3)
  /\ run_tools Samples.meal_failure_client
       (Samples.agent_with Samples.filled_profile [])
       [JStr "create_meal_plan"; JStr "give_motivation"] "hello" [] 1
     = (Ok [ {| tool := "create_meal_plan";
                result_text := "Error: Connection error." |};
             {| tool := "give_motivation";
                result_text := "Keep going!" |} ], 3)
  /\ (exists pre post,
        synthesis_request (Samples.agent_with Samples.filled_profile [])
          "hello"
          [ {| tool := "create_meal_plan";
               result_text := "Error: Connection error." |};
            {| tool := "give_motivation";
               result_text := "Keep going!" |} ]
        = [ ("user",
             pre
             ++ ("=== create_meal_plan ===" ++ nl
                 ++ "Error: Connection error." ++ nl ++ nl
                 ++ "=== give_motivation ===" ++ nl ++ "Keep going!")
             ++ post) ])
  /\ chat Samples.meal_failure_client
       (Samples.agent_with Samples.filled_profile []) "hello" 0
     = (Ok "Here is where you stand.", 4).
Proof.
  assert (Hcoord :
    _coordinator_llm Samples.meal_failure_client
      (Samples.agent_with Samples.filled_profile []) "hello" 0
    = (Ok Samples.decision_value, 1)) by (vm_compute; reflexivity).
  assert (Hmeal :
    create_meal_plan Samples.meal_failure_client
      (Samples.agent_with Samples.filled_profile []) "hello" 1
    = (Raise Samples.connection_error, 2)) by (vm_compute; reflexivity).
  assert (Hmotivation :
    give_motivation Samples.meal_failure_client
      (Samples.agent_with Samples.filled_profile []) "hello" 2
    = (Ok "Keep going!", 3)) by (vm_compute; reflexivity).
  split; [exact Hcoord|]. split; [exact Hmeal|].
  split; [exact Hmotivation|].
  destruct (dispatcher_isolates_failure Samples.meal_failure_client
              (Samples.agent_with Samples.filled_profile [])
              [ ("tools",
                 JArr [JStr "create_meal_plan"; JStr "give_motivation"]) ]
              "create_meal_plan" "give_motivation"
              (create_meal_plan Samples.meal_failure_client
                 (Samples.agent_with Samples.filled_profile []))
              (give_motivation Samples.meal_failure_client
                 (Samples.agent_with Samples.filled_profile []))
              "hello" 0 1 2 3 (Raise Samples.connection_error)
              (Ok "Keep going!")
              Hcoord eq_refl eq_refl eq_refl Hmeal Hmotivation eq_refl)
    as (o1 & o2 & Hrun & _ & Ho1 & Ho2 & _ & Hembeds & Hchat).
  simpl in Ho1, Ho2. destruct Ho1 as [-> _]. subst o2.
  split; [exact Hrun|]. split; [exact Hembeds|exact Hchat].
Defined.

(* ------------------------------------------------------------------ *)
(** ** The conversation excerpt *)

Section Excerpt.
Context {R : PyRuntime}.
Variable client : completion.






Lemma context_eq (self : FitnessCoachAgent) (n : nat) :
  _get_conversation_context self n
  = match conversation_history self with
    | [] => "No previous conversation."
    | _ :: _ =>
        join nl (map excerpt_line (last_n n (conversation_history self)))
    end.
Proof.
  unfold _get_conversation_context. cbv zeta.
  destruct (conversation_history self); reflexivity.
Qed.



End Excerpt.


(* ------------------------------------------------------------------ *)
(** ** Further facts about texts *)

Section MoreTextFacts.

Lemma lower_append (a b : string) : lower (a ++ b) = lower a ++ lower b.
Proof.
  induction a as [|ch a IH]; [reflexivity|].
  change (String (lower_ascii ch) (lower (a ++ b))
          = String (lower_ascii ch) (lower a ++ lower b)).
  f_equal. exact IH.
Qed.

Lemma lower_concat (sep : string) (parts : list string) :
  lower (String.concat sep parts)
  = String.concat (lower sep) (map lower parts).
Proof.
  induction parts as [|x [|y parts] IH]; [reflexivity|reflexivity|].
  change (lower (x ++ sep ++ String.concat sep (y :: parts))
          = lower x ++ lower sep
            ++ String.concat (lower sep) (map lower (y :: parts))).
  rewrite !lower_append, IH. reflexivity.
Qed.

Lemma prefix_nil (s : string) : String.prefix EmptyString s = true.
Proof. destruct s; reflexivity. Qed.

Lemma prefix_append (w a b : string) :
  String.prefix w a = true -> String.prefix w (a ++ b) = true.
Proof.
  revert a. induction w as [|d w IH]; intros a Hpre; [apply prefix_nil|].
  destruct a as [|c a]; [discriminate Hpre|].
  simpl in *. destruct (ascii_dec d c); [|discriminate Hpre].
  apply IH. exact Hpre.
Qed.

Lemma prefix_before_separator (sp : ascii) (w a b : string) :
  lacks sp w ->
  String.prefix w (a ++ String sp b) = true -> String.prefix w a = true.
Proof.
  revert a. induction w as [|d w IH]; intros a Hlacks Hpre;
    [apply prefix_nil|].
  apply lacks_cons in Hlacks. destruct Hlacks as [Hne Hlacks].
  destruct a as [|c a]; simpl in *.
  - destruct (ascii_dec d sp) as [->|]; [|discriminate Hpre].
    rewrite Ascii.eqb_refl in Hne. discriminate Hne.
  - destruct (ascii_dec d c); [|discriminate Hpre].
    apply IH; assumption.
Qed.

Lemma contains_cons (w : string) (c : ascii) (hay : string) :
  contains w (String c hay)
  = String.prefix w (String c hay) || contains w hay.
Proof.
  change (contains w (String c hay))
    with (if String.prefix w (String c hay) then true else contains w hay).
  destruct (String.prefix w (String c hay)); reflexivity.
Qed.

Lemma contains_append_l (w a b : string) :
  contains w a = true -> contains w (a ++ b) = true.
Proof.
  induction a as [|c a IH]; intros Hin.
  - simpl in Hin. destruct w as [|d w]; [|discriminate Hin].
    destruct b; reflexivity.
  - change (String c a ++ b) with (String c (a ++ b)).
    rewrite contains_cons in *.
    apply orb_true_iff in Hin. apply orb_true_iff.
    destruct Hin as [Hpre|Hin]; [left|right; apply IH; exact Hin].
    apply (prefix_append w (String c a) b Hpre).
Qed.

Lemma contains_append_r (w a b : string) :
  contains w b = true -> contains w (a ++ b) = true.
Proof.
  intros Hin. induction a as [|c a IH]; [exact Hin|].
  change (String c a ++ b) with (String c (a ++ b)).
  rewrite contains_cons, IH. apply orb_true_r.
Qed.

Lemma contains_across_separator (sp : ascii) (w a b : string) :
  lacks sp w ->
  contains w (a ++ String sp b) = true ->
  contains w a = true \/ contains w b = true.
Proof.
  intros Hlacks. induction a as [|c a IH]; intros Hin.
  - change (EmptyString ++ String sp b) with (String sp b) in Hin.
    rewrite contains_cons in Hin. apply orb_true_iff in Hin.
    destruct Hin as [Hpre|Hin]; [left|right; exact Hin].
    apply (prefix_before_separator sp w EmptyString b Hlacks) in Hpre.
    destruct w; [reflexivity|discriminate Hpre].
  - change (String c a ++ String sp b) with (String c (a ++ String sp b)) in Hin.
    rewrite contains_cons in Hin. apply orb_true_iff in Hin.
    destruct Hin as [Hpre|Hin].
    + left. rewrite contains_cons. apply orb_true_iff. left.
      apply (prefix_before_separator sp w (String c a) b Hlacks Hpre).
    + destruct (IH Hin) as [Hl|Hr]; [left|right; exact Hr].
      rewrite contains_cons, Hl. apply orb_true_r.
Qed.

(** A word without the separator lies in a joined text exactly when it
    lies in one of the parts. *)
Lemma contains_concat (sp : ascii) (w : string) (parts : list string) :
  lacks sp w -> w <> EmptyString ->
  contains w (String.concat (String sp EmptyString) parts) = true
  <-> exists part, In part parts /\ contains w part = true.
Proof.
  intros Hlacks Hne.
  induction parts as [|x [|y parts] IH].
  - simpl. destruct w; [contradiction|].
    split; [discriminate|intros (part & [] & _)].
  - simpl String.concat. split.
    + intros Hin. exists x. split; [left; reflexivity|exact Hin].
    + intros (part & [<-|[]] & Hin). exact Hin.
  - change (String.concat (String sp EmptyString) (x :: y :: parts))
      with (x ++ String sp (String.concat (String sp EmptyString)
                              (y :: parts))).
    split.
    + intros Hin.
      destruct (contains_across_separator sp w x _ Hlacks Hin) as [Hx|Hrest].
      * exists x. split; [left; reflexivity|exact Hx].
      * apply IH in Hrest. destruct Hrest as (part & Hpart & Hin').
        exists part. split; [right; exact Hpart|exact Hin'].
    + intros (part & [<-|Hpart] & Hin).
      * apply contains_append_l. exact Hin.
      * apply contains_append_r.
        change (String sp (String.concat (String sp EmptyString) (y :: parts)))
          with (String sp EmptyString
                ++ String.concat (String sp EmptyString) (y :: parts)).
        apply contains_append_r. apply IH. exists part. auto.
Qed.

End MoreTextFacts.

(* ------------------------------------------------------------------ *)
(** ** More about the mining steps *)

(** Membership, and its negation, in a list of literals. *)
Ltac in_literals := apply list_elem_of_In; simpl; tauto.
Ltac not_in_literals :=
  let Hin := fresh "Hin" in
  intros Hin; apply list_elem_of_In in Hin; simpl in Hin;
  intuition discriminate.

Section MoreMining.
Context {R : PyRuntime}.

Lemma append_if_Forall (P : string -> Prop) (b : bool) (x : string)
    (xs : list string) :
  P x -> Forall P xs -> Forall P (append_if b x xs).
Proof.
  intros Hx Hxs. destruct b; simpl; [|exact Hxs].
  apply Forall_app. split; [exact Hxs|]. constructor; [exact Hx|constructor].
Qed.

Lemma fold_left_invariant {A B} (P : A -> Prop) (step : A -> B -> A)
    (xs : list B) (init : A) :
  P init -> (forall acc x, P acc -> P (step acc x)) ->
  P (fold_left step xs init).
Proof.
  intros Hinit Hstep. revert init Hinit.
  induction xs as [|x xs IH]; intros init Hinit; simpl; [exact Hinit|].
  apply IH, Hstep, Hinit.
Qed.

(** X1.  Negation shadows preference within a message.  A message of the
    user that contains "don't want" or "don't like" never adds a like,
    whatever else it says: it leaves the likes as they are and extends
    the dislikes by tags of the dislike vocabulary, each at most once. *)
Theorem negated_message_adds_no_like (likes dislikes : list string)
    (msg : message) :
  negated msg = true ->
  exists added,
    preference_step (likes, dislikes) msg
    = (likes, (dislikes ++ added)%list)
    /\ Forall (fun tag => tag ∈ dislike_tags) added
    /\ NoDup added.
Proof.
  unfold negated. intros Hneg.
  apply andb_true_iff in Hneg. destruct Hneg as [Huser Hphrase].
  unfold preference_step. rewrite Huser. cbv zeta. rewrite Hphrase.
  rewrite !append_if_app, <- !app_assoc.
  eexists. split; [reflexivity|].
  destruct (contains "lift" _ || contains "weight" _),
    (contains "run" _), (contains "cardio" _), (contains "gym" _);
    simpl; (split; [repeat (constructor; [in_literals|]); constructor|]);
    repeat (apply NoDup_cons; split; [not_in_literals|]); apply NoDup_nil_2.
Qed.

Lemma preference_step_tags (acc : list string * list string)
    (msg : message) :
  Forall (fun tag => tag ∈ like_tags) (fst acc)
  /\ Forall (fun tag => tag ∈ dislike_tags) (snd acc) ->
  Forall (fun tag => tag ∈ like_tags) (fst (preference_step acc msg))
  /\ Forall (fun tag => tag ∈ dislike_tags) (snd (preference_step acc msg)).
Proof.
  destruct acc as [likes dislikes]. simpl. intros [Hl Hd].
  unfold preference_step.
  destruct (is_user msg); [|split; assumption]. cbv zeta.
  destruct (contains "don't want" _ || contains "don't like" _).
  - simpl. split; [exact Hl|].
    repeat (apply append_if_Forall; [in_literals|]). exact Hd.
  - destruct (contains "like" _ || contains "prefer" _
              || contains "want to" _); [|split; assumption].
    simpl. split; [|exact Hd].
    repeat (apply append_if_Forall; [in_literals|]). exact Hl.
Qed.

(** X2.  The mined preferences only hold tags of the two fixed
    vocabularies, for every history: the likes are among running,
    weightlifting, cardio, yoga and swimming, the dislikes among
    weightlifting, running, cardio and gym workouts. *)
Theorem mined_preferences_use_fixed_tags (self : FitnessCoachAgent) :
  Forall (fun tag => tag ∈ like_tags) (fst (mined_preferences self))
  /\ Forall (fun tag => tag ∈ dislike_tags) (snd (mined_preferences self)).
Proof.
  unfold mined_preferences.
  apply (fold_left_invariant
           (fun acc => Forall (fun tag => tag ∈ like_tags) (fst acc)
                       /\ Forall (fun tag => tag ∈ dislike_tags) (snd acc))).
  - split; constructor.
  - intros acc msg. apply preference_step_tags.
Qed.

Lemma append_hits_Forall (P : string -> Prop) (words : list string)
    (f : string -> string) (content : string) (xs : list string) :
  Forall (fun w => P (f w)) words -> Forall P xs ->
  Forall P (append_hits words f content xs).
Proof.
  unfold append_hits. intros Hwords. revert xs.
  induction Hwords as [|w words Hw _ IH]; intros xs Hxs; simpl;
    [exact Hxs|].
  apply IH, append_if_Forall; assumption.
Qed.

(** X3.  The exercise and pain scan only reports words of its two fixed
    vocabularies, for every history: each mentioned exercise is one of
    the eight exercise words and each pain indicator reads "mentioned
    'w'" for one of the six pain words [w]. *)
Theorem mined_injury_context_uses_fixed_words (self : FitnessCoachAgent) :
  Forall (fun exercise => exercise ∈ exercise_words)
    (fst (mined_injury_context self))
  /\ Forall (fun indicator =>
               exists word,
                 word ∈ pain_words
                 /\ indicator = "mentioned '" ++ word ++ "'")
       (snd (mined_injury_context self)).
Proof.
  unfold mined_injury_context.
  apply (fold_left_invariant
           (fun acc =>
              Forall (fun exercise => exercise ∈ exercise_words) (fst acc)
              /\ Forall (fun indicator =>
                           exists word,
                             word ∈ pain_words
                             /\ indicator = "mentioned '" ++ word ++ "'")
                   (snd acc))).
  - split; constructor.
  - intros [exercises pains] msg [He Hp]. simpl in He, Hp.
    unfold injury_step. destruct (is_user msg); [|split; assumption].
    cbv zeta. cbn [fst snd]. split.
    + apply append_hits_Forall; [|exact He].
      repeat (constructor; [in_literals|]). constructor.
    + apply append_hits_Forall; [|exact Hp].
      repeat (constructor; [eexists; split; [|reflexivity]; in_literals|]).
      constructor.
Qed.

Lemma contains_any_spec (words : list string) (hay : string) :
  contains_any words hay = true
  <-> exists w, In w words /\ contains w hay = true.
Proof.
  unfold contains_any. rewrite existsb_exists. reflexivity.
Qed.

(** Every word of the two sentiment vocabularies is non-empty and has
    no blank. *)
Lemma sentiment_words_plain (w : string) :
  In w (distress_words ++ success_words)%list ->
  lacks " " w /\ w <> EmptyString.
Proof.
  simpl. intros Hin.
  repeat (destruct Hin as [<-|Hin]; [split; [reflexivity|discriminate]|]).
  destruct Hin.
Qed.

Lemma lower_blank : lower " " = " ".
Proof. reflexivity. Qed.

(** A sentiment word lies in the joined, lower-cased text of the recent
    user messages exactly when one of those messages holds it. *)
Lemma recent_text_mentions (self : FitnessCoachAgent) (words : list string) :
  (forall w, In w words -> lacks " " w /\ w <> EmptyString) ->
  contains_any words (lower (join " " (recent_user_messages self)))
  = existsb (mentions words) (last_n 5 (conversation_history self)).
Proof.
  intros Hplain.
  apply eq_true_iff_eq.
  rewrite contains_any_spec, existsb_exists.
  unfold join. rewrite lower_concat, lower_blank.
  unfold recent_user_messages. split.
  - intros (w & Hw & Hin).
    destruct (Hplain w Hw) as [Hlacks Hne].
    apply (contains_concat " " w _ Hlacks Hne) in Hin.
    destruct Hin as (part & Hpart & Hin).
    apply in_map_iff in Hpart. destruct Hpart as (content & <- & Hcontent).
    apply in_map_iff in Hcontent. destruct Hcontent as (msg & <- & Hmsg).
    apply filter_In in Hmsg. destruct Hmsg as [Hmsg Huser].
    exists msg. split; [exact Hmsg|].
    unfold mentions. rewrite Huser. simpl.
    apply contains_any_spec. exists w. auto.
  - intros (msg & Hmsg & Hmentions).
    unfold mentions in Hmentions. apply andb_true_iff in Hmentions.
    destruct Hmentions as [Huser Hany].
    apply contains_any_spec in Hany. destruct Hany as (w & Hw & Hin).
    exists w. split; [exact Hw|].
    destruct (Hplain w Hw) as [Hlacks Hne].
    apply (contains_concat " " w _ Hlacks Hne).
    exists (lower (content_of msg)). split; [|exact Hin].
    apply in_map, in_map, filter_In. auto.
Qed.

(** X4.  Sentiment is decided message by message.  [give_motivation]
    reports "struggling, needs encouragement" exactly when one of the
    user messages among the last five messages holds a distress word,
    even if the same or another message holds a success word; otherwise
    it reports "positive, reinforce success" exactly when one of them
    holds a success word, and "neutral" in the remaining case.  Joining
    the messages creates no match that no single message has. *)
Theorem emotional_context_by_message (self : FitnessCoachAgent) :
  emotional_context self
  = if existsb (mentions distress_words)
         (last_n 5 (conversation_history self))
    then "struggling, needs encouragement"
    else if existsb (mentions success_words)
              (last_n 5 (conversation_history self))
    then "positive, reinforce success"
    else "neutral".
Proof.
  unfold emotional_context. cbv zeta.
  change ["tired"; "hard"; "difficult"; "struggle"; "cant"]
    with distress_words.
  change ["good"; "great"; "better"; "progress"] with success_words.
  rewrite !recent_text_mentions; [reflexivity| |].
  - intros w Hw. apply sentiment_words_plain, in_or_app. right. exact Hw.
  - intros w Hw. apply sentiment_words_plain, in_or_app. left. exact Hw.
Qed.

Lemma progress_step_count (msg : message) (clues : list string)
    (count : nat) :
  snd (progress_step (clues, count) msg)
  = (count + if mentions workout_words msg then 1 else 0)%nat.
Proof.
  unfold progress_step, mentions.
  destruct (is_user msg); cbn [andb snd]; [|lia].
  change ["workout"; "exercise"; "ran"; "lifted"; "trained"]
    with workout_words.
  destruct (contains_any workout_words (lower (content_of msg)));
    cbn [snd]; lia.
Qed.

Lemma progress_count_from (msgs : list message)
    (acc : list string * nat) :
  snd (fold_left progress_step msgs acc)
  = (snd acc
     + List.length (List.filter (mentions workout_words) msgs))%nat.
Proof.
  revert acc.
  induction msgs as [|msg msgs IH]; intros acc; [simpl; lia|].
  change (fold_left progress_step (msg :: msgs) acc)
    with (fold_left progress_step msgs (progress_step acc msg)).
  rewrite IH. destruct acc as [clues count].
  rewrite progress_step_count.
  change (List.filter (mentions workout_words) (msg :: msgs))
    with (if mentions workout_words msg
          then msg :: List.filter (mentions workout_words) msgs
          else List.filter (mentions workout_words) msgs).
  destruct (mentions workout_words msg); simpl; lia.
Qed.

Lemma mentions_among_user_messages (words : list string)
    (msgs : list message) :
  (List.length (List.filter (mentions words) msgs)
   <= List.length (List.filter is_user msgs))%nat.
Proof.
  induction msgs as [|msg msgs IH]; simpl; [lia|].
  unfold mentions at 1.
  destruct (is_user msg); simpl; [|exact IH].
  destruct (contains_any words (lower (content_of msg))); simpl; lia.
Qed.

(** X5.  The workout counter of [analyze_progress] counts messages, not
    words: it is the number of user messages of the whole history whose
    lower-cased content holds at least one workout word, so it never
    exceeds the number of user messages, however many workout words a
    message holds. *)
Theorem workout_mentions_count_messages (self : FitnessCoachAgent) :
  snd (mined_progress self)
  = List.length
      (List.filter (mentions workout_words) (conversation_history self))
  /\ (snd (mined_progress self)
      <= List.length (List.filter is_user (conversation_history self)))%nat.
Proof.
  assert (Hcount : snd (mined_progress self)
                   = List.length
                       (List.filter (mentions workout_words)
                          (conversation_history self))).
  { unfold mined_progress. rewrite progress_count_from. reflexivity. }
  split; [exact Hcount|]. rewrite Hcount.
  apply mentions_among_user_messages.
Qed.

End MoreMining.

(* ------------------------------------------------------------------ *)
(** ** Histories without a message of the user *)

Section QuietHistory.
Context {R : PyRuntime}.
Variable client : completion.
Variable self : FitnessCoachAgent.

Lemma filter_none {A} (f : A -> bool) (xs : list A) :
  Forall (fun x => f x = false) xs -> List.filter f xs = [].
Proof.
  induction 1 as [|x xs Hx _ IH]; simpl; [reflexivity|].
  rewrite Hx. exact IH.
Qed.

Lemma last_n_Forall {A} (P : A -> Prop) (n : nat) (xs : list A) :
  Forall P xs -> Forall P (last_n n xs).
Proof.
  intros Hall. unfold last_n. apply Forall_drop. exact Hall.
Qed.

(** X6.  With no message of the user in the history, in particular with
    an empty history, every mining handler falls back to its fixed
    placeholder: the workout planner sends "none detected" for likes and
    dislikes, the injury tool "none mentioned yet" and "none reported",
    the motivation tool the sentiment "neutral", and the progress
    analysis the summary "0 workout mentions; ". *)
Theorem quiet_history_yields_placeholders (user_message : string)
    (w : nat) :
  Forall (fun msg => is_user msg = false) (conversation_history self) ->
  create_workout_plan client self user_message w
  = (client w
       [ ("system",
          workout_system_prompt (user_data self) "none detected"
            "none detected");
         ("user", user_message) ] 7%Z, S w)
  /\ injury_prevention client self user_message w
     = (client w
          [ ("system",
             injury_system_prompt (user_data self) "none mentioned yet"
               "none reported");
            ("user", user_message) ] 5%Z, S w)
  /\ give_motivation client self user_message w
     = (client w
          [ ("system", motivation_system_prompt (user_data self) "neutral");
            ("user", user_message) ] 8%Z, S w)
  /\ analyze_progress client self user_message w
     = (client w
          [ ("system",
             progress_system_prompt (user_data self) "0 workout mentions; "
               (str_of_nat (List.length (conversation_history self))));
            ("user", user_message) ] 7%Z, S w).
Proof.
  intros Hquiet.
  assert (Hprefs : mined_preferences self = ([], [])).
  { unfold mined_preferences.
    rewrite (fold_left_skips_others _ _ _ preference_step_skips).
    rewrite (filter_none _ _ (last_n_Forall _ 10 _ Hquiet)). reflexivity. }
  assert (Hinjury : mined_injury_context self = ([], [])).
  { unfold mined_injury_context.
    rewrite (fold_left_skips_others _ _ _ injury_step_skips).
    rewrite (filter_none _ _ (last_n_Forall _ 10 _ Hquiet)). reflexivity. }
  assert (Hmood : emotional_context self = "neutral").
  { unfold emotional_context, recent_user_messages. cbv zeta.
    rewrite (filter_none _ _ (last_n_Forall _ 5 _ Hquiet)). reflexivity. }
  assert (Hprogress : mined_progress self = ([], O)).
  { unfold mined_progress.
    rewrite (fold_left_skips_others _ _ _ progress_step_skips).
    rewrite (filter_none _ _ Hquiet). reflexivity. }
  repeat split.
  - unfold create_workout_plan. rewrite Hprefs. cbv zeta.
    rewrite call_llm_eq. reflexivity.
  - unfold injury_prevention. rewrite Hinjury. cbv zeta.
    rewrite call_llm_eq. reflexivity.
  - unfold give_motivation. cbv zeta. rewrite Hmood, call_llm_eq.
    reflexivity.
  - unfold analyze_progress. rewrite Hprogress. cbv zeta.
    rewrite call_llm_eq. reflexivity.
Qed.

End QuietHistory.

(* ------------------------------------------------------------------ *)
(** ** More about decoding and dispatching *)

Section MoreDispatch.
Context {R : PyRuntime}.
Variable client : completion.
Variable self : FitnessCoachAgent.

(** X7.  Prose around the decision is tolerated.  When the answer of the
    coordination request wraps a JSON object in text that has no opening
    brace before it and no closing brace after it, the coordinator
    returns what [json.loads] makes of the object alone. *)
Theorem decision_decoded_amid_prose (user_message pre mid post : string)
    (decision : json) (w : nat) :
  lacks "{" pre -> lacks "}" post ->
  json_loads ("{" ++ mid ++ "}") = Some decision ->
  client w (coordination_request self user_message) 2%Z
  = Ok (pre ++ "{" ++ mid ++ "}" ++ post) ->
  decode_decision (pre ++ "{" ++ mid ++ "}" ++ post) = decision
  /\ _coordinator_llm client self user_message w = (Ok decision, S w).
Proof.
  intros Hpre Hpost Hloads Hanswer.
  assert (Hdecode : decode_decision (pre ++ "{" ++ mid ++ "}" ++ post)
                    = decision).
  { unfold decode_decision.
    rewrite (json_span_of_parts pre mid post Hpre Hpost), Hloads.
    reflexivity. }
  split; [exact Hdecode|].
  rewrite coordinator_eq, Hanswer, Hdecode. reflexivity.
Qed.

Lemma registry_keys_distinct : NoDup registered_names.
Proof.
  unfold registered_names.
  repeat (apply NoDup_cons; split; [not_in_literals|]). apply NoDup_nil_2.
Qed.

Lemma tools_lookup_handler (name : string) (handler : string -> M string) :
  tools client self !! name = Some handler ->
  In (name, handler)
    [ ("create_workout_plan", create_workout_plan client self);
      ("create_meal_plan", create_meal_plan client self);
      ("analyze_progress", analyze_progress client self);
      ("give_motivation", give_motivation client self);
      ("calculate_calories", calculate_calories client self);
      ("injury_prevention", injury_prevention client self) ].
Proof.
  intros Hlookup. unfold tools in Hlookup.
  apply elem_of_list_to_map_2, list_elem_of_In in Hlookup. exact Hlookup.
Qed.

Lemma tools_calculate_calories :
  tools client self !! "calculate_calories"
  = Some (calculate_calories client self).
Proof.
  unfold tools. apply elem_of_list_to_map_1.
  - exact registry_keys_distinct.
  - apply list_elem_of_In. simpl. tauto.
Qed.

(** A handler makes one request, or none when it is the calorie tool
    and fails on the profile. *)
Lemma handler_requests (name : string) (handler : string -> M string)
    (user_message : string) (w : nat) :
  tools client self !! name = Some handler ->
  snd (handler user_message w) = S w
  \/ (snd (handler user_message w) = w
      /\ raises (fst (handler user_message w)) = true).
Proof.
  intros Hlookup. apply tools_lookup_handler in Hlookup. simpl in Hlookup.
  destruct Hlookup as [H|[H|[H|[H|[H|[H|[]]]]]]];
    injection H as _ <-.
  - left. unfold create_workout_plan.
    destruct (mined_preferences self). cbv zeta.
    rewrite call_llm_eq. reflexivity.
  - left. unfold create_meal_plan. cbv zeta.
    rewrite call_llm_eq. reflexivity.
  - left. unfold analyze_progress.
    destruct (mined_progress self). cbv zeta.
    rewrite call_llm_eq. reflexivity.
  - left. unfold give_motivation. cbv zeta.
    rewrite call_llm_eq. reflexivity.
  - rewrite calculate_calories_eq.
    destruct (calories_profile_texts self); [left|right]; auto.
  - left. unfold injury_prevention.
    destruct (mined_injury_context self). cbv zeta.
    rewrite call_llm_eq. reflexivity.
Qed.

Lemma run_tools_budget (names : list string) (user_message : string)
    (acc : list tool_result) (w : nat) :
  exists results w',
    run_tools client self (map JStr names) user_message acc w
    = (Ok results, w')
    /\ List.length results
       = (List.length acc
          + List.length (List.filter is_registered names))%nat
    /\ (w <= w')%nat
    /\ (w' <= w + List.length (List.filter is_registered names))%nat.
Proof.
  revert acc w.
  induction names as [|name names IH]; intros acc w.
  - exists acc, w. simpl. repeat split; lia.
  - change (map JStr (name :: names)) with (JStr name :: map JStr names).
    destruct (tools client self !! name) as [handler|] eqn:Hlookup.
    + pose proof (handler_requests name handler user_message w Hlookup)
        as Hreq.
      destruct (handler user_message w) as [r w1] eqn:Hrun.
      rewrite (run_tools_registered _ _ _ _ _ _ _ _ _ _ Hlookup Hrun).
      destruct (IH (acc ++ [ {| tool := name;
                                result_text := outcome_text r |} ])%list w1)
        as (results & w' & Hres & Hlen & Hlo & Hhi).
      exists results, w'. split; [exact Hres|].
      assert (Hreg : is_registered name = true).
      { destruct (is_registered name) eqn:Hreg; [reflexivity|].
        apply (tools_lookup_none client self) in Hreg. congruence. }
      simpl List.filter. rewrite Hreg. rewrite length_app in Hlen.
      simpl in *. destruct Hreq as [Hreq|[Hreq _]]; repeat split; lia.
    + rewrite (run_tools_unregistered _ _ _ _ _ _ _ Hlookup).
      destruct (IH acc w) as (results & w' & Hres & Hlen & Hlo & Hhi).
      exists results, w'. split; [exact Hres|].
      apply tools_lookup_none in Hlookup.
      simpl List.filter. rewrite Hlookup. repeat split; assumption.
Qed.

Lemma chat_with_items (members : list (string * json)) (items : list json)
    (user_message : string) (w : nat) :
  py_iter (dict_get "tools" members (JArr [])) = Ok items ->
  chat_with client self (JObj members) user_message w
  = match run_tools client self items user_message [] w with
    | (Ok results, w') => synthesize client self results user_message w'
    | (Raise e, w') => (Raise e, w')
    end.
Proof.
  intros Hiter. unfold chat_with. cbv zeta.
  unfold bind at 1. unfold lift. rewrite Hiter.
  unfold bind. destruct (run_tools client self items user_message [] w)
    as [[results|e] w']; reflexivity.
Qed.

(** X8.  Requests are bounded by the selection.  For a decision whose
    tool list is a list of identifiers, the loop of [chat] never fails,
    leaves one entry per selected registered identifier and makes at
    most one request per such identifier.  After the loop [chat] makes
    exactly one more request, in the state that the loop has left: the
    direct request when the loop has left no entry, the synthesis
    request for the entries otherwise; its outcome is the outcome of
    the turn.  So the turn makes, after the coordination request, at
    least one request and at most one more than the selection has
    registered identifiers. *)
Theorem requests_bounded_by_selection
    (members : list (string * json)) (names : list string)
    (user_message : string) (w : nat) :
  dict_get "tools" members (JArr []) = JArr (map JStr names) ->
  let selected := List.length (List.filter is_registered names) in
  (exists results w',
     run_tools client self (map JStr names) user_message [] w
     = (Ok results, w')
     /\ List.length results = selected
     /\ (w <= w' <= w + selected)%nat
     /\ chat_with client self (JObj members) user_message w
        = (client w'
             match results with
             | [] => direct_request self user_message
             | _ :: _ => synthesis_request self user_message results
             end 7%Z,
           S w')
     /\ snd (chat_with client self (JObj members) user_message w) = S w')
  /\ (S w <= snd (chat_with client self (JObj members) user_message w)
      <= S (w + selected))%nat.
Proof.
  intros Htools. cbv zeta.
  destruct (run_tools_budget names user_message [] w)
    as (results & w' & Hres & Hlen & Hlo & Hhi).
  simpl in Hlen.
  assert (Hchat :
    chat_with client self (JObj members) user_message w
    = (client w'
         match results with
         | [] => direct_request self user_message
         | _ :: _ => synthesis_request self user_message results
         end 7%Z,
       S w')).
  { rewrite (chat_with_items members (map JStr names));
      [|rewrite Htools; reflexivity].
    rewrite Hres.
    destruct results as [|tr trs];
      [apply synthesize_nil|apply synthesize_cons]. }
  split.
  - exists results, w'.
    split; [exact Hres|]. split; [exact Hlen|]. split; [lia|].
    split; [exact Hchat|]. rewrite Hchat. reflexivity.
  - rewrite Hchat. simpl. lia.
Qed.

(** X9.  Unknown tools fall back to conversation.  When the decision
    names no registered identifier (an empty list, only unknown names,
    or no "tools" key at all), no handler runs and [chat] sends the
    direct conversational request right after the coordination request. *)
Theorem unknown_tools_give_direct_reply
    (members : list (string * json)) (names : list string)
    (user_message : string) (w : nat) :
  dict_get "tools" members (JArr []) = JArr (map JStr names) ->
  Forall (fun name => is_registered name = false) names ->
  run_tools client self (map JStr names) user_message [] w = (Ok [], w)
  /\ chat_with client self (JObj members) user_message w
     = (client w (direct_request self user_message) 7%Z, S w).
Proof.
  intros Htools Hunknown.
  destruct (run_tools_budget names user_message [] w)
    as (results & w' & Hres & Hlen & Hlo & Hhi).
  rewrite (filter_none _ _ Hunknown) in Hlen, Hhi. simpl in Hlen, Hhi.
  destruct results; [|discriminate Hlen].
  assert (w' = w) by lia. subst w'.
  split; [exact Hres|].
  rewrite (chat_with_items members (map JStr names));
    [|rewrite Htools; reflexivity].
  rewrite Hres. apply synthesize_nil.
Qed.

Lemma single_character_unregistered (c : ascii) :
  is_registered (String c EmptyString) = false.
Proof.
  unfold is_registered. apply bool_decide_eq_false. not_in_literals.
Qed.

(** X10.  A tool list given as one text selects nothing.  When the value
    under "tools" is a text instead of a list, the loop visits its
    characters one by one; no character is a registered identifier, so
    no handler runs, whatever the text is, and [chat] sends the direct
    conversational request. *)
Theorem text_as_tool_list_selects_nothing
    (members : list (string * json)) (text user_message : string)
    (w : nat) :
  dict_get "tools" members (JArr []) = JStr text ->
  chat_with client self (JObj members) user_message w
  = (client w (direct_request self user_message) 7%Z, S w).
Proof.
  intros Htools.
  rewrite (chat_with_items members
             (map JStr (map (fun c => String c EmptyString)
                          (list_ascii_of_string text))));
    [|rewrite Htools; simpl; rewrite map_map; reflexivity].
  destruct (run_tools_budget
              (map (fun c => String c EmptyString)
                 (list_ascii_of_string text)) user_message [] w)
    as (results & w' & Hres & Hlen & Hlo & Hhi).
  assert (Hnone : Forall (fun name => is_registered name = false)
                    (map (fun c => String c EmptyString)
                       (list_ascii_of_string text))).
  { apply Forall_map. apply Forall_forall. intros c _.
    apply single_character_unregistered. }
  rewrite (filter_none _ _ Hnone) in Hlen, Hhi. simpl in Hlen, Hhi.
  destruct results; [|discriminate Hlen].
  assert (w' = w) by lia. subst w'.
  rewrite Hres. apply synthesize_nil.
Qed.

(** X11.  A tool list that cannot be iterated fails the turn.  When the
    value under "tools" is null, a boolean or a number, [chat] raises
    the [TypeError] of the [for] statement right after the coordination
    request: no handler runs, no further request is sent and no reply is
    produced. *)
Theorem scalar_tool_list_fails_turn
    (members : list (string * json)) (user_message : string) (w : nat) :
  In (type_name (dict_get "tools" members (JArr [])))
     ["NoneType"; "bool"; "int"; "float"] ->
  chat_with client self (JObj members) user_message w
  = (Raise (type_error
              ("'" ++ type_name (dict_get "tools" members (JArr []))
               ++ "' object is not iterable")), w).
Proof.
  intros Hscalar. unfold chat_with. cbv zeta.
  unfold bind at 1. unfold lift.
  destruct (dict_get "tools" members (JArr [])) eqn:Hvalue;
    try reflexivity; simpl in Hscalar; intuition discriminate.
Qed.

Lemma run_tools_nested (names : list string) (nested : json)
    (rest : list json) (user_message : string) (acc : list tool_result)
    (w : nat) :
  In (type_name nested) ["list"; "dict"] ->
  exists w',
    run_tools client self (map JStr names ++ nested :: rest)%list
      user_message acc w
    = (Raise (type_error
                ("unhashable type: '" ++ type_name nested ++ "'")), w')
    /\ (w <= w' <= w + List.length (List.filter is_registered names))%nat.
Proof.
  intros Hnested. revert acc w.
  induction names as [|name names IH]; intros acc w.
  - exists w. split; [|simpl; lia].
    simpl. unfold bind, lift.
    destruct nested; simpl in Hnested; try intuition discriminate;
      reflexivity.
  - change (map JStr (name :: names) ++ nested :: rest)%list
      with (JStr name :: (map JStr names ++ nested :: rest))%list.
    destruct (tools client self !! name) as [handler|] eqn:Hlookup.
    + pose proof (handler_requests name handler user_message w Hlookup)
        as Hreq.
      destruct (handler user_message w) as [r w1] eqn:Hrun.
      rewrite (run_tools_registered _ _ _ _ _ _ _ _ _ _ Hlookup Hrun).
      destruct (IH (acc ++ [ {| tool := name;
                                result_text := outcome_text r |} ])%list
                  w1) as (w' & Hres & Hlo & Hhi).
      exists w'. split; [exact Hres|].
      assert (Hreg : is_registered name = true).
      { destruct (is_registered name) eqn:Hreg; [reflexivity|].
        apply (tools_lookup_none client self) in Hreg. congruence. }
      simpl List.filter. rewrite Hreg.
      simpl in *. destruct Hreq as [Hreq|[Hreq _]]; lia.
    + rewrite (run_tools_unregistered _ _ _ _ _ _ _ Hlookup).
      destruct (IH acc w) as (w' & Hres & Hlo & Hhi).
      exists w'. split; [exact Hres|].
      apply tools_lookup_none in Hlookup.
      simpl List.filter. rewrite Hlookup. lia.
Qed.

(** X12.  A selected entry that is itself a list or an object stops the
    loop.  The membership test of the loop raises a [TypeError] for it,
    outside the [try] block:  [chat] fails although the tools selected
    before it have already run, and nothing after it runs. *)
Theorem nested_selection_fails_turn
    (members : list (string * json)) (names : list string)
    (nested : json) (rest : list json) (user_message : string) (w : nat) :
  In (type_name nested) ["list"; "dict"] ->
  dict_get "tools" members (JArr [])
  = JArr (map JStr names ++ nested :: rest) ->
  exists w',
    chat_with client self (JObj members) user_message w
    = (Raise (type_error
                ("unhashable type: '" ++ type_name nested ++ "'")), w')
    /\ (w <= w' <= w + List.length (List.filter is_registered names))%nat.
Proof.
  intros Hnested Htools.
  rewrite (chat_with_items members (map JStr names ++ nested :: rest));
    [|rewrite Htools; reflexivity].
  destruct (run_tools_nested names nested rest user_message [] w Hnested)
    as (w' & Hres & Hbounds).
  exists w'. rewrite Hres. split; [reflexivity|exact Hbounds].
Qed.

(** X13.  A null height turns into a tool output.  When the profile
    holds a null height and the decision selects the calorie tool alone,
    the tool fails before any request, its failure becomes the entry
    "Error: unsupported operand type(s) for *: 'NoneType' and 'int'",
    and [chat] goes on to send the synthesis request that embeds this
    entry: the turn makes two requests and none for the tool. *)
Theorem null_height_becomes_tool_output
    (members : list (string * json)) (user_message : string) (w : nat) :
  user_data self !! "height" = Some PNone ->
  dict_get "tools" members (JArr []) = JArr [JStr "calculate_calories"] ->
  chat_with client self (JObj members) user_message w
  = (client w
       (synthesis_request self user_message
          [ {| tool := "calculate_calories";
               result_text :=
                 "Error: unsupported operand type(s) for *: 'NoneType' and 'int'"
            |} ]) 7%Z, S w).
Proof.
  intros Hheight Htools.
  rewrite (chat_with_items members [JStr "calculate_calories"]);
    [|rewrite Htools; reflexivity].
  assert (Hrun : calculate_calories client self user_message w
                 = (Raise (PyExn "TypeError"
                      "unsupported operand type(s) for *: 'NoneType' and 'int'"),
                    w)).
  { rewrite calculate_calories_eq, (null_height_raises self Hheight).
    reflexivity. }
  rewrite (run_tools_registered _ _ _ _ _ _ _ _ _ _
             tools_calculate_calories Hrun).
  simpl run_tools. unfold ret. apply synthesize_cons.
Qed.

End MoreDispatch.

(* ------------------------------------------------------------------ *)
(** ** When the calorie tool fails by itself *)

Section CalorieFailure.
Context {R : PyRuntime}.
Variable client : completion.
Variable self : FitnessCoachAgent.


End CalorieFailure.

(* ------------------------------------------------------------------ *)
(** ** Accounts: [register_user] and [login_user] *)

Section Accounts.
Context {R : PyRuntime}.

Lemma find_app_none {A} (f : A -> bool) (xs ys : list A) :
  List.find f xs = None -> List.find f (xs ++ ys) = List.find f ys.
Proof.
  induction xs as [|x xs IH]; simpl; [reflexivity|].
  destruct (f x); [discriminate|exact IH].
Qed.

Lemma find_app_some {A} (f : A -> bool) (xs ys : list A) (x : A) :
  List.find f xs = Some x -> List.find f (xs ++ ys) = Some x.
Proof.
  induction xs as [|x' xs IH]; simpl; [discriminate|].
  destruct (f x'); [trivial|exact IH].
Qed.

Lemma find_none_iff {A} (f : A -> bool) (xs : list A) :
  List.find f xs = None <-> Forall (fun x => f x = false) xs.
Proof.
  induction xs as [|x xs IH]; simpl.
  - split; [constructor|reflexivity].
  - destruct (f x) eqn:Hx.
    + split; [discriminate|]. intros Hall. inversion Hall. congruence.
    + rewrite IH. split; [constructor; assumption|].
      intros Hall. inversion Hall. assumption.
Qed.

Lemma next_id_above (ids : list Z) :
  Forall (fun id => (id < Store.next_id ids)%Z) ids.
Proof.
  unfold Store.next_id.
  induction ids as [|id ids IH]; simpl; constructor.
  - lia.
  - eapply Forall_impl; [exact IH|]. simpl. intros x Hx. lia.
Qed.

Lemma no_user_with_next_id (db : Store.database) :
  Store.user_by_id db (Store.next_id (map Store.user_id (Store.users db)))
  = None.
Proof.
  unfold Store.user_by_id. apply find_none_iff.
  pose proof (next_id_above (map Store.user_id (Store.users db))) as Habove.
  rewrite Forall_map in Habove.
  eapply Forall_impl; [exact Habove|]. simpl. intros user Hlt.
  apply Z.eqb_neq. lia.
Qed.

(** X15.  Registration and login round trip.  Registering a name that is
    not taken succeeds; afterwards the same name and password log in as
    the new user, the same name with any other password is refused, and
    every attempt with another name fares as it did before. *)
Theorem registered_user_can_log_in (name pass : string)
    (db : Store.database) :
  Store.user_by_name db name = None ->
  let new_user :=
    {| Store.user_id := Store.next_id (map Store.user_id (Store.users db));
       Store.username := name; Store.password := pass |} in
  let db' := snd (Store.register_user name pass db) in
  fst (Store.register_user name pass db)
  = (true, "Account created successfully!")
  /\ Store.login_user name pass db' = (Some new_user, "Login successful")
  /\ (forall other,
        other <> pass ->
        Store.login_user name other db' = (None, "Invalid credentials"))
  /\ (forall name' pass',
        name' <> name ->
        Store.login_user name' pass' db' = Store.login_user name' pass' db).
Proof.
  intros Hfree. cbv zeta.
  unfold Store.register_user. rewrite Hfree. cbn [fst snd].
  assert (Hfound :
    forall new_user,
      Store.username new_user = name ->
      Store.user_by_name
        {| Store.users := Store.users db ++ [new_user];
           Store.profiles :=
             Store.profiles db
             ++ [Store.blank_profile
                   (Store.next_id (map Store.profile_id (Store.profiles db)))
                   (Store.user_id new_user)];
           Store.conversations := Store.conversations db |} name
      = Some new_user).
  { intros new_user Hname. unfold Store.user_by_name in *. cbn [Store.users].
    rewrite (find_app_none _ _ _ Hfree). simpl.
    rewrite Hname, String.eqb_refl. reflexivity. }
  split; [reflexivity|]. split; [|split].
  - unfold Store.login_user. rewrite Hfound by reflexivity.
    cbn [Store.password]. rewrite String.eqb_refl. reflexivity.
  - intros other Hother. unfold Store.login_user.
    rewrite Hfound by reflexivity. cbn [Store.password].
    apply String.eqb_neq in Hother. rewrite String.eqb_sym, Hother.
    reflexivity.
  - intros name' pass' Hname. unfold Store.login_user, Store.user_by_name.
    cbn [Store.users].
    destruct (List.find (fun user => (Store.username user =? name')%string)
                (Store.users db)) as [user|] eqn:Hfind.
    + rewrite (find_app_some _ _ _ _ Hfind). reflexivity.
    + rewrite (find_app_none _ _ _ Hfind). simpl.
      apply String.eqb_neq in Hname. rewrite String.eqb_sym, Hname.
      reflexivity.
Qed.

End Accounts.

(* ------------------------------------------------------------------ *)
(** ** Profiles: [get_user_data] and [update_profile] *)

Section Profiles.
Context {R : PyRuntime}.

Lemma set_field_keeps_owner (field : string) (value : pyval)
    (profile : Store.UserProfile) :
  Store.profile_user_id (Store.set_field field value profile)
  = Store.profile_user_id profile
  /\ Store.profile_id (Store.set_field field value profile)
     = Store.profile_id profile.
Proof.
  unfold Store.set_field.
  repeat (destruct (_ =? _)%string; [split; reflexivity|]).
  split; reflexivity.
Qed.

Lemma apply_profile_data_keeps_owner (profile_data : gmap string pyval)
    (profile : Store.UserProfile) :
  Store.profile_user_id (Store.apply_profile_data profile_data profile)
  = Store.profile_user_id profile.
Proof.
  unfold Store.apply_profile_data.
  apply (fold_left_invariant
           (fun row => Store.profile_user_id row
                       = Store.profile_user_id profile)); [reflexivity|].
  intros row field Hrow.
  destruct (profile_data !! field) as [[]|]; try exact Hrow;
    rewrite (proj1 (set_field_keeps_owner _ _ _)); exact Hrow.
Qed.

Lemma update_first_owners (id : Z) (change : Store.UserProfile -> Store.UserProfile)
    (rows : list Store.UserProfile) :
  (forall row, Store.profile_user_id (change row) = Store.profile_user_id row) ->
  map Store.profile_user_id
    (Store.update_first (fun row => (Store.profile_user_id row =? id)%Z)
       change rows)
  = map Store.profile_user_id rows.
Proof.
  intros Hkeep. induction rows as [|row rows IH]; simpl; [reflexivity|].
  destruct (Store.profile_user_id row =? id)%Z; simpl.
  - rewrite Hkeep. reflexivity.
  - rewrite IH. reflexivity.
Qed.

Lemma find_update_first (id id' : Z)
    (change : Store.UserProfile -> Store.UserProfile)
    (rows : list Store.UserProfile) :
  (forall row, Store.profile_user_id (change row) = Store.profile_user_id row) ->
  List.find (fun row => (Store.profile_user_id row =? id')%Z)
    (Store.update_first (fun row => (Store.profile_user_id row =? id)%Z)
       change rows)
  = if (id =? id')%Z
    then option_map change
           (List.find (fun row => (Store.profile_user_id row =? id')%Z) rows)
    else List.find (fun row => (Store.profile_user_id row =? id')%Z) rows.
Proof.
  intros Hkeep. induction rows as [|row rows IH]; simpl.
  - destruct (id =? id')%Z; reflexivity.
  - destruct (Z.eqb_spec (Store.profile_user_id row) id) as [Hrow|Hrow];
      simpl.
    + rewrite Hkeep, Hrow.
      destruct (Z.eqb_spec id id') as [_|_]; reflexivity.
    + rewrite IH.
      destruct (Z.eqb_spec (Store.profile_user_id row) id') as [Hrow'|Hrow'];
        [|reflexivity].
      destruct (Z.eqb_spec id id') as [Heq|_]; [|reflexivity].
      congruence.
Qed.

Lemma consistent_empty : consistent Store.empty_database.
Proof.
  unfold consistent. simpl. repeat split; constructor.
Qed.

(** X16.  The store stays consistent.  Registration, whether it succeeds
    or is refused, a profile update and a stored message each lead from
    a store in which names and keys are unique and every user has
    exactly one profile to a store of the same kind. *)
Theorem store_stays_consistent (db : Store.database) (name pass : string)
    (id : Z) (profile_data : gmap string pyval)
    (msg_role msg_content : string) (now : Z) :
  consistent db ->
  consistent (snd (Store.register_user name pass db))
  /\ consistent (Store.update_profile id profile_data db)
  /\ consistent (Store.save_message id msg_role msg_content now db).
Proof.
  intros (Hnames & Hids & Hlined). split; [|split].
  - unfold Store.register_user.
    destruct (Store.user_by_name db name) as [existing|] eqn:Hfree;
      [repeat split; assumption|].
    unfold consistent. cbn [snd Store.users Store.profiles].
    rewrite !map_app. simpl. repeat split.
    + apply NoDup_app. split; [exact Hnames|]. split; [|apply NoDup_singleton].
      intros taken Htaken Hnew. apply list_elem_of_singleton in Hnew.
      subst taken. apply list_elem_of_In, in_map_iff in Htaken.
      destruct Htaken as (user & Huser & Hin).
      unfold Store.user_by_name in Hfree.
      apply (find_none _ _ Hfree) in Hin. apply String.eqb_neq in Hin.
      contradiction.
    + apply NoDup_app. split; [exact Hids|]. split; [|apply NoDup_singleton].
      intros taken Htaken Hnew. apply list_elem_of_singleton in Hnew.
      subst taken.
      pose proof (next_id_above (map Store.user_id (Store.users db)))
        as Habove.
      rewrite Forall_forall in Habove. specialize (Habove _ Htaken). lia.
    + rewrite Hlined. reflexivity.
  - unfold Store.update_profile.
    destruct (Store.profile_of db id); [|repeat split; assumption].
    unfold consistent. cbn [Store.users Store.profiles].
    repeat split; try assumption.
    rewrite update_first_owners; [exact Hlined|].
    apply apply_profile_data_keeps_owner.
  - repeat split; assumption.
Qed.

Lemma no_profile_for_next_id (db : Store.database) :
  consistent db ->
  Store.profile_of db (Store.next_id (map Store.user_id (Store.users db)))
  = None.
Proof.
  intros (_ & _ & Hlined). unfold Store.profile_of. apply find_none_iff.
  pose proof (next_id_above (map Store.user_id (Store.users db))) as Habove.
  rewrite <- Hlined, Forall_map in Habove.
  eapply Forall_impl; [exact Habove|]. simpl. intros row Hlt.
  apply Z.eqb_neq. rewrite Hlined in Hlt. lia.
Qed.

(** X17.  The profile of a new user breaks the calorie tool.  In a
    consistent store, the dict that [get_user_data] builds right after a
    successful registration holds the name and a null for every other
    entry; the placeholders of the agent do not apply to it (the age is
    rendered as "None"), and the calorie tool of an agent built from it
    fails with a [TypeError] before any request, whatever the session
    and the message are. *)
Theorem new_user_profile_breaks_calorie_tool (db : Store.database)
    (name pass : string) :
  consistent db ->
  Store.user_by_name db name = None ->
  let id := Store.next_id (map Store.user_id (Store.users db)) in
  let fresh : gmap string pyval :=
    <["username" := PStr name]>
    (<["age" := PNone]> (<["weight" := PNone]> (<["height" := PNone]>
    (<["fitness_goal" := PNone]> (<["activity_level" := PNone]>
    (<["dietary_restrictions" := PNone]>
    (<["preferences" := PNone]> ∅))))))) in
  Store.get_user_data id (snd (Store.register_user name pass db)) = Ok fresh
  /\ fmt_get fresh "age" "unknown" = "None"
  /\ (forall client session user_message w,
        calculate_calories client (Store.agent_for fresh session)
          user_message w
        = (Raise (PyExn "TypeError"
                    "unsupported operand type(s) for *: 'NoneType' and 'int'"),
           w)).
Proof.
  intros Hconsistent Hfree. cbv zeta. split; [|split].
  - unfold Store.register_user. rewrite Hfree. cbn [snd].
    unfold Store.get_user_data, Store.user_by_id, Store.profile_of.
    cbn [Store.users Store.profiles]. cbv zeta.
    rewrite (find_app_none _ _ _ (no_user_with_next_id db)).
    rewrite (find_app_none _ _ _ (no_profile_for_next_id db Hconsistent)).
    simpl. rewrite Z.eqb_refl. reflexivity.
  - unfold fmt_get.
    rewrite lookup_insert_ne by discriminate.
    rewrite lookup_insert_eq. reflexivity.
  - intros client session user_message w.
    rewrite calculate_calories_eq, null_height_raises; [reflexivity|].
    unfold Store.agent_for. cbn [user_data].
    rewrite !lookup_insert_ne by discriminate.
    rewrite lookup_insert_eq. reflexivity.
Qed.

(** X18.  The dict of [get_user_data] always has its eight keys and no
    other.  Whenever [get_user_data] returns, every one of the eight
    keys is present, so the defaults that the agent passes to [get] for
    them never show, whatever they are: a null column is rendered as
    "None".  No other key is present: the start date that the progress
    analysis asks for is always rendered as "recently". *)
Theorem user_data_has_fixed_keys (id : Z) (db : Store.database)
    (ud : gmap string pyval) :
  Store.get_user_data id db = Ok ud ->
  (forall key, is_Some (ud !! key) <-> key ∈ user_data_keys)
  /\ (forall key dflt dflt',
        key ∈ user_data_keys -> fmt_get ud key dflt = fmt_get ud key dflt')
  /\ (forall key dflt, ud !! key = Some PNone -> fmt_get ud key dflt = "None")
  /\ fmt_get ud "created_at" "recently" = "recently".
Proof.
  intros Hdata. unfold Store.get_user_data in Hdata. cbv zeta in Hdata.
  destruct (Store.user_by_id db id) as [user|]; [|discriminate Hdata].
  injection Hdata as <-.
  assert (Hkeys : forall key,
            is_Some ((<["username" := PStr (Store.username user)]>
                      (<["age" := match Store.profile_of db id with
                                  | Some row => Store.age row
                                  | None => PNone
                                  end]>
                      (<["weight" := match Store.profile_of db id with
                                     | Some row => Store.weight row
                                     | None => PNone
                                     end]>
                      (<["height" := match Store.profile_of db id with
                                     | Some row => Store.height row
                                     | None => PNone
                                     end]>
                      (<["fitness_goal" :=
                           match Store.profile_of db id with
                           | Some row => Store.fitness_goal row
                           | None => PStr "general fitness"
                           end]>
                      (<["activity_level" :=
                           match Store.profile_of db id with
                           | Some row => Store.activity_level row
                           | None => PStr "moderate"
                           end]>
                      (<["dietary_restrictions" :=
                           match Store.profile_of db id with
                           | Some row => Store.dietary_restrictions row
                           | None => PStr "none"
                           end]>
                      (<["preferences" :=
                           match Store.profile_of db id with
                           | Some row => Store.preferences row
                           | None => PStr "none"
                           end]> (∅ : gmap string pyval))))))))) !! key)
            <-> key ∈ user_data_keys).
  { intros key. rewrite !lookup_insert_is_Some'.
    assert (Hempty : ~ is_Some ((∅ : gmap string pyval) !! key))
      by apply lookup_empty_is_Some.
    unfold user_data_keys. rewrite !elem_of_cons, elem_of_nil.
    intuition congruence. }
  split; [exact Hkeys|]. split; [|split].
  - intros key dflt dflt' Hkey. apply Hkeys in Hkey.
    destruct Hkey as [value Hvalue]. unfold fmt_get.
    rewrite Hvalue. reflexivity.
  - intros key dflt Hnull. unfold fmt_get. rewrite Hnull. reflexivity.
  - unfold fmt_get.
    rewrite !lookup_insert_ne by discriminate.
    rewrite lookup_empty. reflexivity.
Qed.

Lemma get_set_field (field field' : string) (value : pyval)
    (profile : Store.UserProfile) :
  field ∈ Store.profile_fields -> field' ∈ Store.profile_fields ->
  Store.get_field field (Store.set_field field' value profile)
  = if (field' =? field)%string then value
    else Store.get_field field profile.
Proof.
  unfold Store.profile_fields. rewrite !elem_of_cons, !elem_of_nil.
  intros Hfield Hfield'.
  repeat (destruct Hfield as [->|Hfield]);
    try contradiction;
    repeat (destruct Hfield' as [->|Hfield']);
    try contradiction; reflexivity.
Qed.

Lemma get_applied_field_from (profile_data : gmap string pyval)
    (field : string) (fields : list string) (profile : Store.UserProfile) :
  field ∈ Store.profile_fields ->
  Forall (fun f => f ∈ Store.profile_fields) fields ->
  Store.get_field field
    (fold_left
       (fun row f =>
          match profile_data !! f with
          | Some PNone | None => row
          | Some value => Store.set_field f value row
          end) fields profile)
  = if bool_decide (field ∈ fields)
    then submitted_or profile_data field (Store.get_field field profile)
    else Store.get_field field profile.
Proof.
  intros Hfield Hfields. revert profile.
  induction Hfields as [|f fields Hf _ IH]; intros profile; [reflexivity|].
  simpl fold_left. rewrite IH.
  assert (Hstep :
    Store.get_field field
      match profile_data !! f with
      | Some PNone | None => profile
      | Some value => Store.set_field f value profile
      end
    = if (f =? field)%string
      then submitted_or profile_data field (Store.get_field field profile)
      else Store.get_field field profile).
  { unfold submitted_or.
    destruct (String.eqb_spec f field) as [->|Hne].
    - destruct (profile_data !! field) as [[]|]; try reflexivity;
        rewrite get_set_field by assumption;
        rewrite String.eqb_refl; reflexivity.
    - destruct (profile_data !! f) as [[]|]; try reflexivity;
        rewrite get_set_field by assumption;
        apply String.eqb_neq in Hne; rewrite Hne; reflexivity. }
  destruct (String.eqb_spec f field) as [->|Hne].
  - rewrite (bool_decide_eq_true_2 (field ∈ field :: fields))
      by apply list_elem_of_here.
    destruct (bool_decide (field ∈ fields)); rewrite Hstep; [|reflexivity].
    unfold submitted_or.
    destruct (profile_data !! field) as [[]|]; reflexivity.
  - rewrite Hstep.
    destruct (decide (field ∈ fields)) as [Hin|Hout].
    + rewrite !bool_decide_eq_true_2; [reflexivity| |exact Hin].
      apply list_elem_of_further. exact Hin.
    + rewrite !bool_decide_eq_false_2; [reflexivity| |exact Hout].
      intros Hin. apply elem_of_cons in Hin. destruct Hin; congruence.
Qed.

Lemma get_applied_field (profile_data : gmap string pyval) (field : string)
    (profile : Store.UserProfile) :
  field ∈ Store.profile_fields ->
  Store.get_field field (Store.apply_profile_data profile_data profile)
  = submitted_or profile_data field (Store.get_field field profile).
Proof.
  intros Hfield. unfold Store.apply_profile_data.
  rewrite get_applied_field_from; [|exact Hfield|].
  - rewrite bool_decide_eq_true_2 by exact Hfield. reflexivity.
  - apply Forall_forall. auto.
Qed.

Lemma user_data_of_row (id : Z) (db : Store.database) (user : Store.User)
    (row : Store.UserProfile) (ud : gmap string pyval) :
  Store.user_by_id db id = Some user ->
  Store.profile_of db id = Some row ->
  Store.get_user_data id db = Ok ud ->
  ud !! "username" = Some (PStr (Store.username user))
  /\ (forall field,
        field ∈ Store.profile_fields ->
        ud !! field = Some (Store.get_field field row)).
Proof.
  intros Huser Hrow Hdata. unfold Store.get_user_data in Hdata.
  rewrite Huser, Hrow in Hdata. cbv zeta in Hdata. injection Hdata as <-.
  split; [apply lookup_insert_eq|].
  intros field Hfield. unfold Store.profile_fields in Hfield.
  rewrite !elem_of_cons, elem_of_nil in Hfield.
  repeat (destruct Hfield as [->|Hfield]); try contradiction;
    rewrite !lookup_insert_ne by discriminate;
    rewrite lookup_insert_eq; reflexivity.
Qed.

(** X19.  Update and read back.  For a user with a profile, the dict
    that [get_user_data] builds after [update_profile] holds, for each
    of the seven profile fields, the submitted value when one was
    submitted and is not null, and the value stored before otherwise: a
    null cannot clear a field.  The name is untouched, and the dicts of
    all other users are as they were. *)
Theorem profile_update_reads_back (id : Z) (db : Store.database)
    (user : Store.User) (row : Store.UserProfile)
    (profile_data : gmap string pyval) :
  Store.user_by_id db id = Some user ->
  Store.profile_of db id = Some row ->
  (exists ud,
     Store.get_user_data id (Store.update_profile id profile_data db) = Ok ud
     /\ ud !! "username" = Some (PStr (Store.username user))
     /\ (forall field,
           field ∈ Store.profile_fields ->
           ud !! field
           = Some (submitted_or profile_data field
                     (Store.get_field field row))))
  /\ (forall other,
        other <> id ->
        Store.get_user_data other (Store.update_profile id profile_data db)
        = Store.get_user_data other db).
Proof.
  intros Huser Hrow.
  assert (Hprofile : forall other,
    Store.profile_of (Store.update_profile id profile_data db) other
    = if (id =? other)%Z
      then option_map (Store.apply_profile_data profile_data)
             (Store.profile_of db other)
      else Store.profile_of db other).
  { intros other. unfold Store.update_profile. rewrite Hrow.
    unfold Store.profile_of. cbn [Store.profiles].
    apply find_update_first. apply apply_profile_data_keeps_owner. }
  assert (Husers : forall other,
    Store.user_by_id (Store.update_profile id profile_data db) other
    = Store.user_by_id db other).
  { intros other. unfold Store.update_profile. rewrite Hrow. reflexivity. }
  split.
  - destruct (Store.get_user_data id (Store.update_profile id profile_data db))
      as [ud|e] eqn:Hdata.
    + exists ud. split; [reflexivity|].
      assert (Hrow' :
        Store.profile_of (Store.update_profile id profile_data db) id
        = Some (Store.apply_profile_data profile_data row)).
      { rewrite Hprofile, Z.eqb_refl, Hrow. reflexivity. }
      assert (Huser' :
        Store.user_by_id (Store.update_profile id profile_data db) id
        = Some user) by (rewrite Husers; exact Huser).
      destruct (user_data_of_row _ _ _ _ _ Huser' Hrow' Hdata)
        as [Hname Hfields].
      split; [exact Hname|].
      intros field Hfield. rewrite (Hfields field Hfield).
      rewrite get_applied_field by exact Hfield. reflexivity.
    + unfold Store.get_user_data in Hdata. rewrite Husers, Huser in Hdata.
      discriminate Hdata.
  - intros other Hother. unfold Store.get_user_data.
    rewrite Husers, Hprofile.
    destruct (Z.eqb_spec id other) as [Heq|_]; [congruence|reflexivity].
Qed.

End Profiles.

(* ------------------------------------------------------------------ *)
(** ** Conversations: [save_message] and [load_conversation_history] *)

Section Conversations.
Context {R : PyRuntime}.

Lemma insert_row_permutation (row : Store.Conversation)
    (rows : list Store.Conversation) :
  Permutation (insert_row row rows) (row :: rows).
Proof.
  induction rows as [|first rest IH]; simpl; [reflexivity|].
  destruct (Store.timestamp row <? Store.timestamp first)%Z; [reflexivity|].
  rewrite IH. apply perm_swap.
Qed.

Lemma insert_row_sorted (row : Store.Conversation)
    (rows : list Store.Conversation) :
  Sorted (fun a b => (Store.timestamp a <= Store.timestamp b)%Z) rows ->
  Sorted (fun a b => (Store.timestamp a <= Store.timestamp b)%Z)
    (insert_row row rows).
Proof.
  induction rows as [|first rest IH]; intros Hsorted; simpl.
  - repeat constructor.
  - destruct (Z.ltb_spec (Store.timestamp row) (Store.timestamp first)).
    + constructor; [exact Hsorted|]. constructor. lia.
    + inversion Hsorted as [|? ? Hrest Hhead]; subst.
      constructor; [apply IH; exact Hrest|].
      destruct rest as [|second rest]; simpl.
      * constructor. lia.
      * destruct (Store.timestamp row <? Store.timestamp second)%Z;
          constructor; [lia|]. inversion Hhead. assumption.
Qed.

Lemma insertion_order_from (rows sorted : list Store.Conversation) :
  Sorted (fun a b => (Store.timestamp a <= Store.timestamp b)%Z) sorted ->
  Permutation
    (fold_left (fun sorted row => insert_row row sorted) rows sorted)
    (sorted ++ rows)
  /\ Sorted (fun a b => (Store.timestamp a <= Store.timestamp b)%Z)
       (fold_left (fun sorted row => insert_row row sorted) rows sorted).
Proof.
  revert sorted. induction rows as [|row rows IH]; intros sorted Hsorted.
  - simpl. rewrite app_nil_r. split; [reflexivity|exact Hsorted].
  - simpl. destruct (IH (insert_row row sorted)
                       (insert_row_sorted row sorted Hsorted))
      as [Hperm Hs].
    split; [|exact Hs].
    rewrite Hperm, insert_row_permutation.
    apply Permutation_middle.
Qed.

(** Insertion sort is an ordering by timestamp. *)
Lemma insertion_order_valid : orders_by_timestamp insertion_order.
Proof.
  intros rows. unfold insertion_order.
  destruct (insertion_order_from rows []) as [Hperm Hsorted]; [constructor|].
  split; [exact Hperm|exact Hsorted].
Qed.

Lemma filter_owner_snoc (id owner : Z) (rows : list Store.Conversation)
    (row : Store.Conversation) :
  Store.conversation_user_id row = owner ->
  List.filter (fun conv => (Store.conversation_user_id conv =? id)%Z)
    (rows ++ [row])
  = (List.filter (fun conv => (Store.conversation_user_id conv =? id)%Z) rows
     ++ (if (owner =? id)%Z then [row] else []))%list.
Proof.
  intros Howner. rewrite List.filter_app. simpl. rewrite Howner.
  reflexivity.
Qed.

(** X20.  Conversations are kept apart by user.  Under any ordering by
    timestamp, the loaded history of a user only holds messages stored
    for that user; storing a message for a user adds exactly that
    message to the user's loaded history and leaves the loaded history
    of every other user as it was. *)
Theorem conversations_kept_apart
    (order : list Store.Conversation -> list Store.Conversation)
    (id : Z) (msg_role msg_content : string) (now : Z)
    (db : Store.database) :
  orders_by_timestamp order ->
  (forall entry,
     In entry (Store.load_conversation_history order id db) ->
     exists row,
       In row (Store.conversations db)
       /\ Store.conversation_user_id row = id /\ entry = entry_of row)
  /\ Permutation
       (Store.load_conversation_history order id
          (Store.save_message id msg_role msg_content now db))
       (Store.load_conversation_history order id db
        ++ [ {| Store.entry_role := msg_role;
                Store.entry_content := msg_content;
                Store.entry_timestamp := now |} ])
  /\ (forall other,
        other <> id ->
        Store.load_conversation_history order other
          (Store.save_message id msg_role msg_content now db)
        = Store.load_conversation_history order other db).
Proof.
  intros Horder. split; [|split].
  - intros entry Hentry. unfold Store.load_conversation_history in Hentry.
    cbv zeta in Hentry. apply in_map_iff in Hentry.
    destruct Hentry as (row & <- & Hrow).
    apply (Permutation_in _ (proj1 (Horder _))) in Hrow.
    apply filter_In in Hrow. destruct Hrow as [Hrow Hown].
    exists row. split; [exact Hrow|]. split; [|reflexivity].
    apply Z.eqb_eq. exact Hown.
  - unfold Store.load_conversation_history, Store.save_message.
    cbv zeta. cbn [Store.conversations].
    rewrite (filter_owner_snoc id id) by reflexivity.
    rewrite Z.eqb_refl.
    rewrite (proj1 (Horder _)), map_app.
    apply Permutation_app_tail, Permutation_map.
    symmetry. apply (proj1 (Horder _)).
  - intros other Hother.
    unfold Store.load_conversation_history, Store.save_message.
    cbv zeta. cbn [Store.conversations].
    rewrite (filter_owner_snoc other id) by reflexivity.
    apply Z.eqb_neq in Hother. rewrite Z.eqb_sym, Hother, app_nil_r.
    reflexivity.
Qed.

Lemma sorted_before_last (rows : list Store.Conversation)
    (final : Store.Conversation) :
  Sorted (fun a b => (Store.timestamp a <= Store.timestamp b)%Z)
    (rows ++ [final]) ->
  Forall (fun row => (Store.timestamp row <= Store.timestamp final)%Z) rows.
Proof.
  intros Hsorted.
  apply Sorted_StronglySorted in Hsorted;
    [|intros a b c Hab Hbc; lia].
  induction rows as [|row rows IH]; [constructor|].
  simpl in Hsorted. inversion Hsorted as [|? ? Hrest Hall]; subst.
  constructor; [|apply IH; exact Hrest].
  rewrite Forall_app in Hall. destruct Hall as [_ Hfinal].
  inversion Hfinal. assumption.
Qed.

Lemma latest_row_is_last (sorted olds : list Store.Conversation)
    (latest : Store.Conversation) :
  Sorted (fun a b => (Store.timestamp a <= Store.timestamp b)%Z) sorted ->
  Permutation sorted (olds ++ [latest]) ->
  Forall (fun row => (Store.timestamp row < Store.timestamp latest)%Z) olds ->
  exists earlier, sorted = (earlier ++ [latest])%list
                  /\ Permutation earlier olds.
Proof.
  intros Hsorted Hperm Holds.
  destruct (exists_last (l := sorted)) as (earlier & final & ->).
  { intros ->. apply Permutation_nil in Hperm.
    destruct olds; discriminate Hperm. }
  assert (Hfinal : final = latest).
  { assert (Hin : In final (olds ++ [latest])).
    { apply (Permutation_in _ Hperm), in_or_app. right. left. reflexivity. }
    apply in_app_or in Hin. destruct Hin as [Hold|[Heq|[]]]; [|auto].
    exfalso.
    rewrite Forall_forall in Holds.
    pose proof (Holds final (proj2 (list_elem_of_In _ _) Hold)) as Hlt.
    assert (Hlatest : In latest (earlier ++ [final])).
    { apply (Permutation_in _ (Permutation_sym Hperm)), in_or_app.
      right. left. reflexivity. }
    apply in_app_or in Hlatest. destruct Hlatest as [Hl|[Heq|[]]].
    - pose proof (sorted_before_last _ _ Hsorted) as Hbefore.
      rewrite Forall_forall in Hbefore.
      specialize (Hbefore latest (proj2 (list_elem_of_In _ _) Hl)). lia.
    - subst final. lia. }
  subst final. exists earlier. split; [reflexivity|].
  apply (Permutation_app_inv_r _ _ _ Hperm).
Qed.

(** X21.  The latest message comes last.  When a message is stored for a
    user at a time later than the time of every message stored for that
    user before, the loaded history of the user ends with it under any
    ordering by timestamp, and the entries before it are the ones that
    were loaded before. *)
Theorem latest_message_loads_last
    (order : list Store.Conversation -> list Store.Conversation)
    (id : Z) (msg_role msg_content : string) (now : Z)
    (db : Store.database) :
  orders_by_timestamp order ->
  (forall row,
     In row (Store.conversations db) ->
     Store.conversation_user_id row = id ->
     (Store.timestamp row < now)%Z) ->
  exists earlier,
    Store.load_conversation_history order id
      (Store.save_message id msg_role msg_content now db)
    = (earlier
       ++ [ {| Store.entry_role := msg_role;
               Store.entry_content := msg_content;
               Store.entry_timestamp := now |} ])%list
    /\ Permutation earlier (Store.load_conversation_history order id db).
Proof.
  intros Horder Hnewer.
  unfold Store.load_conversation_history, Store.save_message.
  cbv zeta. cbn [Store.conversations].
  rewrite (filter_owner_snoc id id) by reflexivity. rewrite Z.eqb_refl.
  set (olds := List.filter
                 (fun conv => (Store.conversation_user_id conv =? id)%Z)
                 (Store.conversations db)).
  set (latest := {| Store.conversation_id :=
                      Store.next_id
                        (map Store.conversation_id (Store.conversations db));
                    Store.conversation_user_id := id;
                    Store.role := msg_role; Store.content := msg_content;
                    Store.timestamp := now |}).
  destruct (latest_row_is_last (order (olds ++ [latest])%list) olds latest)
    as (earlier & Heq & Hperm).
  - apply (proj2 (Horder _)).
  - apply (proj1 (Horder _)).
  - apply Forall_forall. intros row Hrow.
    apply list_elem_of_In, filter_In in Hrow. destruct Hrow as [Hrow Hown].
    apply Z.eqb_eq in Hown. apply (Hnewer row Hrow Hown).
  - exists (map (fun conv =>
                   {| Store.entry_role := Store.role conv;
                      Store.entry_content := Store.content conv;
                      Store.entry_timestamp := Store.timestamp conv |})
              earlier).
    split.
    + rewrite Heq, map_app. reflexivity.
    + apply Permutation_map. rewrite Hperm. symmetry.
      apply (proj1 (Horder _)).
Qed.

End Conversations.

(* ------------------------------------------------------------------ *)
(** ** A submitted prompt *)

Section Turn.
Context {R : PyRuntime}.
Variable client : completion.

Lemma as_message_role (entry : Store.chat_entry) :
  Store.as_message entry !! "role" = Some (Store.entry_role entry).
Proof.
  unfold Store.as_message. apply lookup_insert_eq.
Qed.

Lemma as_message_content (entry : Store.chat_entry) :
  content_of (Store.as_message entry) = Store.entry_content entry.
Proof.
  assert (Hlookup : Store.as_message entry !! "content"
                    = Some (Store.entry_content entry)).
  { unfold Store.as_message.
    etransitivity; [apply lookup_insert_ne; discriminate|].
    apply lookup_insert_eq. }
  unfold content_of. rewrite Hlookup. reflexivity.
Qed.

Lemma concat_snoc (sep : string) (parts : list string) (final : string) :
  exists pre, String.concat sep (parts ++ [final]) = pre ++ final.
Proof.
  induction parts as [|x parts IH].
  - exists EmptyString. reflexivity.
  - destruct IH as [pre Hpre]. exists (x ++ sep ++ pre).
    change ((x :: parts) ++ [final])%list with (x :: (parts ++ [final]))%list.
    destruct (parts ++ [final])%list as [|y rest] eqn:Hparts.
    + destruct parts; discriminate Hparts.
    + change (String.concat sep (x :: y :: rest))
        with (x ++ sep ++ String.concat sep (y :: rest)).
      rewrite Hpre, !append_assoc. reflexivity.
Qed.

Lemma user_data_after_save (id owner : Z) (msg_role msg_content : string)
    (now : Z) (db : Store.database) :
  Store.get_user_data id
    (Store.save_message owner msg_role msg_content now db)
  = Store.get_user_data id db.
Proof. reflexivity. Qed.

(** X22.  The prompt is part of the history that answers it.  The agent
    that [chat_page] builds for a submitted prompt already has the
    prompt as the last message of its history.  Its conversation excerpt
    therefore ends with the line "user: " followed by the first hundred
    characters of the prompt and is never "No previous conversation.",
    and its preference mining ends with the step for the prompt itself.
    The outcome of the turn is the outcome of [chat] on that agent. *)
Theorem prompt_is_part_of_history (id : Z) (prompt : string)
    (clock : nat -> Z) (db : Store.database)
    (session : list Store.chat_entry) (ud : gmap string pyval) (w : nat) :
  prompt <> "" ->
  Store.get_user_data id db = Ok ud ->
  let shown :=
    {| Store.entry_role := "user"; Store.entry_content := prompt;
       Store.entry_timestamp := clock 1%nat |} in
  let agent := Store.agent_for ud (session ++ [shown]) in
  fst (fst (Store.submit_prompt client id prompt clock db session w))
  = match fst (chat client agent prompt w) with
    | Ok response => Ok (Some response)
    | Raise e => Raise e
    end
  /\ snd (Store.submit_prompt client id prompt clock db session w)
     = snd (chat client agent prompt w)
  /\ (forall n,
        exists pre,
          _get_conversation_context agent (S n)
          = pre ++ "user: " ++ take 100 prompt)
  /\ (forall n,
        _get_conversation_context agent (S n) <> "No previous conversation.")
  /\ mined_preferences agent
     = preference_step
         (fold_left preference_step
            (last_n 9 (map Store.as_message session)) ([], []))
         (Store.as_message shown).
Proof.
  intros Hprompt Hdata. cbv zeta.
  assert (Hexcerpt : forall n,
    exists pre,
      _get_conversation_context
        (Store.agent_for ud
           (session
            ++ [ {| Store.entry_role := "user";
                    Store.entry_content := prompt;
                    Store.entry_timestamp := clock 1%nat |} ])) (S n)
      = pre ++ "user: " ++ take 100 prompt).
  { intros n. rewrite context_eq. unfold Store.agent_for.
    cbn [conversation_history]. rewrite map_app. cbn [map].
    destruct (map Store.as_message session ++ _)%list eqn:Hhistory.
    { destruct (map Store.as_message session); discriminate Hhistory. }
    rewrite <- Hhistory. rewrite last_n_snoc, map_app. cbn [map].
    destruct (concat_snoc nl
                (map excerpt_line
                   (last_n n (map Store.as_message session)))
                (excerpt_line
                   (Store.as_message
                      {| Store.entry_role := "user";
                         Store.entry_content := prompt;
                         Store.entry_timestamp := clock 1%nat |})))
      as [pre Hpre].
    exists pre. unfold join. rewrite Hpre.
    f_equal; unfold excerpt_line;
      rewrite as_message_role, as_message_content; reflexivity. }
  split; [|split; [|split; [exact Hexcerpt|split]]].
  - unfold Store.submit_prompt.
    apply String.eqb_neq in Hprompt. rewrite Hprompt.
    cbv zeta. rewrite user_data_after_save, Hdata.
    destruct (chat client _ prompt w) as [[response|e] w']; reflexivity.
  - unfold Store.submit_prompt.
    apply String.eqb_neq in Hprompt. rewrite Hprompt.
    cbv zeta. rewrite user_data_after_save, Hdata.
    destruct (chat client _ prompt w) as [[response|e] w']; reflexivity.
  - intros n Heq. destruct (Hexcerpt n) as [pre Hpre].
    rewrite Hpre in Heq.
    assert (Hcolon : contains ": " (pre ++ "user: " ++ take 100 prompt)
                     = true).
    { apply contains_append_r, contains_append_l. reflexivity. }
    rewrite Heq in Hcolon. vm_compute in Hcolon. discriminate Hcolon.
  - unfold mined_preferences, Store.agent_for.
    cbn [conversation_history]. rewrite map_app. cbn [map].
    rewrite (last_n_snoc 9), fold_left_app. reflexivity.
Qed.

(** X23.  Store and session stay aligned.  A submitted prompt never
    touches the users or the profiles; it appends rows to the
    conversations of the user and entries to the session that record the
    same messages in the same order: the prompt and the reply when the
    agent answers, the prompt alone when the turn fails, so a failed
    turn still stores and shows the prompt. *)
Theorem turn_keeps_store_and_session_aligned (id : Z) (prompt : string)
    (clock : nat -> Z) (db : Store.database)
    (session : list Store.chat_entry) (w : nat) :
  prompt <> "" ->
  let outcome :=
    fst (fst (Store.submit_prompt client id prompt clock db session w)) in
  let db' :=
    fst (snd (fst (Store.submit_prompt client id prompt clock db session w)))
  in
  let session' :=
    snd (snd (fst (Store.submit_prompt client id prompt clock db session w)))
  in
  Store.users db' = Store.users db
  /\ Store.profiles db' = Store.profiles db
  /\ exists rows entries,
       Store.conversations db' = (Store.conversations db ++ rows)%list
       /\ session' = (session ++ entries)%list
       /\ Forall2 (same_record id) rows entries
       /\ match outcome with
          | Ok (Some response) =>
              map (fun entry =>
                     (Store.entry_role entry, Store.entry_content entry))
                entries
              = [ ("user", prompt); ("assistant", response) ]
          | Ok None => False
          | Raise _ =>
              map (fun entry =>
                     (Store.entry_role entry, Store.entry_content entry))
                entries
              = [ ("user", prompt) ]
          end.
Proof.
  intros Hprompt. cbv zeta. unfold Store.submit_prompt.
  apply String.eqb_neq in Hprompt. rewrite Hprompt. cbv zeta.
  destruct (Store.get_user_data id _) as [ud|e].
  - destruct (chat client _ prompt w) as [[response|e] w'];
      cbn [fst snd Store.save_message Store.users Store.profiles
           Store.conversations].
    + split; [reflexivity|]. split; [reflexivity|].
      eexists [_; _], [_; _].
      rewrite <- !app_assoc. simpl.
      split; [reflexivity|]. split; [reflexivity|].
      split; [|reflexivity].
      repeat constructor.
    + split; [reflexivity|]. split; [reflexivity|].
      eexists [_], [_].
      split; [reflexivity|]. split; [reflexivity|].
      split; [|reflexivity].
      repeat constructor.
  - cbn [fst snd Store.save_message Store.users Store.profiles
         Store.conversations].
    split; [reflexivity|]. split; [reflexivity|].
    eexists [_], [_].
    split; [reflexivity|]. split; [reflexivity|].
    split; [|reflexivity].
    repeat constructor.
Qed.

End Turn.

(* ------------------------------------------------------------------ *)
(** ** Closed instances of the further properties *)

(** A witness of [negated_message_adds_no_like]: a message that negates
    cardio and prefers yoga. *)
Lemma negated_message_adds_no_like_witness :
  negated MoreSamples.mixed_message = true
  /\ exists added,
       preference_step (["running"], []) MoreSamples.mixed_message
       = (["running"], ([] ++ added)%list)
       /\ Forall (fun tag => tag ∈ dislike_tags) added
       /\ NoDup added.
Proof.
  split; [vm_compute; reflexivity|].
  apply (negated_message_adds_no_like ["running"] []
           MoreSamples.mixed_message).
  vm_compute. reflexivity.
Defined.

(** A witness of [quiet_history_yields_placeholders]: a history that
    holds one answer of the assistant. *)
Lemma quiet_history_yields_placeholders_witness :
  Forall (fun msg => is_user msg = false) MoreSamples.welcome_history
  /\ give_motivation (Samples.constant_client "ok")
       (Samples.agent_with Samples.filled_profile
          MoreSamples.welcome_history) "hello" 0
     = (Ok "ok", 1).
Proof.
  assert (Hquiet : Forall (fun msg => is_user msg = false)
                     MoreSamples.welcome_history).
  { constructor; [vm_compute; reflexivity|constructor]. }
  split; [exact Hquiet|].
  destruct (quiet_history_yields_placeholders
              (Samples.constant_client "ok")
              (Samples.agent_with Samples.filled_profile
                 MoreSamples.welcome_history) "hello" 0 Hquiet)
    as (_ & _ & Hmotivation & _).
  exact Hmotivation.
Defined.

(** A witness of [decision_decoded_amid_prose]: the sample decision
    between two sentences. *)
Lemma decision_decoded_amid_prose_witness :
  lacks "{" "Sure, here it is: "
  /\ lacks "}" " Let me know."
  /\ json_loads (PyRuntime := Samples.sample_runtime)
       ("{" ++ MoreSamples.decision_body ++ "}")
     = Some Samples.decision_value
  /\ _coordinator_llm MoreSamples.prose_client
       (Samples.agent_with Samples.filled_profile []) "hello" 0
     = (Ok Samples.decision_value, 1).
Proof.
  assert (Hloads : json_loads (PyRuntime := Samples.sample_runtime)
                     ("{" ++ MoreSamples.decision_body ++ "}")
                   = Some Samples.decision_value)
    by (vm_compute; reflexivity).
  split; [reflexivity|]. split; [reflexivity|]. split; [exact Hloads|].
  destruct (decision_decoded_amid_prose MoreSamples.prose_client
              (Samples.agent_with Samples.filled_profile []) "hello"
              "Sure, here it is: " MoreSamples.decision_body " Let me know."
              Samples.decision_value 0 eq_refl eq_refl Hloads eq_refl)
    as [_ Hcoord].
  exact Hcoord.
Defined.

(** A witness of [requests_bounded_by_selection]: two registered tools
    and an unknown one.  The loop makes two requests and the synthesis
    is the third. *)
Lemma requests_bounded_by_selection_witness :
  dict_get "tools"
    [ ("tools",
       JArr (map JStr ["give_motivation"; "stretching"; "create_meal_plan"])) ]
    (JArr [])
  = JArr (map JStr ["give_motivation"; "stretching"; "create_meal_plan"])
  /\ (exists results,
        run_tools (Samples.constant_client "ok")
          (Samples.agent_with Samples.filled_profile [])
          (map JStr ["give_motivation"; "stretching"; "create_meal_plan"])
          "hello" [] 0
        = (Ok results, 2%nat)
        /\ List.length results = 2%nat
        /\ snd (chat_with (Samples.constant_client "ok")
                  (Samples.agent_with Samples.filled_profile [])
                  (JObj [ ("tools",
                           JArr (map JStr ["give_motivation"; "stretching";
                                           "create_meal_plan"])) ])
                  "hello" 0)
           = 3%nat)
  /\ (1 <= snd (chat_with (Samples.constant_client "ok")
                  (Samples.agent_with Samples.filled_profile [])
                  (JObj [ ("tools",
                           JArr (map JStr ["give_motivation"; "stretching";
                                           "create_meal_plan"])) ])
                  "hello" 0)
      <= 3)%nat.
Proof.
  split; [reflexivity|].
  destruct (requests_bounded_by_selection (Samples.constant_client "ok")
              (Samples.agent_with Samples.filled_profile [])
              [ ("tools",
                 JArr (map JStr ["give_motivation"; "stretching";
                                 "create_meal_plan"])) ]
              ["give_motivation"; "stretching"; "create_meal_plan"]
              "hello" 0 eq_refl)
    as [(results & w' & Hrun & Hlen & _ & _ & Hfinal) Hbound].
  split; [|exact Hbound].
  assert (Hw' : w' = 2%nat).
  { assert (Hsnd := f_equal snd Hrun). cbn [snd] in Hsnd.
    rewrite <- Hsnd. vm_compute. reflexivity. }
  subst w'. exists results.
  split; [exact Hrun|]. split; [exact Hlen|exact Hfinal].
Defined.

(** A witness of [unknown_tools_give_direct_reply]: a decision that
    names two tools that do not exist. *)
Lemma unknown_tools_give_direct_reply_witness :
  dict_get "tools"
    [ ("tools", JArr (map JStr ["stretching"; "sleep_advice"])) ] (JArr [])
  = JArr (map JStr ["stretching"; "sleep_advice"])
  /\ Forall (fun name => is_registered name = false)
       ["stretching"; "sleep_advice"]
  /\ chat_with (Samples.constant_client "ok")
       (Samples.agent_with Samples.filled_profile [])
       (JObj [ ("tools", JArr (map JStr ["stretching"; "sleep_advice"])) ])
       "hello" 0
     = (Ok "ok", 1).
Proof.
  assert (Hunknown : Forall (fun name => is_registered name = false)
                       ["stretching"; "sleep_advice"]).
  { repeat constructor. }
  split; [reflexivity|]. split; [exact Hunknown|].
  destruct (unknown_tools_give_direct_reply (Samples.constant_client "ok")
              (Samples.agent_with Samples.filled_profile [])
              [ ("tools", JArr (map JStr ["stretching"; "sleep_advice"])) ]
              ["stretching"; "sleep_advice"] "hello" 0 eq_refl Hunknown)
    as [_ Hchat].
  exact Hchat.
Defined.

(** A witness of [text_as_tool_list_selects_nothing]: the name of a
    registered tool given as a text. *)
Lemma text_as_tool_list_selects_nothing_witness :
  dict_get "tools" [ ("tools", JStr "give_motivation") ] (JArr [])
  = JStr "give_motivation"
  /\ chat_with (Samples.constant_client "ok")
       (Samples.agent_with Samples.filled_profile [])
       (JObj [ ("tools", JStr "give_motivation") ]) "hello" 0
     = (Ok "ok", 1).
Proof.
  split; [reflexivity|].
  apply (text_as_tool_list_selects_nothing (Samples.constant_client "ok")
           (Samples.agent_with Samples.filled_profile [])
           [ ("tools", JStr "give_motivation") ] "give_motivation"
           "hello" 0 eq_refl).
Defined.

(** A witness of [scalar_tool_list_fails_turn]: a null tool list. *)
Lemma scalar_tool_list_fails_turn_witness :
  In (type_name (dict_get "tools" [ ("tools", JNull) ] (JArr [])))
     ["NoneType"; "bool"; "int"; "float"]
  /\ chat_with (Samples.constant_client "ok")
       (Samples.agent_with Samples.filled_profile [])
       (JObj [ ("tools", JNull) ]) "hello" 0
     = (Raise (type_error "'NoneType' object is not iterable"), 0).
Proof.
  split; [simpl; tauto|].
  apply (scalar_tool_list_fails_turn (Samples.constant_client "ok")
           (Samples.agent_with Samples.filled_profile [])
           [ ("tools", JNull) ] "hello" 0).
  simpl. tauto.
Defined.

(** A witness of [nested_selection_fails_turn]: a registered tool
    followed by a list. *)
Lemma nested_selection_fails_turn_witness :
  In (type_name (JArr [JStr "create_meal_plan"])) ["list"; "dict"]
  /\ dict_get "tools"
       [ ("tools",
          JArr [JStr "give_motivation"; JArr [JStr "create_meal_plan"]]) ]
       (JArr [])
     = JArr (map JStr ["give_motivation"]
             ++ JArr [JStr "create_meal_plan"] :: [])
  /\ exists w',
       chat_with (Samples.constant_client "ok")
         (Samples.agent_with Samples.filled_profile [])
         (JObj [ ("tools",
                  JArr [JStr "give_motivation";
                        JArr [JStr "create_meal_plan"]]) ])
         "hello" 0
       = (Raise (type_error "unhashable type: 'list'"), w').
Proof.
  split; [simpl; tauto|]. split; [reflexivity|].
  destruct (nested_selection_fails_turn (Samples.constant_client "ok")
              (Samples.agent_with Samples.filled_profile [])
              [ ("tools",
                 JArr [JStr "give_motivation";
                       JArr [JStr "create_meal_plan"]]) ]
              ["give_motivation"] (JArr [JStr "create_meal_plan"]) []
              "hello" 0 (or_introl eq_refl) eq_refl)
    as (w' & Hchat & _).
  exists w'. exact Hchat.
Defined.

(** A witness of [null_height_becomes_tool_output]: the profile of a
    user who has just registered. *)
Lemma null_height_becomes_tool_output_witness :
  user_data (Samples.agent_with Samples.fresh_profile []) !! "height"
  = Some PNone
  /\ dict_get "tools" [ ("tools", JArr [JStr "calculate_calories"]) ]
       (JArr [])
     = JArr [JStr "calculate_calories"]
  /\ chat_with (Samples.constant_client "Sorry, something went wrong.")
       (Samples.agent_with Samples.fresh_profile [])
       (JObj [ ("tools", JArr [JStr "calculate_calories"]) ]) "hello" 0
     = (Ok "Sorry, something went wrong.", 1).
Proof.
  assert (Hheight :
    user_data (Samples.agent_with Samples.fresh_profile []) !! "height"
    = Some PNone) by (vm_compute; reflexivity).
  split; [exact Hheight|]. split; [reflexivity|].
  apply (null_height_becomes_tool_output
           (Samples.constant_client "Sorry, something went wrong.")
           (Samples.agent_with Samples.fresh_profile [])
           [ ("tools", JArr [JStr "calculate_calories"]) ] "hello" 0
           Hheight eq_refl).
Defined.

(** A witness of [registered_user_can_log_in]: the first user of an
    empty store. *)
Lemma registered_user_can_log_in_witness :
  Store.user_by_name (R := Samples.sample_runtime) Store.empty_database "sam"
  = None
  /\ Store.login_user "sam" "secret" MoreSamples.sam_store
     = (Some {| Store.user_id := 1; Store.username := "sam";
                Store.password := "secret" |}, "Login successful").
Proof.
  split; [reflexivity|].
  destruct (registered_user_can_log_in (R := Samples.sample_runtime)
              "sam" "secret" Store.empty_database eq_refl)
    as (_ & Hlogin & _).
  exact Hlogin.
Defined.

(** A witness of [store_stays_consistent]: the empty store. *)
Lemma store_stays_consistent_witness :
  consistent (R := Samples.sample_runtime) Store.empty_database
  /\ consistent MoreSamples.sam_store.
Proof.
  split; [apply consistent_empty|].
  destruct (store_stays_consistent (R := Samples.sample_runtime)
              Store.empty_database "sam" "secret" 1 ∅ "user" "hello" 10
              consistent_empty) as [Hregistered _].
  exact Hregistered.
Defined.

(** A witness of [new_user_profile_breaks_calorie_tool]: the first user
    of an empty store. *)
Lemma new_user_profile_breaks_calorie_tool_witness :
  consistent (R := Samples.sample_runtime) Store.empty_database
  /\ Store.user_by_name (R := Samples.sample_runtime)
       Store.empty_database "sam" = None
  /\ Store.get_user_data 1 MoreSamples.sam_store = Ok Samples.fresh_profile.
Proof.
  split; [apply consistent_empty|]. split; [reflexivity|].
  destruct (new_user_profile_breaks_calorie_tool
              (R := Samples.sample_runtime) Store.empty_database
              "sam" "secret" consistent_empty eq_refl) as [Hdata _].
  exact Hdata.
Defined.

(** A witness of [user_data_has_fixed_keys]: the dict of that user. *)
Lemma user_data_has_fixed_keys_witness :
  Store.get_user_data 1 MoreSamples.sam_store = Ok Samples.fresh_profile
  /\ fmt_get Samples.fresh_profile "created_at" "recently" = "recently".
Proof.
  assert (Hdata : Store.get_user_data 1 MoreSamples.sam_store
                  = Ok Samples.fresh_profile) by reflexivity.
  split; [exact Hdata|].
  destruct (user_data_has_fixed_keys 1 MoreSamples.sam_store
              Samples.fresh_profile Hdata) as (_ & _ & _ & Hstart).
  exact Hstart.
Defined.

(** A witness of [profile_update_reads_back]: that user submits an age
    and a null weight. *)
Lemma profile_update_reads_back_witness :
  Store.user_by_id MoreSamples.sam_store 1
  = Some {| Store.user_id := 1; Store.username := "sam";
            Store.password := "secret" |}
  /\ Store.profile_of MoreSamples.sam_store 1
     = Some (Store.blank_profile 1 1)
  /\ exists ud,
       Store.get_user_data 1
         (Store.update_profile 1 MoreSamples.sam_profile_data
            MoreSamples.sam_store)
       = Ok ud
       /\ ud !! "age" = Some (PInt 30)
       /\ ud !! "weight" = Some PNone.
Proof.
  split; [reflexivity|]. split; [reflexivity|].
  destruct (profile_update_reads_back 1 MoreSamples.sam_store
              {| Store.user_id := 1; Store.username := "sam";
                 Store.password := "secret" |}
              (Store.blank_profile 1 1) MoreSamples.sam_profile_data
              eq_refl eq_refl) as [(ud & Hdata & _ & Hfields) _].
  exists ud. split; [exact Hdata|]. split.
  - rewrite (Hfields "age") by (apply list_elem_of_In; simpl; tauto).
    vm_compute. reflexivity.
  - rewrite (Hfields "weight") by (apply list_elem_of_In; simpl; tauto).
    vm_compute. reflexivity.
Defined.

(** A witness of [conversations_kept_apart]: insertion sort as the
    ordering, and a second message of that user. *)
Lemma conversations_kept_apart_witness :
  orders_by_timestamp insertion_order
  /\ Store.load_conversation_history insertion_order 2
       (Store.save_message 1 "assistant" "hi" 11
          MoreSamples.sam_store_with_message)
     = Store.load_conversation_history insertion_order 2
         MoreSamples.sam_store_with_message.
Proof.
  split; [apply insertion_order_valid|].
  destruct (conversations_kept_apart (R := Samples.sample_runtime)
              insertion_order 1 "assistant" "hi" 11
              MoreSamples.sam_store_with_message insertion_order_valid)
    as (_ & _ & Hothers).
  apply Hothers. discriminate.
Defined.

(** A witness of [latest_message_loads_last]: the same store and a
    message at a later time. *)
Lemma latest_message_loads_last_witness :
  orders_by_timestamp insertion_order
  /\ (forall row,
        In row (Store.conversations MoreSamples.sam_store_with_message) ->
        Store.conversation_user_id row = 1%Z ->
        (Store.timestamp row < 11)%Z)
  /\ exists earlier,
       Store.load_conversation_history insertion_order 1
         (Store.save_message 1 "assistant" "hi" 11
            MoreSamples.sam_store_with_message)
       = (earlier
          ++ [ {| Store.entry_role := "assistant";
                  Store.entry_content := "hi";
                  Store.entry_timestamp := 11 |} ])%list.
Proof.
  assert (Hnewer : forall row,
    In row (Store.conversations MoreSamples.sam_store_with_message) ->
    Store.conversation_user_id row = 1%Z -> (Store.timestamp row < 11)%Z).
  { intros row [<-|[]] _. simpl. lia. }
  split; [apply insertion_order_valid|]. split; [exact Hnewer|].
  destruct (latest_message_loads_last (R := Samples.sample_runtime)
              insertion_order 1 "assistant" "hi" 11
              MoreSamples.sam_store_with_message insertion_order_valid
              Hnewer) as (earlier & Hload & _).
  exists earlier. exact Hload.
Defined.

(** A witness of [prompt_is_part_of_history]: the first prompt of that
    user. *)
Lemma prompt_is_part_of_history_witness :
  "hello" <> ""
  /\ Store.get_user_data 1 MoreSamples.sam_store = Ok Samples.fresh_profile
  /\ fst (fst (Store.submit_prompt (Samples.constant_client "Hi")
                 1 "hello" MoreSamples.sample_clock MoreSamples.sam_store
                 [] 0))
     = match fst (chat (Samples.constant_client "Hi")
                    (Store.agent_for Samples.fresh_profile
                       [ {| Store.entry_role := "user";
                            Store.entry_content := "hello";
                            Store.entry_timestamp :=
                              MoreSamples.sample_clock 1 |} ])
                    "hello" 0) with
       | Ok response => Ok (Some response)
       | Raise e => Raise e
       end.
Proof.
  assert (Hprompt : "hello" <> "") by discriminate.
  assert (Hdata : Store.get_user_data 1 MoreSamples.sam_store
                  = Ok Samples.fresh_profile) by reflexivity.
  split; [exact Hprompt|]. split; [exact Hdata|].
  destruct (prompt_is_part_of_history (Samples.constant_client "Hi")
              1 "hello" MoreSamples.sample_clock MoreSamples.sam_store []
              Samples.fresh_profile 0 Hprompt Hdata) as [Houtcome _].
  exact Houtcome.
Defined.

(** A witness of [turn_keeps_store_and_session_aligned]: a turn that
    fails because the service cannot be reached. *)
Lemma turn_keeps_store_and_session_aligned_witness :
  "hello" <> ""
  /\ Store.users
       (fst (snd (fst (Store.submit_prompt Samples.failing_client 1 "hello"
                         MoreSamples.sample_clock MoreSamples.sam_store
                         [] 0))))
     = Store.users MoreSamples.sam_store.
Proof.
  assert (Hprompt : "hello" <> "") by discriminate.
  split; [exact Hprompt|].
  destruct (turn_keeps_store_and_session_aligned Samples.failing_client
              1 "hello" MoreSamples.sample_clock MoreSamples.sam_store []
              0 Hprompt) as [Husers _].
  exact Husers.
Defined.

(* ------------------------------------------------------------------ *)
(** ** Turns that complete, and what reaches the synthesis *)

Section Completion.
Context {R : PyRuntime}.
Variable client : completion.
Variable self : FitnessCoachAgent.

(** X24.  A turn completes when the service answers.  If the service
    answers every request, and the answer to the coordination request
    either cannot be decoded or decodes to an object whose tool list is
    absent or a list of identifiers, then [chat] returns a reply: a tool
    that fails on the profile is absorbed into its entry and cannot fail
    the turn. *)
Theorem turn_completes_when_service_answers (user_message : string)
    (w : nat) :
  (forall n messages temperature,
     exists text, client n messages temperature = Ok text) ->
  (forall response,
     client w (coordination_request self user_message) 2%Z = Ok response ->
     exists members names,
       decode_decision response = JObj members
       /\ dict_get "tools" members (JArr []) = JArr (map JStr names)) ->
  exists reply w', chat client self user_message w = (Ok reply, w').
Proof.
  intros Hanswers Hshape. rewrite chat_eq.
  destruct (Hanswers w (coordination_request self user_message) 2%Z)
    as [response Hresponse].
  rewrite Hresponse.
  destruct (Hshape response Hresponse) as (members & names & -> & Htools).
  rewrite (chat_with_items client self members (map JStr names));
    [|rewrite Htools; reflexivity].
  destruct (run_tools_budget client self names user_message [] (S w))
    as (results & w' & Hres & _).
  rewrite Hres.
  destruct results as [|tr trs].
  - rewrite synthesize_nil.
    destruct (Hanswers w' (direct_request self user_message) 7%Z)
      as [reply Hreply].
    rewrite Hreply. eauto.
  - rewrite synthesize_cons.
    destruct (Hanswers w'
                (synthesis_request self user_message (tr :: trs)) 7%Z)
      as [reply Hreply].
    rewrite Hreply. eauto.
Qed.

Lemma prefix_refl (s : string) : String.prefix s s = true.
Proof.
  induction s as [|c s IH]; [reflexivity|].
  simpl. destruct (ascii_dec c c); [exact IH|contradiction].
Qed.

Lemma contains_refl (s : string) : contains s s = true.
Proof.
  destruct s as [|c s]; [reflexivity|].
  rewrite contains_cons, prefix_refl. reflexivity.
Qed.

Lemma contains_part (w sep : string) (parts : list string) (part : string) :
  In part parts -> contains w part = true ->
  contains w (String.concat sep parts) = true.
Proof.
  intros Hin Hw. induction parts as [|x [|y parts] IH].
  - destruct Hin.
  - destruct Hin as [<-|[]]. exact Hw.
  - change (String.concat sep (x :: y :: parts))
      with (x ++ sep ++ String.concat sep (y :: parts)).
    destruct Hin as [<-|Hin].
    + apply contains_append_l. exact Hw.
    + apply contains_append_r, contains_append_r, IH. exact Hin.
Qed.

(** X25.  Nothing is lost before the synthesis.  The instruction of the
    synthesis request holds the message of the user and, for every entry
    of the tool results, its label "=== tool ===" and its text as they
    are, so the error text of a failed tool reaches the synthesis
    unchanged. *)
Theorem synthesis_request_embeds_entries (user_message : string)
    (tool_results : list tool_result) (tr : tool_result) :
  In tr tool_results ->
  exists instruction,
    synthesis_request self user_message tool_results
    = [ ("user", instruction) ]
    /\ contains user_message instruction = true
    /\ contains ("=== " ++ tool tr ++ " ===") instruction = true
    /\ contains (result_text tr) instruction = true.
Proof.
  intros Hin. eexists. split; [reflexivity|].
  assert (Houtput : forall w,
            contains w (tool_output tr) = true ->
            contains w
              (synthesis_prompt (user_data self) user_message
                 (join (nl ++ nl) (map tool_output tool_results)))
            = true).
  { intros w Hw. unfold synthesis_prompt.
    apply (contains_part w EmptyString _
             (join (nl ++ nl) (map tool_output tool_results)));
      [simpl; tauto|].
    apply (contains_part w (nl ++ nl) _ (tool_output tr));
      [apply in_map; exact Hin|exact Hw]. }
  split; [|split].
  - unfold synthesis_prompt.
    apply (contains_part user_message EmptyString _ user_message);
      [simpl; tauto|apply contains_refl].
  - apply Houtput. unfold tool_output.
    replace ("=== " ++ tool tr ++ " ===" ++ nl ++ result_text tr)
      with (("=== " ++ tool tr ++ " ===") ++ nl ++ result_text tr)
      by (rewrite !append_assoc; reflexivity).
    apply contains_append_l, contains_refl.
  - apply Houtput. unfold tool_output.
    do 4 apply contains_append_r. apply contains_refl.
Qed.

End Completion.

(** A witness of [turn_completes_when_service_answers]: a service that
    answers every request in plain words. *)
Lemma turn_completes_when_service_answers_witness :
  (forall n messages temperature,
     exists text, Samples.constant_client "ok" n messages temperature
                  = Ok text)
  /\ exists reply w',
       chat (Samples.constant_client "ok")
         (Samples.agent_with Samples.fresh_profile []) "hello" 0
       = (Ok reply, w').
Proof.
  assert (Hanswers : forall n messages temperature,
            exists text, Samples.constant_client "ok" n messages temperature
                         = Ok text).
  { intros n messages temperature. exists "ok". reflexivity. }
  split; [exact Hanswers|].
  apply (turn_completes_when_service_answers (Samples.constant_client "ok")
           (Samples.agent_with Samples.fresh_profile []) "hello" 0 Hanswers).
  intros response Hresponse. injection Hresponse as <-.
  exists [ ("tools", JArr []); ("reasoning", JStr "parsing error");
           ("context_aware", JStr "none") ], [].
  split; reflexivity.
Defined.

(** A witness of [synthesis_request_embeds_entries]: the entry of a
    tool that failed. *)
Lemma synthesis_request_embeds_entries_witness :
  In {| tool := "calculate_calories"; result_text := "Error: no height" |}
     [ {| tool := "calculate_calories"; result_text := "Error: no height" |} ]
  /\ exists instruction,
       synthesis_request (Samples.agent_with Samples.fresh_profile [])
         "hello"
         [ {| tool := "calculate_calories";
              result_text := "Error: no height" |} ]
       = [ ("user", instruction) ]
       /\ contains "Error: no height" instruction = true.
Proof.
  split; [left; reflexivity|].
  destruct (synthesis_request_embeds_entries
              (Samples.agent_with Samples.fresh_profile []) "hello"
              [ {| tool := "calculate_calories";
                   result_text := "Error: no height" |} ]
              {| tool := "calculate_calories";
                 result_text := "Error: no height" |}
              (or_introl eq_refl))
    as (instruction & Hrequest & _ & _ & Htext).
  exists instruction. split; [exact Hrequest|exact Htext].
Defined.
